(** * PLM BOM Import Tool: a shallow embedding and its properties

    The development follows
    [plm_bom/plm_bom/doctype/plm_bom_import_tool/plm_bom_import_tool.py]:
    first the Python values and the [frappe.utils] helpers the module
    imports, then the module's own functions in source order, then the
    properties.

    Python strings are modelled as [string] (bytes, so ASCII text), Python
    integers as [Z] or [nat], Python floats as [pyfloat] (a rational, an
    infinity or NaN: only sign tests, zero tests and truncation are used by
    the module, rounding plays no role), dictionaries as [gmap] or, where
    the iteration order matters, as association lists. *)

From Stdlib Require Import Ascii String ZArith QArith Qcanon.
From stdpp Require Import base decidable option list strings gmap pretty.
From stdpp Require Import sorting.

Local Open Scope string_scope.
Local Open Scope Z_scope.
Local Open Scope list_scope.

(** ** Python strings *)

Module Py.

(** [str.isspace] on one ASCII character: TAB, LF, VT, FF, CR, the four
    separators FS GS RS US and the blank. *)
Definition isspace (a : ascii) : bool :=
  let n := nat_of_ascii a in
  ((9 <=? n)%nat && (n <=? 13)%nat) || ((28 <=? n)%nat && (n <=? 32)%nat).

Fixpoint lstrip (s : string) : string :=
  match s with
  | String a s' => if isspace a then lstrip s' else s
  | EmptyString => EmptyString
  end.

Fixpoint rstrip (s : string) : string :=
  match s with
  | String a s' =>
      match rstrip s' with
      | EmptyString => if isspace a then EmptyString else String a EmptyString
      | r => String a r
      end
  | EmptyString => EmptyString
  end.

(** [s.strip()] *)
Definition strip (s : string) : string := rstrip (lstrip s).

(** [s.split()]: the maximal runs of non-blank characters, in order;
    [cur] is the run being read. *)
Fixpoint split_go (cur : string) (s : string) : list string :=
  match s with
  | EmptyString => match cur with EmptyString => [] | _ => [cur] end
  | String a s' =>
      if isspace a
      then match cur with
           | EmptyString => split_go EmptyString s'
           | _ => cur :: split_go EmptyString s'
           end
      else split_go (cur +:+ String a EmptyString) s'
  end.

Definition split (s : string) : list string := split_go EmptyString s.

Fixpoint map_chars (f : ascii → ascii) (s : string) : string :=
  match s with
  | String a s' => String (f a) (map_chars f s')
  | EmptyString => EmptyString
  end.

(** [s.replace(old, new)] for one-character [old] and [new]. *)
Definition replace_char (old new : ascii) (s : string) : string :=
  map_chars (λ a, if Ascii.eqb a old then new else a) s.

(** [s.replace(old, "")] for a one-character [old]. *)
Fixpoint remove_char (old : ascii) (s : string) : string :=
  match s with
  | String a s' =>
      if Ascii.eqb a old then remove_char old s' else String a (remove_char old s')
  | EmptyString => EmptyString
  end.

Definition lower_char (a : ascii) : ascii :=
  let n := nat_of_ascii a in
  if (65 <=? n)%nat && (n <=? 90)%nat then ascii_of_nat (n + 32) else a.

(** [s.lower()] *)
Definition lower (s : string) : string := map_chars lower_char s.

(** [s.lstrip(".")]: drops the leading dots. *)
Fixpoint lstrip_dots (s : string) : string :=
  match s with
  | String a s' => if Ascii.eqb a "."%char then lstrip_dots s' else s
  | EmptyString => EmptyString
  end.

(** Truth value of a string: non-empty. *)
Definition truthy (s : string) : bool :=
  match s with EmptyString => false | _ => true end.

(** ["sep".join(parts)] *)
Fixpoint join (sep : string) (parts : list string) : string :=
  match parts with
  | [] => EmptyString
  | [p] => p
  | p :: rest => p +:+ sep +:+ join sep rest
  end.

(** [str(n)] for a non-negative integer. *)
Definition str_nat (n : nat) : string := pretty n.

End Py.

(** ** Python numbers and spreadsheet cells *)

(** A Python [float] (an [int] cell is the float of the same value). *)
Inductive pyfloat :=
| Finite (q : Qc)
| Inf (negative : bool)
| NaN.

(** [x > 0] *)
Definition gt0 (x : pyfloat) : bool :=
  match x with
  | Finite q => 0 <? Qnum (this q)
  | Inf negative => negb negative
  | NaN => false
  end.

(** [x] is a positive number. *)
Definition positive_number (x : pyfloat) : Prop :=
  match x with
  | Finite q => (0 < q)%Qc
  | Inf negative => negative = false
  | NaN => False
  end.

(** Truth value of a number: [x != 0]. *)
Definition nonzero (x : pyfloat) : bool :=
  match x with
  | Finite q => negb (Qnum (this q) =? 0)
  | _ => true
  end.

(** [int(x)]: truncation toward zero; raises on an infinity or NaN
    ([None]). *)
Definition py_int (x : pyfloat) : option Z :=
  match x with
  | Finite q => Some (Z.quot (Qnum (this q)) (Zpos (Qden (this q))))
  | _ => None
  end.

(** [a == b] on floats. *)
Definition pyfloat_eqb (a b : pyfloat) : bool :=
  match a, b with
  | Finite p, Finite q => Qeq_bool (this p) (this q)
  | Inf m, Inf n => Bool.eqb m n
  | _, _ => false
  end.

(** A cell as the readers yield it: [None], a string, or a number. *)
Inductive cell :=
| CNone
| CStr (s : string)
| CNum (x : pyfloat).

Definition row := list cell.

(** Truth value of a cell, as [any(row)] and [if value:] test it. *)
Definition cell_truthy (c : cell) : bool :=
  match c with
  | CNone => false
  | CStr s => Py.truthy s
  | CNum x => nonzero x
  end.

(** [value in (None, "")] *)
Definition in_none_or_empty (c : cell) : bool :=
  match c with
  | CNone => true
  | CStr EmptyString => true
  | _ => false
  end.

(** ** The Python runtime and [frappe.utils]

    [float(s)] on a string and [str(x)] on a number belong to the Python
    runtime; they are parameters of the development. *)

Class PyRuntime := {
  (** [float(s)]; [None] when it raises [ValueError]. *)
  py_float : string → option pyfloat;
  (** [str(x)] for a numeric cell. *)
  py_str : pyfloat → string;
}.

Section FrappeUtils.
Context `{PyRuntime}.

(** [frappe.utils.cstr]: strings are returned as they are, [None] is the
    empty string, anything else goes through [str]. *)
Definition cstr (c : cell) : string :=
  match c with
  | CNone => EmptyString
  | CStr s => s
  | CNum x => py_str x
  end.

(** [frappe.utils.flt]: commas are removed from a string, then [float] is
    tried; any exception gives [0.0]. *)
Definition flt (c : cell) : pyfloat :=
  match c with
  | CNone => Finite 0
  | CStr s => default (Finite 0) (py_float (Py.remove_char ","%char s))
  | CNum x => x
  end.

(** [frappe.utils.cint]: [int(float(s))], and [0] on any exception. *)
Definition cint (c : cell) : Z :=
  match c with
  | CNone => 0
  | CStr s => default 0 (py_float s ≫= py_int)
  | CNum x => default 0 (py_int x)
  end.

(** [frappe.scrub] *)
Definition scrub (txt : string) : string :=
  Py.lower (Py.replace_char "-"%char "_"%char (Py.replace_char " "%char "_"%char txt)).

(** ** Quantity parser (source lines 370-393) *)

(** The first half of [parse_qty_and_uom]: the value handed to [flt] and
    the unit token. On a non-blank string [parts] is never empty (lemma
    [split_strip_nonempty]), so the last branch is not reached. *)
Definition qty_tokens (value : cell) : cell * string :=
  match value with
  | CStr s =>
      let value := Py.strip s in
      if Py.truthy value then
        match Py.split value with
        | p0 :: p1 :: _ => (CStr p0, p1)
        | [p0] => (CStr p0, EmptyString)
        | [] => (CStr value, EmptyString)
        end
      else (CStr value, EmptyString)
  | _ => (value, EmptyString)
  end.

Definition parse_qty_and_uom (value : cell) : pyfloat * string :=
  let '(value, uom) := qty_tokens value in
  let qty := if in_none_or_empty value then Finite 0 else flt value in
  (if gt0 qty then qty else Finite 1, uom).

Definition normalize_qty (value : cell) : pyfloat :=
  let qty := fst (parse_qty_and_uom value) in
  if gt0 qty then qty else Finite 1.

Definition map_qty_uom (uom : string) : string :=
  let uom := Py.lower (Py.strip uom) in
  if bool_decide (uom ∈ ["each"; "ea"; "nos"; "no"; "pcs"; "pc"])
  then "Nos" else EmptyString.

End FrappeUtils.

(** ** Row normalizer (source lines 319-367) *)

(** The [aliases] dictionary of [build_header_map]. *)
Definition aliases : list (string * string) :=
  [ ("number", "item_code"); ("item_code", "item_code"); ("code", "item_code");
    ("name", "item_name"); ("item_name", "item_name");
    ("description", "description");
    ("gst_hsn_code", "gst_hsn_code"); ("gst_hsn", "gst_hsn_code");
    ("hsn_code", "gst_hsn_code");
    ("material", "custom_material"); ("length", "custom_length");
    ("width", "custom_width"); ("height", "custom_height");
    ("diameter", "custom_diameter"); ("thickness", "custom_thickness");
    ("weight", "custom_weight");
    ("part_type", "item_group"); ("parttype", "item_group");
    ("item_group", "item_group");
    ("uom", "stock_uom"); ("stock_uom", "stock_uom");
    ("structure_level", "structure_level"); ("level", "structure_level");
    ("structurelevel", "structure_level");
    ("qty", "qty"); ("quantity", "qty") ].

(** [aliases[k]], or [None] when [k not in aliases]. *)
Fixpoint alias_of (k : string) (table : list (string * string)) : option string :=
  match table with
  | [] => None
  | (k', v) :: rest => if String.eqb k k' then Some v else alias_of k rest
  end.

(** [enumerate(l, start)] *)
Fixpoint enumerate {A} (start : nat) (l : list A) : list (nat * A) :=
  match l with
  | [] => []
  | x :: rest => (start, x) :: enumerate (S start) rest
  end.

(** [any(row)] *)
Definition any (r : row) : bool := existsb cell_truthy r.

Section RowNormalizer.
Context `{PyRuntime}.

(** The header map is a dictionary from column index to field name; its
    keys are inserted in increasing order and [extract_row_data] iterates
    over it in that order, which the association list keeps. *)
Definition build_header_map (headers : row) : list (nat * string) :=
  omap (λ '(idx, header),
          let normalized := scrub (cstr header) in
          (λ field, (idx, field)) <$> alias_of normalized aliases)
       (enumerate 0 headers).

(** [field in header_map.values()] *)
Definition has_field (field : string) (header_map : list (nat * string)) : bool :=
  existsb (λ '(_, f), String.eqb f field) header_map.

Definition strip_cell (value : cell) : cell :=
  match value with
  | CStr s => CStr (Py.strip s)
  | _ => value
  end.

Definition extract_row_data (r : row) (header_map : list (nat * string))
  : gmap string cell :=
  foldl (λ row_data '(idx, fieldname),
           match r !! idx with
           | None => row_data
           | Some value => <[fieldname := strip_cell value]> row_data
           end)
        ∅ header_map.

(** [row_data.get(field)] *)
Definition get (row_data : gmap string cell) (field : string) : cell :=
  default CNone (row_data !! field).

End RowNormalizer.

(** ** The document store

    The records the module reads and writes through [frappe]. An unset
    attribute of a document is [None]. *)

Module Item.
Record doc := {
  item_code : string;
  item_name : string;
  item_group : string;
  stock_uom : string;
  description : cell;
  gst_hsn_code : option string;
  custom_material : cell;
  custom_length : pyfloat;
  custom_width : pyfloat;
  custom_height : pyfloat;
  custom_diameter : pyfloat;
  custom_thickness : pyfloat;
  custom_weight : pyfloat;
}.
End Item.

Module ItemGroup.
Record doc := {
  item_group_name : string;
  parent_item_group : string;
  is_group : Z;
}.
End ItemGroup.

(** One row of the [items] table of a BOM Creator. [parent_row_no] is a row
    number or the empty string, here [None]. *)
Module BomItem.
Record doc := {
  item_code : string;
  item_name : option string;
  item_group : option string;
  fg_item : string;
  qty : pyfloat;
  uom : option string;
  stock_uom : option string;
  stock_qty : pyfloat;
  allow_alternative_item : Z;
  parent_row_no : option nat;
  idx : nat;
}.
End BomItem.

Module BomCreator.
Record doc := {
  name : string;
  company : string;
  currency : string;
  rm_cost_as_per : string;
  item_code : string;
  qty : pyfloat;
  item_name : option string;
  item_group : option string;
  uom : option string;
  items : list BomItem.doc;
  docstatus : Z;
}.
End BomCreator.

(** The PLM BOM Import Tool document the request names. *)
Module Tool.
Record doc := {
  plm_file : string;
  item_creation_log : string;
  bom_creation_log : string;
  bom_parent_item : string;
}.
End Tool.

(** The attached file: the second component of [get_extension()] and the
    rows [load_rows] reads from it. *)
Record attachment := {
  extension_part : string;
  file_rows : list row;
}.

Record store := {
  tool : Tool.doc;
  files : string → attachment;
  item_table : list Item.doc;
  item_group_table : list ItemGroup.doc;
  bom_creator_table : list BomCreator.doc;
  user_default_company : option string;
  global_default_company : option string;
  default_currency : string → option string;
}.

(** [frappe.db.exists("Item", name)] *)
Definition item_exists (d : store) (name : string) : bool :=
  existsb (λ it, String.eqb (Item.item_code it) name) (item_table d).

(** [frappe.db.exists("Item Group", name)] *)
Definition item_group_exists (d : store) (name : string) : bool :=
  existsb (λ g, String.eqb (ItemGroup.item_group_name g) name) (item_group_table d).

(** [frappe.db.exists("BOM Creator", name)] *)
Definition bom_creator_exists (d : store) (name : string) : bool :=
  existsb (λ b, String.eqb (BomCreator.name b) name) (bom_creator_table d).

(** The names of the persisted BOM Creators. *)
Definition bom_creator_names (d : store) : gset string :=
  list_to_set (BomCreator.name <$> bom_creator_table d).

(** [frappe.get_cached_value("Item", name, "stock_uom")] *)
Definition item_stock_uom (d : store) (name : string) : option string :=
  Item.stock_uom <$> find (λ it, String.eqb (Item.item_code it) name) (item_table d).

Definition with_items (d : store) (l : list Item.doc) : store :=
  {| tool := tool d; files := files d; item_table := l;
     item_group_table := item_group_table d;
     bom_creator_table := bom_creator_table d;
     user_default_company := user_default_company d;
     global_default_company := global_default_company d;
     default_currency := default_currency d |}.

Definition with_item_groups (d : store) (l : list ItemGroup.doc) : store :=
  {| tool := tool d; files := files d; item_table := item_table d;
     item_group_table := l;
     bom_creator_table := bom_creator_table d;
     user_default_company := user_default_company d;
     global_default_company := global_default_company d;
     default_currency := default_currency d |}.

Definition with_bom_creators (d : store) (l : list BomCreator.doc) : store :=
  {| tool := tool d; files := files d; item_table := item_table d;
     item_group_table := item_group_table d;
     bom_creator_table := l;
     user_default_company := user_default_company d;
     global_default_company := global_default_company d;
     default_currency := default_currency d |}.

Definition with_tool (d : store) (t : Tool.doc) : store :=
  {| tool := t; files := files d; item_table := item_table d;
     item_group_table := item_group_table d;
     bom_creator_table := bom_creator_table d;
     user_default_company := user_default_company d;
     global_default_company := global_default_company d;
     default_currency := default_currency d |}.

(** Whether a write through the document layer raises. The module catches
    these three with [except Exception]; a write that raises leaves the
    store, or the document appended to, as it was. *)
Class Collaborators := {
  insert_item_group_raises : store → ItemGroup.doc → bool;
  insert_item_raises : store → Item.doc → bool;
  append_raises : BomCreator.doc → BomItem.doc → bool;
}.

(** What an entry point does: return, [frappe.throw], or exhaust the fuel
    given to the [while True] loop of [get_unique_bom_creator_name]. *)
Inductive result (A : Type) :=
| Ok (a : A)
| Throw (msg : string)
| OutOfFuel.
Arguments Ok {A} a.
Arguments Throw {A} msg.
Arguments OutOfFuel {A}.

(** [get_file] and [load_rows] (source lines 295-316): the file and its
    extension, or ([inl]) the message thrown for an unsupported one. *)
Definition get_file (d : store) (file_name : string) : string + attachment * string :=
  let file_doc := files d file_name in
  let extension := Py.lstrip_dots (extension_part file_doc) in
  if bool_decide (extension ∈ ["csv"; "xlsx"; "xls"])
  then inr (file_doc, extension)
  else inl "Only CSV and Excel files are supported.".

Definition load_rows (file_doc : attachment) (extension : string) : list row :=
  file_rows file_doc.

(** ** Flat item import (source lines 17-104) *)

Module Items.

(** What the loop body does with one row: the [continue] taken, or the end
    of the body reached through the [try] or its [except]. *)
Inductive outcome :=
| Blank
| MissingItemCode
| MissingItemGroup (item_code : string)
| GroupFailed (item_code : string)
| Duplicate (item_code : string)
| Created (item_code : string)
| InsertFailed (item_code : string).

(** The local variables of the loop, and the store. *)
Record state := {
  db : store;
  logs : list string;
  created : nat;
  duplicates : nat;
  skipped : nat;
  errors : nat;
}.

Record report := {
  summary : string;
  log : string;
}.

End Items.

Definition newline : string := String (ascii_of_nat 10) EmptyString.

Section ImportItems.
Context `{PyRuntime} `{Collaborators}.

(** [ensure_item_group] (source lines 396-405); [None] when the insert
    raises. *)
Definition ensure_item_group (d : store) (item_group : string) : option (string * store) :=
  if item_group_exists d item_group then Some (item_group, d)
  else
    let group_doc :=
      {| ItemGroup.item_group_name := item_group;
         ItemGroup.parent_item_group := "All Item Groups";
         ItemGroup.is_group := cint (CNum (Finite 0)) |} in
    if insert_item_group_raises d group_doc then None
    else Some (ItemGroup.item_group_name group_doc,
               with_item_groups d (item_group_table d ++ [group_doc])).

(** The item document of source lines 69-88. *)
Definition new_item (row_data : gmap string cell) (item_code item_group : string)
  : Item.doc :=
  let or_str (a b : string) := if Py.truthy a then a else b in
  let dimension (field : string) :=
    if cell_truthy (get row_data field) then flt (get row_data field) else Finite 0 in
  {| Item.item_code := item_code;
     Item.item_name := or_str (Py.strip (cstr (get row_data "item_name"))) item_code;
     Item.item_group := item_group;
     Item.stock_uom := or_str (Py.strip (cstr (get row_data "stock_uom"))) "Nos";
     Item.description :=
       if cell_truthy (get row_data "description")
       then get row_data "description" else CNone;
     Item.gst_hsn_code :=
       if cell_truthy (get row_data "gst_hsn_code")
       then Some (Py.strip (cstr (get row_data "gst_hsn_code"))) else None;
     Item.custom_material := get row_data "custom_material";
     Item.custom_length := dimension "custom_length";
     Item.custom_width := dimension "custom_width";
     Item.custom_height := dimension "custom_height";
     Item.custom_diameter := dimension "custom_diameter";
     Item.custom_thickness := dimension "custom_thickness";
     Item.custom_weight := dimension "custom_weight" |}.

(** The body of the loop at source lines 39-95, up to the bookkeeping:
    which way the row goes and what it leaves in the store. *)
Definition items_row (header_map : list (nat * string)) (d : store) (r : row)
  : Items.outcome * store :=
  if negb (any r) then (Items.Blank, d)
  else
    let row_data := extract_row_data r header_map in
    let item_code := Py.strip (cstr (get row_data "item_code")) in
    if negb (Py.truthy item_code) then (Items.MissingItemCode, d)
    else
      let item_group := Py.strip (cstr (get row_data "item_group")) in
      if negb (Py.truthy item_group) then (Items.MissingItemGroup item_code, d)
      else
        match ensure_item_group d item_group with
        | None => (Items.GroupFailed item_code, d)
        | Some (item_group, d) =>
            if item_exists d item_code then (Items.Duplicate item_code, d)
            else
              let item_doc := new_item row_data item_code item_group in
              if insert_item_raises d item_doc then (Items.InsertFailed item_code, d)
              else (Items.Created item_code, with_items d (item_table d ++ [item_doc]))
        end.

(** The line a row appends to [logs]. *)
Definition items_log_line (row_idx : nat) (o : Items.outcome) : option string :=
  let row := "Row " +:+ Py.str_nat row_idx in
  match o with
  | Items.Blank => None
  | Items.MissingItemCode => Some (row +:+ ": skipped (missing item code).")
  | Items.MissingItemGroup item_code =>
      Some (row +:+ ": skipped " +:+ item_code +:+ " (missing part type / item group).")
  | Items.GroupFailed item_code =>
      Some (row +:+ ": failed " +:+ item_code +:+ " (could not create item group).")
  | Items.Duplicate item_code =>
      Some (row +:+ ": duplicate " +:+ item_code +:+ " (already exists).")
  | Items.Created item_code => Some (row +:+ ": created " +:+ item_code +:+ ".")
  | Items.InsertFailed item_code =>
      Some (row +:+ ": failed " +:+ item_code +:+ " (see error log).")
  end.

(** The counters a row increments: created, duplicates, skipped, errors. *)
Definition items_count (o : Items.outcome) : nat * nat * nat * nat :=
  match o with
  | Items.Blank => (0, 0, 0, 0)
  | Items.MissingItemCode | Items.MissingItemGroup _ => (0, 0, 1, 0)
  | Items.GroupFailed _ | Items.InsertFailed _ => (0, 0, 0, 1)
  | Items.Duplicate _ => (0, 1, 0, 0)
  | Items.Created _ => (1, 0, 0, 0)
  end%nat.

(** One iteration of the loop. *)
Definition items_step (header_map : list (nat * string)) (st : Items.state)
  (ir : nat * row) : Items.state :=
  let '(row_idx, r) := ir in
  let '(o, d) := items_row header_map (Items.db st) r in
  let '(c, dup, s, e) := items_count o in
  {| Items.db := d;
     Items.logs := Items.logs st ++ option_list (items_log_line row_idx o);
     Items.created := (Items.created st + c)%nat;
     Items.duplicates := (Items.duplicates st + dup)%nat;
     Items.skipped := (Items.skipped st + s)%nat;
     Items.errors := (Items.errors st + e)%nat |}.

Definition items_loop (header_map : list (nat * string)) (st : Items.state)
  (rows : list (nat * row)) : Items.state :=
  foldl (items_step header_map) st rows.

(** The outcome of every row, in order (not a variable of the source: it
    names what each iteration did). *)
Fixpoint items_trace (header_map : list (nat * string)) (d : store)
  (rows : list (nat * row)) : list (nat * Items.outcome) :=
  match rows with
  | [] => []
  | (row_idx, r) :: rest =>
      let '(o, d') := items_row header_map d r in
      (row_idx, o) :: items_trace header_map d' rest
  end.

Definition items_init (d : store) : Items.state :=
  {| Items.db := d; Items.logs := []; Items.created := 0; Items.duplicates := 0;
     Items.skipped := 0; Items.errors := 0 |}.

Definition items_summary (st : Items.state) : string :=
  "Created: " +:+ Py.str_nat (Items.created st)
  +:+ ", Duplicates: " +:+ Py.str_nat (Items.duplicates st)
  +:+ ", Skipped: " +:+ Py.str_nat (Items.skipped st)
  +:+ ", Errors: " +:+ Py.str_nat (Items.errors st) +:+ ".".

(** The checks before the loop; [inr] carries the header map and the data
    rows [rows[1:]] numbered from 2. *)
Definition items_prepare (d : store)
  : string + (list (nat * string) * list (nat * row)) :=
  if negb (Py.truthy (Tool.plm_file (tool d)))
  then inl "Please attach a PLM file before creating items."
  else
    match get_file d (Tool.plm_file (tool d)) with
    | inl msg => inl msg
    | inr (file_doc, extension) =>
        let rows := load_rows file_doc extension in
        match rows with
        | header :: ((_ :: _) as data) =>
            let header_map := build_header_map header in
            if negb (has_field "item_code" header_map)
            then inl "Missing required column: Number / Item Code."
            else inr (header_map, enumerate 2 data)
        | _ => inl "No data found in the attached file."
        end
    end.

Definition import_items (d : store) : result Items.report * store :=
  match items_prepare d with
  | inl msg => (Throw msg, d)
  | inr (header_map, data) =>
      let st := items_loop header_map (items_init d) data in
      let summary := items_summary st in
      let logs := summary :: Items.logs st in
      let doc :=
        {| Tool.plm_file := Tool.plm_file (tool (Items.db st));
           Tool.item_creation_log := Py.join newline logs;
           Tool.bom_creation_log := Tool.bom_creation_log (tool (Items.db st));
           Tool.bom_parent_item := Tool.bom_parent_item (tool (Items.db st)) |} in
      (Ok {| Items.summary := summary; Items.log := Tool.item_creation_log doc |},
       with_tool (Items.db st) doc)
  end.

End ImportItems.

(** ** BOM tree import (source lines 107-292) *)

(** A parsed node (source lines 145-155). *)
Module Node.
Record t := {
  row_idx : nat;
  level : Z;
  item_code : string;
  item_name : string;
  item_group : string;
  qty : pyfloat;
  uom : string;
}.

(** [a == b] on two node dictionaries. *)
Definition eqb (a b : t) : bool :=
  (row_idx a =? row_idx b)%nat && (level a =? level b)
  && String.eqb (item_code a) (item_code b)
  && String.eqb (item_name a) (item_name b)
  && String.eqb (item_group a) (item_group b)
  && pyfloat_eqb (qty a) (qty b)
  && String.eqb (uom a) (uom b).
End Node.

(** A frame of the level stack (source lines 194-200 and 243-249). *)
Module Frame.
Record t := {
  level : Z;
  item_code : string;
  item_row_no : option nat;
}.
End Frame.

Module Bom.

(** What the tree loop does with one node; [Created] and [AppendFailed]
    carry the frame found on top of the stack, [Created] also the row
    appended. *)
Inductive outcome :=
| NoParent
| ItemNotFound
| AppendFailed (parent : Frame.t)
| Created (parent : Frame.t) (row : BomItem.doc).

(** The local variables of the tree loop. The Python list [stack] grows at
    its end; here its last element, the top, is the head of the list. *)
Record state := {
  bom_creator : BomCreator.doc;
  stack : list Frame.t;
  logs : list string;
  created : nat;
  skipped : nat;
  errors : nat;
}.

Record report := {
  summary : string;
  log : string;
  bom_creator_name : string;
}.

End Bom.

Section ImportBomCreator.
Context `{PyRuntime} `{Collaborators}.

(** The body of the loop at source lines 126-155: the node of a data row,
    or [None] when one of the three [continue]s is taken. *)
Definition node_of_row (header_map : list (nat * string)) (row_idx : nat) (r : row)
  : option Node.t :=
  if negb (any r) then None
  else
    let row_data := extract_row_data r header_map in
    let item_code := Py.strip (cstr (get row_data "item_code")) in
    let structure_level := get row_data "structure_level" in
    if in_none_or_empty structure_level then None
    else if negb (Py.truthy item_code) then None
    else
      let level := cint structure_level in
      let qty_value := get row_data "qty" in
      let '(qty, qty_uom) := parse_qty_and_uom qty_value in
      let uom := Py.strip (cstr (get row_data "stock_uom")) in
      let uom :=
        if negb (Py.truthy uom) && Py.truthy qty_uom
        then (let m := map_qty_uom qty_uom in if Py.truthy m then m else EmptyString)
        else uom in
      Some {| Node.row_idx := row_idx; Node.level := level;
              Node.item_code := item_code;
              Node.item_name := Py.strip (cstr (get row_data "item_name"));
              Node.item_group := Py.strip (cstr (get row_data "item_group"));
              Node.qty := qty; Node.uom := uom |}.

Definition parse_nodes (header_map : list (nat * string)) (data : list (nat * row))
  : list Node.t :=
  omap (λ '(row_idx, r), node_of_row header_map row_idx r) data.

(** [min(node["level"] for node in nodes)] on a non-empty list. *)
Fixpoint min_level (first : Node.t) (rest : list Node.t) : Z :=
  match rest with
  | [] => Node.level first
  | n :: rest' => Z.min (Node.level first) (min_level n rest')
  end.

(** [next(node for node in nodes if node["level"] == min_level)]: the first
    such node, together with its position, which stands for the identity
    of the dictionary object. *)
Fixpoint next_at_level (pos : nat) (lvl : Z) (nodes : list Node.t)
  : option (nat * Node.t) :=
  match nodes with
  | [] => None
  | n :: rest =>
      if Node.level n =? lvl then Some (pos, n) else next_at_level (S pos) lvl rest
  end.

(** [nodes.index(root)]: the first position holding the object [root]
    itself or a dictionary equal to it. *)
Fixpoint list_index (pos : nat) (root : nat * Node.t) (nodes : list Node.t)
  : option nat :=
  match nodes with
  | [] => None
  | n :: rest =>
      if (pos =? fst root)%nat || Node.eqb n (snd root) then Some pos
      else list_index (S pos) root rest
  end.

(** Source lines 160-163: the root and [nodes[root_index:]]. *)
Definition select_root (nodes : list Node.t) : option (Node.t * list Node.t) :=
  match nodes with
  | [] => None
  | first :: rest =>
      let lvl := min_level first rest in
      root ← next_at_level 0 lvl nodes;
      root_index ← list_index 0 root nodes;
      Some (snd root, drop root_index nodes)
  end.

(** The [while] loop at source lines 208-209. *)
Fixpoint pop_frames (level : Z) (stack : list Frame.t) : list Frame.t :=
  match stack with
  | top :: rest =>
      if level <=? Frame.level top then pop_frames level rest else stack
  | [] => []
  end.

(** The dictionary appended at source lines 229-240, before the table
    numbers it. *)
Definition new_row (d : store) (node : Node.t) (parent : Frame.t) : BomItem.doc :=
  let parent_row_no :=
    match Frame.item_row_no parent with
    | Some (S k) => Some (S k)
    | _ => None
    end in
  let item_uom :=
    if Py.truthy (Node.uom node) then Some (Node.uom node)
    else item_stock_uom d (Node.item_code node) in
  let item_qty := normalize_qty (CNum (Node.qty node)) in
  let opt (s : string) := if Py.truthy s then Some s else None in
  {| BomItem.item_code := Node.item_code node;
     BomItem.item_name := opt (Node.item_name node);
     BomItem.item_group := opt (Node.item_group node);
     BomItem.fg_item := Frame.item_code parent;
     BomItem.qty := item_qty;
     BomItem.uom := item_uom;
     BomItem.stock_uom := item_uom;
     BomItem.stock_qty := item_qty;
     BomItem.allow_alternative_item := 1;
     BomItem.parent_row_no := parent_row_no;
     BomItem.idx := 0 |}.

(** [Document.append]: the row joins the end of the table and is numbered
    by its position, from 1. *)
Definition numbered (table : list BomItem.doc) (r : BomItem.doc) : BomItem.doc :=
  {| BomItem.item_code := BomItem.item_code r;
     BomItem.item_name := BomItem.item_name r;
     BomItem.item_group := BomItem.item_group r;
     BomItem.fg_item := BomItem.fg_item r;
     BomItem.qty := BomItem.qty r;
     BomItem.uom := BomItem.uom r;
     BomItem.stock_uom := BomItem.stock_uom r;
     BomItem.stock_qty := BomItem.stock_qty r;
     BomItem.allow_alternative_item := BomItem.allow_alternative_item r;
     BomItem.parent_row_no := BomItem.parent_row_no r;
     BomItem.idx := S (length table) |}.

Definition with_rows (b : BomCreator.doc) (l : list BomItem.doc) : BomCreator.doc :=
  {| BomCreator.name := BomCreator.name b;
     BomCreator.company := BomCreator.company b;
     BomCreator.currency := BomCreator.currency b;
     BomCreator.rm_cost_as_per := BomCreator.rm_cost_as_per b;
     BomCreator.item_code := BomCreator.item_code b;
     BomCreator.qty := BomCreator.qty b;
     BomCreator.item_name := BomCreator.item_name b;
     BomCreator.item_group := BomCreator.item_group b;
     BomCreator.uom := BomCreator.uom b;
     BomCreator.items := l;
     BomCreator.docstatus := BomCreator.docstatus b |}.

(** Source lines 207-252 for one node, on the stack already popped: which
    way the node goes. *)
Definition tree_outcome (d : store) (b : BomCreator.doc) (popped : list Frame.t)
  (node : Node.t) : Bom.outcome :=
  match popped with
  | [] => Bom.NoParent
  | parent :: _ =>
      if negb (item_exists d (Node.item_code node)) then Bom.ItemNotFound
      else
        let r := new_row d node parent in
        if append_raises b r then Bom.AppendFailed parent
        else Bom.Created parent (numbered (BomCreator.items b) r)
  end.

Definition tree_log_line (node : Node.t) (o : Bom.outcome) : option string :=
  let row := "Row " +:+ Py.str_nat (Node.row_idx node) in
  match o with
  | Bom.NoParent =>
      Some (row +:+ ": skipped " +:+ Node.item_code node +:+ " (no parent found).")
  | Bom.ItemNotFound =>
      Some (row +:+ ": skipped " +:+ Node.item_code node +:+ " (item not found).")
  | Bom.AppendFailed _ =>
      Some (row +:+ ": failed " +:+ Node.item_code node +:+ " (see error log).")
  | Bom.Created _ _ => None
  end.

(** One iteration of the loop at source lines 206-252. *)
Definition tree_step (d : store) (st : Bom.state) (node : Node.t) : Bom.state :=
  let popped := pop_frames (Node.level node) (Bom.stack st) in
  let o := tree_outcome d (Bom.bom_creator st) popped node in
  let logs := Bom.logs st ++ option_list (tree_log_line node o) in
  match o with
  | Bom.NoParent | Bom.ItemNotFound =>
      {| Bom.bom_creator := Bom.bom_creator st; Bom.stack := popped;
         Bom.logs := logs; Bom.created := Bom.created st;
         Bom.skipped := S (Bom.skipped st); Bom.errors := Bom.errors st |}
  | Bom.AppendFailed _ =>
      {| Bom.bom_creator := Bom.bom_creator st; Bom.stack := popped;
         Bom.logs := logs; Bom.created := Bom.created st;
         Bom.skipped := Bom.skipped st; Bom.errors := S (Bom.errors st) |}
  | Bom.Created _ r =>
      {| Bom.bom_creator :=
           with_rows (Bom.bom_creator st) (BomCreator.items (Bom.bom_creator st) ++ [r]);
         Bom.stack :=
           {| Frame.level := Node.level node;
              Frame.item_code := Node.item_code node;
              Frame.item_row_no := Some (BomItem.idx r) |} :: popped;
         Bom.logs := logs; Bom.created := S (Bom.created st);
         Bom.skipped := Bom.skipped st; Bom.errors := Bom.errors st |}
  end.

Definition tree_loop (d : store) (st : Bom.state) (nodes : list Node.t) : Bom.state :=
  foldl (tree_step d) st nodes.

(** The outcome of every node, in order (not a variable of the source). *)
Fixpoint tree_trace (d : store) (st : Bom.state) (nodes : list Node.t)
  : list (Node.t * Bom.outcome) :=
  match nodes with
  | [] => []
  | node :: rest =>
      (node, tree_outcome d (Bom.bom_creator st)
               (pop_frames (Node.level node) (Bom.stack st)) node)
      :: tree_trace d (tree_step d st node) rest
  end.

(** The frame of the root (source lines 194-200). *)
Definition root_frame (root : Node.t) : Frame.t :=
  {| Frame.level := Node.level root; Frame.item_code := Node.item_code root;
     Frame.item_row_no := None |}.

(** [get_unique_bom_creator_name] (source lines 282-292). [rev_name] is the
    candidate [f"{base_name}-REV{index}"]; the [while True] loop runs on
    [fuel], and [None] is the fuel running out. *)
Definition rev_name (base_name : string) (index : nat) : string :=
  base_name +:+ "-REV" +:+ Py.str_nat index.

Fixpoint rev_candidates (fuel : nat) (d : store) (base_name : string) (index : nat)
  : option string :=
  match fuel with
  | O => None
  | S fuel' =>
      let candidate := rev_name base_name index in
      if negb (bom_creator_exists d candidate) then Some candidate
      else rev_candidates fuel' d base_name (S index)
  end.

Definition get_unique_bom_creator_name (fuel : nat) (d : store) (base_name : cell)
  : option string :=
  let base_name := Py.strip (cstr base_name) in
  if negb (bom_creator_exists d base_name) then Some base_name
  else rev_candidates fuel d base_name 1.

(** The number of [frappe.db.exists("BOM Creator", _)] calls the function
    makes before it returns (not a variable of the source). *)
Fixpoint rev_checks (fuel : nat) (d : store) (base_name : string) (index : nat) : nat :=
  match fuel with
  | O => O
  | S fuel' =>
      let candidate := rev_name base_name index in
      if negb (bom_creator_exists d candidate) then 1%nat
      else S (rev_checks fuel' d base_name (S index))
  end.

Definition name_checks (fuel : nat) (d : store) (base_name : cell) : nat :=
  let base_name := Py.strip (cstr base_name) in
  if negb (bom_creator_exists d base_name) then 1%nat
  else S (rev_checks fuel d base_name 1).

(** [a or b] on two optional strings. *)
Definition or_else (a b : option string) : option string :=
  match a with
  | Some s => if Py.truthy s then a else b
  | None => b
  end.

(** The checks of source lines 116-174 on the rows read from the file;
    [inr] carries the root, the nodes from the root on, the company and the
    currency. [select_root] gives [None] on the empty list only (lemma
    [select_root_is_Some]). *)
Definition nodes_prepare (d : store) (rows : list row)
  : string + (Node.t * list Node.t * string * string) :=
  match rows with
  | header :: ((_ :: _) as data) =>
      let header_map := build_header_map header in
      if negb (has_field "structure_level" header_map)
      then inl "Missing required column: Structure Level."
      else if negb (has_field "item_code" header_map)
      then inl "Missing required column: Number / Item Code."
      else
        match select_root (parse_nodes header_map (enumerate 2 data)) with
        | None => inl "No valid rows found in the attached file."
        | Some (root, nodes) =>
            if negb (item_exists d (Node.item_code root))
            then inl ("Root item " +:+ Node.item_code root
                      +:+ " not found. Please create the item first.")
            else
              match or_else (user_default_company d) (global_default_company d) with
              | Some (String _ _ as company) =>
                  match default_currency d company with
                  | Some (String _ _ as currency) =>
                      inr (root, nodes, company, currency)
                  | _ => inl ("Default currency is not set for company "
                              +:+ company +:+ ".")
                  end
              | _ => inl "Default company is not set."
              end
        end
  | _ => inl "No data found in the attached file."
  end.

(** The checks of source lines 109-174, from the attachment on. *)
Definition bom_prepare (d : store)
  : string + (Node.t * list Node.t * string * string) :=
  if negb (Py.truthy (Tool.plm_file (tool d)))
  then inl "Please attach a PLM file before creating BOM Creator."
  else
    match get_file d (Tool.plm_file (tool d)) with
    | inl msg => inl msg
    | inr (file_doc, extension) => nodes_prepare d (load_rows file_doc extension)
    end.

(** The document built at source lines 176-192. *)
Definition new_bom_creator (d : store) (name : string) (root : Node.t)
  (company currency : string) : BomCreator.doc :=
  let opt (s : string) := if Py.truthy s then Some s else None in
  {| BomCreator.name := name;
     BomCreator.company := company;
     BomCreator.currency := currency;
     BomCreator.rm_cost_as_per := "Valuation Rate";
     BomCreator.item_code := Node.item_code root;
     BomCreator.qty := normalize_qty (CNum (Node.qty root));
     BomCreator.item_name := opt (Node.item_name root);
     BomCreator.item_group := opt (Node.item_group root);
     BomCreator.uom :=
       if Py.truthy (Node.uom root) then Some (Node.uom root)
       else item_stock_uom d (Node.item_code root);
     BomCreator.items := [];
     BomCreator.docstatus := 0 |}.

Definition tree_init (b : BomCreator.doc) (root : Node.t) : Bom.state :=
  {| Bom.bom_creator := b; Bom.stack := [root_frame root]; Bom.logs := [];
     Bom.created := 0; Bom.skipped := 0; Bom.errors := 0 |}.

Definition bom_summary (name : string) (st : Bom.state) : string :=
  "Created BOM Creator " +:+ name
  +:+ ". Items: " +:+ Py.str_nat (Bom.created st)
  +:+ ", Skipped: " +:+ Py.str_nat (Bom.skipped st)
  +:+ ", Errors: " +:+ Py.str_nat (Bom.errors st) +:+ ".".

(** [save], [set_rate_for_items], [save], [submit] (source lines 254-257):
    the document is stored, submitted. *)
Definition submitted (b : BomCreator.doc) : BomCreator.doc :=
  {| BomCreator.name := BomCreator.name b;
     BomCreator.company := BomCreator.company b;
     BomCreator.currency := BomCreator.currency b;
     BomCreator.rm_cost_as_per := BomCreator.rm_cost_as_per b;
     BomCreator.item_code := BomCreator.item_code b;
     BomCreator.qty := BomCreator.qty b;
     BomCreator.item_name := BomCreator.item_name b;
     BomCreator.item_group := BomCreator.item_group b;
     BomCreator.uom := BomCreator.uom b;
     BomCreator.items := BomCreator.items b;
     BomCreator.docstatus := 1 |}.

(** Source lines 176-265, once the checks have passed. *)
Definition bom_build (fuel : nat) (d : store)
  (prepared : Node.t * list Node.t * string * string) : result Bom.report * store :=
  let '(root, nodes, company, currency) := prepared in
  match get_unique_bom_creator_name fuel d (CStr (Node.item_code root)) with
  | None => (OutOfFuel, d)
  | Some name =>
      let bom_creator := new_bom_creator d name root company currency in
      let st := tree_loop d (tree_init bom_creator root) (tail nodes) in
      let d := with_bom_creators d
                 (bom_creator_table d ++ [submitted (Bom.bom_creator st)]) in
      let summary := bom_summary name st in
      let logs := summary :: Bom.logs st in
      let doc :=
        {| Tool.plm_file := Tool.plm_file (tool d);
           Tool.item_creation_log := Tool.item_creation_log (tool d);
           Tool.bom_creation_log := Py.join newline logs;
           Tool.bom_parent_item := name |} in
      (Ok {| Bom.summary := summary; Bom.log := Tool.bom_creation_log doc;
             Bom.bom_creator_name := name |},
       with_tool d doc)
  end.

Definition import_bom_creator (fuel : nat) (d : store) : result Bom.report * store :=
  match bom_prepare d with
  | inl msg => (Throw msg, d)
  | inr prepared => bom_build fuel d prepared
  end.

(** [import_bom_creator] from source line 116 on, for the rows [rows] read
    from the attached file. *)
Definition import_bom_rows (fuel : nat) (d : store) (rows : list row)
  : result Bom.report * store :=
  match nodes_prepare d rows with
  | inl msg => (Throw msg, d)
  | inr prepared => bom_build fuel d prepared
  end.

End ImportBomCreator.

(** ** A runtime to compute with

    [float] restricted to plain decimal literals (an optional sign, digits,
    at most one point, at least one digit), [str] on integers, and
    collaborators whose writes never raise. They serve the closed examples
    only; every general statement is over an arbitrary runtime. *)

Definition digit_of (a : ascii) : option Z :=
  let n := nat_of_ascii a in
  if (48 <=? n)%nat && (n <=? 57)%nat then Some (Z.of_nat n - 48) else None.

Fixpoint digits_value (acc : Z) (s : string) : option Z :=
  match s with
  | EmptyString => Some acc
  | String a s' => d ← digit_of a; digits_value (10 * acc + d) s'
  end.

(** The text before the first point, and the text after it. *)
Fixpoint split_point (s : string) : string * string :=
  match s with
  | EmptyString => (EmptyString, EmptyString)
  | String a s' =>
      if Ascii.eqb a "."%char then (EmptyString, Py.remove_char "."%char s')
      else let '(i, f) := split_point s' in (String a i, f)
  end.

Definition has_two_points (s : string) : bool :=
  negb (String.length s - String.length (Py.remove_char "."%char s) <=? 1)%nat.

Definition unsigned_decimal (s : string) : option Qc :=
  let '(i, f) := split_point s in
  if has_two_points s || (String.length (i +:+ f) =? 0)%nat then None
  else
    n ← digits_value 0 (i +:+ f);
    Some (Q2Qc (Qmake (10 * n) (Pos.pow 10 (Pos.of_succ_nat (String.length f))))).

Definition decimal_float (s : string) : option pyfloat :=
  match s with
  | String "-" s' => (λ q, Finite (- q)%Qc) <$> unsigned_decimal s'
  | String "+" s' => Finite <$> unsigned_decimal s'
  | _ => Finite <$> unsigned_decimal s
  end.

Definition integer_str (x : pyfloat) : string :=
  match x with
  | Finite q => pretty (Qnum (this q))
  | Inf negative => if negative then "-inf" else "inf"
  | NaN => "nan"
  end.

#[export] Instance decimal_runtime : PyRuntime :=
  {| py_float := decimal_float; py_str := integer_str |}.

#[export] Instance reliable_collaborators : Collaborators :=
  {| insert_item_group_raises := λ _ _, false;
     insert_item_raises := λ _ _, false;
     append_raises := λ _ _, false |}.


(** ** Notions the properties are stated with *)

Section QuantityNotions.
Context `{PyRuntime}.

(** The tokens of a quantity cell, as [parse_qty_and_uom] splits it. *)
Definition tokens (value : cell) : list string :=
  match value with
  | CStr s => Py.split (Py.strip s)
  | _ => []
  end.

(** The unit hint of a cell: its second token. *)
Definition unit_token (value : cell) : string :=
  match tokens value with
  | _ :: u :: _ => u
  | _ => EmptyString
  end.

(** The quantity of a cell is unusable: the cell is empty, its number does
    not parse, or the number is not positive. *)
Definition quantity_unusable (value : cell) : Prop :=
  match value with
  | CNone => True
  | CNum x => gt0 x = false
  | CStr s =>
      match tokens value with
      | [] => True
      | t :: _ =>
          match py_float (Py.remove_char ","%char t) with
          | None => True
          | Some x => gt0 x = false
          end
      end
  end.

End QuantityNotions.

(** The frame a node leaves on the stack: one for a created node, none for
    a skipped one. *)
Definition pushed_frame (node : Node.t) (o : Bom.outcome) : option Frame.t :=
  match o with
  | Bom.Created _ r =>
      Some {| Frame.level := Node.level node; Frame.item_code := Node.item_code node;
              Frame.item_row_no := Some (BomItem.idx r) |}
  | _ => None
  end.

(** The row a node adds to the table. *)
Definition created_row (e : Node.t * Bom.outcome) : option BomItem.doc :=
  match e.2 with
  | Bom.Created _ r => Some r
  | _ => None
  end.

(** The nodes gone through so far, the nearest first and the root last,
    each with the frame pushed for it. *)
Definition history (root : Node.t) (trace : list (Node.t * Bom.outcome))
  : list (Node.t * option Frame.t) :=
  reverse ((root, Some (root_frame root))
           :: ((λ e, (e.1, pushed_frame e.1 e.2)) <$> trace)).

(** The ancestors of a node of level [level] among the nodes before it
    ([before], the nearest first): the nearest one of smaller level, then
    the ancestors of that one. *)
Fixpoint ancestors {A} (level : Z) (before : list (Node.t * A)) : list (Node.t * A) :=
  match before with
  | [] => []
  | a :: rest =>
      if Node.level a.1 <? level then a :: ancestors (Node.level a.1) rest
      else ancestors level rest
  end.

(** The stack the loop holds after the nodes of [before]. *)
Fixpoint live (before : list (Node.t * option Frame.t)) : list Frame.t :=
  match before with
  | [] => []
  | a :: rest =>
      let popped := pop_frames (Node.level a.1) (live rest) in
      match a.2 with
      | Some f => f :: popped
      | None => popped
      end
  end.

(** Every frame of the history has the level of its node. *)
Definition frames_match (before : list (Node.t * option Frame.t)) : Prop :=
  Forall (λ a, ∀ f, a.2 = Some f → Frame.level f = Node.level a.1) before.

(** The abort-class conditions of an import request, on the attached file
    and the configuration. *)
Section AbortClass.
Context `{PyRuntime}.

Definition attached_file (d : store) : attachment :=
  files d (Tool.plm_file (tool d)).

(** The nodes parsed from the rows below the header. *)
Definition parsed_nodes (d : store) : list Node.t :=
  match file_rows (attached_file d) with
  | header :: data => parse_nodes (build_header_map header) (enumerate 2 data)
  | [] => []
  end.

Definition falsy (s : option string) : Prop := s = None ∨ s = Some EmptyString.

Inductive abort_class (d : store) : Prop :=
| MissingAttachment :
    Tool.plm_file (tool d) = EmptyString → abort_class d
| UnsupportedExtension :
    Py.lstrip_dots (extension_part (attached_file d)) ∉ ["csv"; "xlsx"; "xls"] →
    abort_class d
| TooShortFile :
    (length (file_rows (attached_file d)) < 2)%nat → abort_class d
| MissingColumn (field : string) (header : row) :
    field ∈ ["structure_level"; "item_code"] →
    head (file_rows (attached_file d)) = Some header →
    has_field field (build_header_map header) = false →
    abort_class d
| EmptyNodeList :
    parsed_nodes d = [] → abort_class d
| MissingRootItem (root : Node.t) (nodes : list Node.t) :
    select_root (parsed_nodes d) = Some (root, nodes) →
    item_exists d (Node.item_code root) = false →
    abort_class d
| MissingCompany :
    falsy (or_else (user_default_company d) (global_default_company d)) →
    abort_class d
| MissingCurrency (company : string) :
    or_else (user_default_company d) (global_default_company d) = Some company →
    falsy (default_currency d company) →
    abort_class d.

End AbortClass.

(** A row, or node, that fails: it is neither blank nor created. *)
Definition items_failed (o : Items.outcome) : bool :=
  match o with
  | Items.Blank | Items.Created _ => false
  | _ => true
  end.

Definition tree_failed (o : Bom.outcome) : bool :=
  match o with
  | Bom.Created _ _ => false
  | _ => true
  end.

(** The rows, or nodes, counted as failures so far: duplicates, skipped and
    errors. *)
Definition items_failures (st : Items.state) : nat :=
  (Items.duplicates st + Items.skipped st + Items.errors st)%nat.

Definition tree_failures (st : Bom.state) : nat :=
  (Bom.skipped st + Bom.errors st)%nat.

(** What a row of the first run becomes when the import is run again. *)
Definition rerun (o : Items.outcome) : Items.outcome :=
  match o with
  | Items.Created item_code => Items.Duplicate item_code
  | _ => o
  end.

Definition items_error (o : Items.outcome) : bool :=
  match o with
  | Items.GroupFailed _ | Items.InsertFailed _ => true
  | _ => false
  end.

(** Every item and item group of [d] is in [d']. *)
Definition covers (d' d : store) : Prop :=
  (∀ name, item_exists d name = true → item_exists d' name = true)
  ∧ (∀ name, item_group_exists d name = true → item_group_exists d' name = true).

(** How many rows of a trace have an outcome of a given kind. *)
Definition tally (kind : Items.outcome → bool) (trace : list (nat * Items.outcome))
  : nat :=
  sum_list ((λ e, if kind e.2 then 1%nat else 0%nat) <$> trace).

Definition is_created (o : Items.outcome) : bool :=
  match o with Items.Created _ => true | _ => false end.

Definition is_duplicate (o : Items.outcome) : bool :=
  match o with Items.Duplicate _ => true | _ => false end.

Definition is_skipped (o : Items.outcome) : bool :=
  match o with Items.MissingItemCode | Items.MissingItemGroup _ => true | _ => false end.

(** The log lines of a trace. *)
Definition items_lines (trace : list (nat * Items.outcome)) : list string :=
  omap (λ e, items_log_line e.1 e.2) trace.

(** The linkage of a row of the table: its item, the item it goes into, the
    row number of its parent and its own row number. *)
Definition linkage (r : BomItem.doc) : string * string * option nat * nat :=
  (BomItem.item_code r, BomItem.fg_item r, BomItem.parent_row_no r, BomItem.idx r).

(** ** Example data *)

Definition catalog_item (code : string) : Item.doc :=
  {| Item.item_code := code; Item.item_name := code; Item.item_group := "Parts";
     Item.stock_uom := "Nos"; Item.description := CNone; Item.gst_hsn_code := None;
     Item.custom_material := CNone; Item.custom_length := Finite 0;
     Item.custom_width := Finite 0; Item.custom_height := Finite 0;
     Item.custom_diameter := Finite 0; Item.custom_thickness := Finite 0;
     Item.custom_weight := Finite 0 |}.

Definition persisted_bom_creator (name : string) : BomCreator.doc :=
  {| BomCreator.name := name; BomCreator.company := "ACME";
     BomCreator.currency := "INR"; BomCreator.rm_cost_as_per := "Valuation Rate";
     BomCreator.item_code := name; BomCreator.qty := Finite 1;
     BomCreator.item_name := None; BomCreator.item_group := None;
     BomCreator.uom := Some "Nos"; BomCreator.items := []; BomCreator.docstatus := 1 |}.

(** A store with the file [rows] attached as a CSV file, the items [codes]
    in the catalog and the BOM Creators [boms]. *)
Definition example_store (plm_file : string) (rows : list row)
  (codes boms : list string) : store :=
  {| tool := {| Tool.plm_file := plm_file; Tool.item_creation_log := EmptyString;
                Tool.bom_creation_log := EmptyString;
                Tool.bom_parent_item := EmptyString |};
     files := λ _, {| extension_part := ".csv"; file_rows := rows |};
     item_table := catalog_item <$> codes;
     item_group_table := [];
     bom_creator_table := persisted_bom_creator <$> boms;
     user_default_company := Some "ACME";
     global_default_company := None;
     default_currency := λ _, Some "INR" |}.

Definition example_node (row_idx : nat) (level : Z) (item_code : string) : Node.t :=
  {| Node.row_idx := row_idx; Node.level := level; Node.item_code := item_code;
     Node.item_name := EmptyString; Node.item_group := EmptyString;
     Node.qty := Finite 1; Node.uom := EmptyString |}.

(** Nodes of levels 3, 3, 1, 2, 1. *)
Definition five_levels : list Node.t :=
  [ example_node 2 3 "A"; example_node 3 3 "B"; example_node 4 1 "C";
    example_node 5 2 "D"; example_node 6 1 "E" ].

(** The header, a root, two children and a grandchild of the second. *)
Definition family_header : row := [CStr "Level"; CStr "Number"; CStr "Qty"].

Definition family_data : list row :=
  [ [CStr "0"; CStr "ROOT"; CStr "1"];
    [CStr "1"; CStr "A"; CStr "2 pcs"];
    [CStr "1"; CStr "B"; CStr "3"];
    [CStr "2"; CStr "C"; CStr "4"] ].

Definition family_store : store :=
  example_store "/files/bom.csv" (family_header :: family_data)
    ["ROOT"; "A"; "B"; "C"] [].

(** An item file with a row that has no item code. *)
Definition item_header : row := [CStr "Number"; CStr "Part Type"].

Definition item_data : list row :=
  [ [CStr "A"; CStr "Parts"]; [CStr ""; CStr "Parts"] ].

Definition item_store : store :=
  example_store "/files/items.csv" (item_header :: item_data) [] [].

(** ** Notions for the further properties *)

(** The levels of a stack decrease strictly from the top down. *)
Definition descending (stack : list Frame.t) : Prop :=
  StronglySorted (λ f g, Frame.level g < Frame.level f) stack.

(** The rows of a table are numbered from 1 in order, and each names as its
    parent either nothing, and then it goes into the root item, or an
    earlier row, and then it goes into the item of that row. *)
Definition well_linked (root_code : string) (table : list BomItem.doc) : Prop :=
  ∀ k r, table !! k = Some r →
    BomItem.idx r = S k
    ∧ match BomItem.parent_row_no r with
      | None => BomItem.fg_item r = root_code
      | Some p =>
          (1 ≤ p ≤ k)%nat
          ∧ ∃ q, table !! (p - 1)%nat = Some q
                 ∧ BomItem.idx q = p
                 ∧ BomItem.item_code q = BomItem.fg_item r
      end.

(** A frame stands for the root, or for a row of the table. *)
Definition frame_linked (root_code : string) (table : list BomItem.doc)
  (f : Frame.t) : Prop :=
  (Frame.item_row_no f = None ∧ Frame.item_code f = root_code)
  ∨ ∃ k q, table !! k = Some q
           ∧ Frame.item_row_no f = Some (S k)
           ∧ BomItem.item_code q = Frame.item_code f.

(** The data rows that are not blank. *)
Definition filled_rows (rows : list (nat * row)) : nat :=
  length (filter (λ ir, any ir.2 = true) rows).

(** The conditions under which [import_items] throws. *)
Section ItemsAbort.
Context `{PyRuntime}.

Inductive items_abort (d : store) : Prop :=
| ItemsMissingAttachment :
    Tool.plm_file (tool d) = EmptyString → items_abort d
| ItemsUnsupportedExtension :
    Py.lstrip_dots (extension_part (attached_file d)) ∉ ["csv"; "xlsx"; "xls"] →
    items_abort d
| ItemsTooShortFile :
    (length (file_rows (attached_file d)) < 2)%nat → items_abort d
| ItemsMissingColumn (header : row) :
    head (file_rows (attached_file d)) = Some header →
    has_field "item_code" (build_header_map header) = false →
    items_abort d.

End ItemsAbort.

(** The item codes of the catalog and the names of the item groups. *)
Definition item_codes (d : store) : list string := Item.item_code <$> item_table d.

Definition item_group_names (d : store) : list string :=
  ItemGroup.item_group_name <$> item_group_table d.

(** ** BOM lookup (source lines 268-279)

    The BOM table is not part of [store]: the imports never touch it. A BOM
    carries the BOM Creator it was made from, its document status and its
    creation time. *)
Module BillOfMaterials.
Record doc := {
  name : string;
  bom_creator : string;
  docstatus : Z;
  creation : Z;
}.
End BillOfMaterials.

(** The first row of a query ordered by [creation desc]: a row of greatest
    creation time (among rows of equal time the database is free; the first
    in table order is taken here). *)
Fixpoint latest (best : option BillOfMaterials.doc) (rows : list BillOfMaterials.doc)
  : option BillOfMaterials.doc :=
  match rows with
  | [] => best
  | x :: rest =>
      latest (match best with
              | Some b =>
                  if BillOfMaterials.creation b <? BillOfMaterials.creation x
                  then Some x else best
              | None => Some x
              end) rest
  end.

(** [frappe.get_value("BOM", {"bom_creator": bom_creator, "docstatus": 1},
    "name", order_by="creation desc")] *)
Definition get_value_bom (table : list BillOfMaterials.doc) (bom_creator : string)
  : option string :=
  BillOfMaterials.name
    <$> latest None
          (List.filter (λ x, String.eqb (BillOfMaterials.bom_creator x) bom_creator
                             && (BillOfMaterials.docstatus x =? 1))
             table).

(** [None] is Python's [None], [Some bom_name] the dictionary
    [{"bom": bom_name}], whose value may be [None]. *)
Definition get_bom_for_bom_creator (table : list BillOfMaterials.doc)
  (bom_creator : string) : option (option string) :=
  if negb (Py.truthy bom_creator) then None
  else
    let bom_name := get_value_bom table bom_creator in
    Some bom_name.

(** ** Failing rows, read on the file (source lines 39-95 and 206-252)

    A data row of [import_items] fails in one of five ways and a node of the
    tree loop of [import_bom_creator] in one of three. Each way is stated on
    the cells of the row or node, the store it meets and the call that
    raises, with the line the source appends to [logs] and the counter it
    increments. *)
Section FailingRows.
Context `{PyRuntime} `{Collaborators}.






End FailingRows.



(** * Properties *)

(** ** Strings *)

Lemma lstrip_head (s : string) :
  Py.lstrip s = EmptyString ∨
  ∃ a r, Py.lstrip s = String a r ∧ Py.isspace a = false.
Proof.
  induction s as [|a s IH]; simpl; [by left|].
  destruct (Py.isspace a) eqn:Ha; [exact IH|]. right. eauto.
Qed.

Lemma rstrip_head (a : ascii) (s : string) :
  Py.rstrip (String a s) = EmptyString ∨ ∃ r, Py.rstrip (String a s) = String a r.
Proof.
  simpl. destruct (Py.rstrip s); [destruct (Py.isspace a)|]; eauto.
Qed.

Lemma strip_head (s : string) :
  Py.strip s = EmptyString ∨
  ∃ a r, Py.strip s = String a r ∧ Py.isspace a = false.
Proof.
  unfold Py.strip. destruct (lstrip_head s) as [-> | (a & r & -> & Ha)]; [by left|].
  destruct (rstrip_head a r) as [-> | [r' ->]]; [by left|]. right. eauto.
Qed.

Lemma append_nonempty (s : string) (a : ascii) : s +:+ String a EmptyString ≠ EmptyString.
Proof. by destruct s. Qed.

Lemma split_go_nonempty (cur s : string) : cur ≠ EmptyString → Py.split_go cur s ≠ [].
Proof.
  revert cur. induction s as [|a s IH]; intros cur Hcur; simpl.
  - by destruct cur.
  - destruct (Py.isspace a).
    + by destruct cur.
    + apply IH, append_nonempty.
Qed.

(** A string that is not blank has a first token. *)
Lemma split_strip_nonempty (s : string) :
  Py.truthy (Py.strip s) = true → Py.split (Py.strip s) ≠ [].
Proof.
  destruct (strip_head s) as [-> | (a & r & -> & Ha)]; [done|]. intros _.
  unfold Py.split. simpl. rewrite Ha. by apply split_go_nonempty.
Qed.

(** ** Quantity parser *)

Lemma gt0_positive (x : pyfloat) : gt0 x = true → positive_number x.
Proof.
  destruct x as [[[n dn] Hq]|[]|]; simpl; try done.
  intros Hn%Z.ltb_lt. unfold Qclt, Qlt. simpl. lia.
Qed.

Section QuantityParser.
Context `{PyRuntime}.

Lemma parse_qty_and_uom_unit (value : cell) :
  snd (parse_qty_and_uom value) = unit_token value.
Proof.
  unfold parse_qty_and_uom, unit_token, tokens, qty_tokens.
  destruct value as [|s|x]; simpl; try done.
  destruct (Py.truthy (Py.strip s)) eqn:Hs.
  - pose proof (split_strip_nonempty s Hs).
    destruct (Py.split (Py.strip s)) as [|p0 [|p1 ps]]; done.
  - destruct (Py.strip s); [done|discriminate].
Qed.

Lemma parse_qty_and_uom_positive (value : cell) :
  positive_number (fst (parse_qty_and_uom value)).
Proof.
  unfold parse_qty_and_uom. destruct (qty_tokens value) as [v u]. simpl.
  match goal with |- context [gt0 ?q] => destruct (gt0 q) eqn:Hq end.
  - by apply gt0_positive.
  - by apply gt0_positive.
Qed.

Lemma parse_qty_and_uom_fallback (value : cell) :
  quantity_unusable value → fst (parse_qty_and_uom value) = Finite 1.
Proof.
  unfold parse_qty_and_uom, quantity_unusable, tokens, qty_tokens.
  destruct value as [|s|x]; simpl.
  - done.
  - destruct (Py.truthy (Py.strip s)) eqn:Hs.
    + pose proof (split_strip_nonempty s Hs).
      destruct (Py.split (Py.strip s)) as [|p0 ps] eqn:Hsplit; [done|].
      destruct p0 as [|a p0].
      * intros _. by destruct ps.
      * intros Hx. destruct ps as [|p1 ps]; simpl; unfold flt;
          destruct (py_float _) as [x|]; simpl; by rewrite ?Hx.
    + destruct (Py.strip s); [done|discriminate].
  - intros Hx. by rewrite Hx.
Qed.

End QuantityParser.

(** C4 (amended). For every cell, the quantity [parse_qty_and_uom] returns
    is a positive number, and it is 1 whenever the cell is empty, its number
    does not parse or the number is not positive; the unit returned is the
    second token of the cell when there is one and the empty string
    otherwise, so an empty cell gives quantity 1 and unit "". *)
Theorem parse_qty_and_uom_normalizes `{PyRuntime} (value : cell) :
  positive_number (fst (parse_qty_and_uom value)) ∧
  (quantity_unusable value → fst (parse_qty_and_uom value) = Finite 1) ∧
  snd (parse_qty_and_uom value) = unit_token value ∧
  (in_none_or_empty (strip_cell value) = true →
   parse_qty_and_uom value = (Finite 1, EmptyString)).
Proof.
  split; [apply parse_qty_and_uom_positive|].
  split; [apply parse_qty_and_uom_fallback|].
  split; [apply parse_qty_and_uom_unit|].
  destruct value as [|s|x]; simpl; try done.
  unfold parse_qty_and_uom, qty_tokens. by destruct (Py.strip s).
Qed.

Lemma parse_qty_and_uom_normalizes_witness :
  quantity_unusable (CStr "0 pcs") ∧
  parse_qty_and_uom (CStr "0 pcs") = (Finite 1, "pcs") ∧
  parse_qty_and_uom (CStr "   ") = (Finite 1, EmptyString).
Proof.
  destruct (parse_qty_and_uom_normalizes (CStr "0 pcs")) as (_ & Hq & Hu & _).
  destruct (parse_qty_and_uom_normalizes (CStr "   ")) as (_ & _ & _ & He).
  split; [reflexivity|]. split; [|apply He; reflexivity].
  apply injective_projections; [apply Hq; reflexivity|apply Hu].
Defined.

(** C4 as stated fails: the cell "0 pcs" has a non-positive number, and the
    unit returned with the quantity 1 is "pcs", not "". *)
Lemma parse_qty_and_uom_keeps_unit :
  quantity_unusable (CStr "0 pcs") ∧
  parse_qty_and_uom (CStr "0 pcs") ≠ (Finite 1, EmptyString).
Proof. split; [reflexivity|]. vm_compute. discriminate. Qed.

(** ** Tree builder *)

Section TreeBuilder.
Context `{PyRuntime} `{Collaborators}.

Lemma pop_frames_top (l : Z) (s : list Frame.t) (p : Frame.t) (rest : list Frame.t) :
  pop_frames l s = p :: rest → Frame.level p < l.
Proof.
  induction s as [|top s IH]; simpl; [done|].
  destruct (l <=? Frame.level top) eqn:Hl; [exact IH|].
  intros [= <- _]. lia.
Qed.

Lemma pop_frames_fixed (l : Z) (s : list Frame.t) :
  match s with [] => True | top :: _ => Frame.level top < l end →
  pop_frames l s = s.
Proof.
  destruct s as [|top s]; simpl; [done|]. intros Hl.
  destruct (l <=? Frame.level top) eqn:E; [lia|done].
Qed.

Lemma pop_frames_twice (l l' : Z) (s : list Frame.t) :
  l' ≤ l → pop_frames l' (pop_frames l s) = pop_frames l' s.
Proof.
  intros Hl. induction s as [|top s IH]; simpl; [done|].
  destruct (l <=? Frame.level top) eqn:E.
  - rewrite IH. destruct (l' <=? Frame.level top) eqn:E'; [done|lia].
  - done.
Qed.

Lemma tree_outcome_parent (d : store) (b : BomCreator.doc) (popped : list Frame.t)
  (n : Node.t) (parent : Frame.t) (r : BomItem.doc) :
  tree_outcome d b popped n = Bom.Created parent r →
  head popped = Some parent ∧ r = numbered (BomCreator.items b) (new_row d n parent).
Proof.
  unfold tree_outcome. destruct popped as [|p rest]; [done|].
  destruct (negb _); [done|]. destruct (append_raises _ _); [done|].
  by intros [= <- <-].
Qed.

Lemma tree_step_stack (d : store) (st : Bom.state) (n : Node.t) :
  let popped := pop_frames (Node.level n) (Bom.stack st) in
  Bom.stack (tree_step d st n) =
    match pushed_frame n (tree_outcome d (Bom.bom_creator st) popped n) with
    | Some f => f :: popped
    | None => popped
    end.
Proof. unfold tree_step. simpl. by destruct (tree_outcome _ _ _ _). Qed.

Lemma tree_step_items (d : store) (st : Bom.state) (n : Node.t) :
  let o := tree_outcome d (Bom.bom_creator st)
             (pop_frames (Node.level n) (Bom.stack st)) n in
  BomCreator.items (Bom.bom_creator (tree_step d st n)) =
    BomCreator.items (Bom.bom_creator st) ++ option_list (created_row (n, o)).
Proof.
  unfold tree_step, created_row. simpl.
  destruct (tree_outcome _ _ _ _); simpl; by rewrite ?app_nil_r.
Qed.

Lemma tree_trace_app (d : store) (st : Bom.state) (pre post : list Node.t) :
  tree_trace d st (pre ++ post) =
    tree_trace d st pre ++ tree_trace d (tree_loop d st pre) post.
Proof.
  revert st. induction pre as [|n pre IH]; intros st; simpl; [done|].
  by rewrite IH.
Qed.

Lemma tree_trace_length (d : store) (st : Bom.state) (nodes : list Node.t) :
  length (tree_trace d st nodes) = length nodes.
Proof. revert st. induction nodes; intros; simpl; auto. Qed.

Lemma tree_loop_items (d : store) (st : Bom.state) (nodes : list Node.t) :
  BomCreator.items (Bom.bom_creator (tree_loop d st nodes)) =
    BomCreator.items (Bom.bom_creator st) ++ omap created_row (tree_trace d st nodes).
Proof.
  revert st. induction nodes as [|n nodes IH]; intros st; simpl.
  - by rewrite app_nil_r.
  - change (tree_loop d st (n :: nodes)) with (tree_loop d (tree_step d st n) nodes).
    rewrite IH, tree_step_items, <-app_assoc. f_equal.
    by destruct (created_row _).
Qed.

(** C1. Whatever the nodes and the state the loop starts from, every row
    the tree builder emits hangs under a frame whose level is strictly less
    than the level of the row's node; the emitted rows are the rows added to
    the table, each naming that frame's item as its [fg_item]. *)
Theorem parent_level_below_child (d : store) (st : Bom.state) (nodes : list Node.t) :
  Forall (λ e, match e.2 with
               | Bom.Created parent r =>
                   Frame.level parent < Node.level e.1
                   ∧ BomItem.fg_item r = Frame.item_code parent
               | _ => True
               end)
         (tree_trace d st nodes)
  ∧ BomCreator.items (Bom.bom_creator (tree_loop d st nodes)) =
      BomCreator.items (Bom.bom_creator st) ++ omap created_row (tree_trace d st nodes).
Proof.
  split; [|apply tree_loop_items].
  revert st. induction nodes as [|n nodes IH]; intros st; simpl; constructor.
  - simpl. destruct (tree_outcome _ _ _ _) as [| |p|p r] eqn:Ho; try done.
    apply tree_outcome_parent in Ho as [Hp ->].
    destruct (pop_frames _ _) as [|top rest] eqn:Hpop; [done|].
    injection Hp as ->. split; [by eapply pop_frames_top|done].
  - apply IH.
Qed.

(** *** The stack and the ancestors *)

Lemma stack_is_live (d : store) (nodes : list Node.t) :
  ∀ (st : Bom.state) (before : list (Node.t * option Frame.t)),
    Bom.stack st = live before →
    Bom.stack (tree_loop d st nodes) =
      live (reverse ((λ e, (e.1, pushed_frame e.1 e.2)) <$> tree_trace d st nodes)
            ++ before).
Proof.
  induction nodes as [|n nodes IH]; intros st before Hst; [done|].
  change (tree_loop d st (n :: nodes)) with (tree_loop d (tree_step d st n) nodes).
  simpl tree_trace. rewrite fmap_cons, reverse_cons, <-app_assoc. simpl.
  apply IH. rewrite tree_step_stack. simpl. by rewrite Hst.
Qed.

Lemma history_frames_match (d : store) (st : Bom.state) (root : Node.t)
  (nodes : list Node.t) :
  frames_match (history root (tree_trace d st nodes)).
Proof.
  unfold frames_match, history. rewrite Forall_reverse. constructor.
  - simpl. by intros f [= <-].
  - rewrite Forall_fmap. apply Forall_forall. intros [n o] _ f. simpl.
    destruct o; simpl; try done. by intros [= <-].
Qed.

Lemma stack_is_history (d : store) (b : BomCreator.doc) (root : Node.t)
  (nodes : list Node.t) :
  Bom.stack (tree_loop d (tree_init b root) nodes) =
    live (history root (tree_trace d (tree_init b root) nodes)).
Proof.
  unfold history. rewrite reverse_cons.
  by apply (stack_is_live d nodes (tree_init b root) [(root, Some (root_frame root))]).
Qed.

Lemma no_frames (l : list (Node.t * option Frame.t)) :
  Forall (λ a, a.2 = None) l → omap snd l = [].
Proof.
  induction 1 as [|[n fo] l Ha _ IH]; [done|]. simpl in *. by rewrite Ha.
Qed.

(** Popping for a node of level [l] leaves the frames of its ancestors. *)
Lemma pop_live (before : list (Node.t * option Frame.t)) :
  frames_match before →
  ∀ l, pop_frames l (live before) = omap snd (ancestors l before).
Proof.
  induction 1 as [|[n fo] rest Ha Hrest IH]; intros l; [done|].
  simpl in *. specialize (IH (Node.level n)) as IHa.
  destruct (Node.level n <? l) eqn:Hl.
  - destruct fo as [f|]; simpl.
    + rewrite (Ha f) by done.
      assert ((l <=? Node.level n) = false) as -> by lia. f_equal. exact IHa.
    + etrans; [|exact IHa]. apply pop_frames_fixed.
      destruct (pop_frames (Node.level n) (live rest)) as [|top s] eqn:Hp; [done|].
      apply pop_frames_top in Hp. lia.
  - assert (l ≤ Node.level n) as Hle by lia.
    destruct fo as [f|]; simpl.
    + rewrite (Ha f) by done.
      assert ((l <=? Node.level n) = true) as -> by lia.
      rewrite pop_frames_twice by done. apply IH.
    + rewrite pop_frames_twice by done. apply IH.
Qed.

(** C3. Take the tree loop at a node [n], after the nodes [pre]. A node
    that is skipped (no parent, item not in the catalog, or append failed)
    pushes no frame: the stack it leaves is the popped one. The parent of a
    created node is the frame pushed for the nearest of its ancestors that
    has one, hence the root or a created node, never a skipped one. And a
    node all of whose ancestors were skipped is skipped with "no parent
    found". *)
Theorem skipped_node_is_never_parent (d : store) (b : BomCreator.doc)
  (root : Node.t) (pre : list Node.t) (n : Node.t) (post : list Node.t) :
  let st := tree_loop d (tree_init b root) pre in
  let before := history root (tree_trace d (tree_init b root) pre) in
  let popped := pop_frames (Node.level n) (Bom.stack st) in
  let o := tree_outcome d (Bom.bom_creator st) popped n in
  tree_trace d (tree_init b root) (pre ++ n :: post) !! length pre = Some (n, o)
  ∧ (pushed_frame n o = None → Bom.stack (tree_step d st n) = popped)
  ∧ (∀ parent r, o = Bom.Created parent r →
       head (omap snd (ancestors (Node.level n) before)) = Some parent)
  ∧ (Forall (λ a, a.2 = None) (ancestors (Node.level n) before) →
       o = Bom.NoParent
       ∧ tree_log_line n o =
           Some ("Row " +:+ Py.str_nat (Node.row_idx n) +:+ ": skipped "
                 +:+ Node.item_code n +:+ " (no parent found).")).
Proof.
  intros st before popped o.
  assert (popped = omap snd (ancestors (Node.level n) before)) as Hpop.
  { unfold popped, st, before. rewrite stack_is_history.
    apply pop_live, history_frames_match. }
  split; [|split; [|split]].
  - rewrite tree_trace_app, lookup_app_r by (by rewrite tree_trace_length).
    by rewrite tree_trace_length, Nat.sub_diag.
  - intros Ho. rewrite tree_step_stack. fold popped o. by rewrite Ho.
  - intros parent r Ho. apply tree_outcome_parent in Ho as [Hp _].
    by rewrite <-Hpop.
  - intros Hskip. unfold o. rewrite Hpop.
    by rewrite (no_frames _ Hskip).
Qed.

End TreeBuilder.

(** ** Root selection *)

Lemma min_level_le (first : Node.t) (rest : list Node.t) :
  Forall (λ n, min_level first rest ≤ Node.level n) (first :: rest).
Proof.
  revert first. induction rest as [|n rest IH]; intros first; simpl.
  - repeat constructor. lia.
  - specialize (IH n). constructor; [lia|].
    eapply Forall_impl; [exact IH|]. simpl. intros; lia.
Qed.

Lemma min_level_elem (first : Node.t) (rest : list Node.t) :
  ∃ n, n ∈ first :: rest ∧ Node.level n = min_level first rest.
Proof.
  revert first. induction rest as [|n rest IH]; intros first; simpl.
  - exists first. split; [left|done].
  - destruct (IH n) as (m & Hm & Hlvl).
    destruct (Z.min_spec (Node.level first) (min_level n rest)) as [[_ ->]|[_ ->]].
    + exists first. split; [left|done].
    + exists m. split; [by right|done].
Qed.

Lemma next_at_level_spec (lvl : Z) (nodes : list Node.t) :
  ∀ pos, (∃ n, n ∈ nodes ∧ Node.level n = lvl) →
    ∃ before root after,
      nodes = before ++ root :: after
      ∧ next_at_level pos lvl nodes = Some ((pos + length before)%nat, root)
      ∧ Node.level root = lvl
      ∧ Forall (λ n, Node.level n ≠ lvl) before.
Proof.
  induction nodes as [|n nodes IH]; intros pos (m & Hm & Hlvl).
  - by apply elem_of_nil in Hm.
  - simpl. destruct (Node.level n =? lvl) eqn:Hn.
    + exists [], n, nodes. simpl. rewrite Nat.add_0_r.
      repeat split; [lia|constructor].
    + apply Z.eqb_neq in Hn.
      apply elem_of_cons in Hm as [-> | Hm]; [done|].
      destruct (IH (S pos)) as (before & root & after & -> & Hnext & Hroot & Hbefore);
        [by eauto|].
      exists (n :: before), root, after. simpl.
      rewrite Hnext, Nat.add_succ_r.
      repeat split; [done|]. by constructor.
Qed.

Lemma node_eqb_level (a b : Node.t) : Node.eqb a b = true → Node.level a = Node.level b.
Proof.
  unfold Node.eqb. rewrite !andb_true_iff. intros [[[[[[_ Hl] _] _] _] _] _]. lia.
Qed.

Lemma list_index_spec (root : Node.t) (before after : list Node.t) :
  Forall (λ n, Node.level n ≠ Node.level root) before →
  ∀ pos, list_index pos ((pos + length before)%nat, root) (before ++ root :: after)
         = Some (pos + length before)%nat.
Proof.
  induction 1 as [|n before Hn _ IH]; intros pos; simpl.
  - rewrite Nat.add_0_r, Nat.eqb_refl. done.
  - assert ((pos =? pos + S (length before))%nat = false) as ->
      by (apply Nat.eqb_neq; lia).
    destruct (Node.eqb n root) eqn:E; [by apply node_eqb_level in E|].
    simpl. rewrite <-Nat.add_succ_comm. apply IH.
Qed.

Lemma select_root_spec (nodes : list Node.t) :
  nodes ≠ [] →
  ∃ before root after,
    nodes = before ++ root :: after
    ∧ select_root nodes = Some (root, root :: after)
    ∧ Forall (λ n, Node.level root ≤ Node.level n) nodes
    ∧ Forall (λ n, Node.level root < Node.level n) before.
Proof.
  destruct nodes as [|first rest]; [done|]. intros _.
  pose proof (min_level_le first rest) as Hmin.
  destruct (next_at_level_spec (min_level first rest) (first :: rest) 0
              (min_level_elem first rest))
    as (before & root & after & Hnodes & Hnext & Hroot & Hbefore).
  exists before, root, after. split; [done|].
  assert (Forall (λ n, Node.level root < Node.level n) before) as Hlt.
  { rewrite Hnodes in Hmin. apply Forall_app in Hmin as [Hmin _].
    rewrite Hroot.
    apply Forall_forall. intros n Hn.
    rewrite Forall_forall in Hmin, Hbefore.
    specialize (Hmin n Hn). specialize (Hbefore n Hn). simpl in *. lia. }
  split; [|split; [by rewrite Hroot|done]].
  assert (Forall (λ n, Node.level n ≠ Node.level root) before) as Hne
    by (by rewrite Hroot).
  pose proof (list_index_spec root before after Hne 0) as Hidx.
  unfold select_root. rewrite Hnext, Hnodes. simpl in *.
  rewrite Hidx. simpl. by rewrite drop_app_length.
Qed.

(** C2. On a non-empty node list the root selected is the first node, in
    file order, whose level is the minimum over all nodes; the nodes before
    it are dropped, and the list kept starts at the root. *)
Theorem root_is_first_minimum (nodes : list Node.t) :
  nodes ≠ [] →
  ∃ before root after,
    nodes = before ++ root :: after
    ∧ select_root nodes = Some (root, root :: after)
    ∧ Forall (λ n, Node.level root ≤ Node.level n) nodes
    ∧ Forall (λ n, Node.level root < Node.level n) before.
Proof. apply select_root_spec. Qed.


(** ** Naming resolver *)

Lemma bom_creator_exists_names (d : store) (name : string) :
  bom_creator_exists d name = true ↔ name ∈ bom_creator_names d.
Proof.
  unfold bom_creator_exists, bom_creator_names.
  rewrite elem_of_list_to_set, list_elem_of_fmap, existsb_exists.
  split.
  - intros (b & Hb & Heq). apply String.eqb_eq in Heq.
    apply list_elem_of_In in Hb. eauto.
  - intros (b & -> & Hb). exists b. rewrite String.eqb_eq.
    by apply list_elem_of_In in Hb.
Qed.

Lemma rev_name_inj (b : string) : Inj (=) (=) (rev_name b).
Proof.
  intros i j Hij. unfold rev_name, Py.str_nat in Hij.
  by apply (inj _), (inj _), (inj pretty) in Hij.
Qed.

Lemma append_length (s t : string) :
  String.length (s +:+ t) = (String.length s + String.length t)%nat.
Proof. induction s; simpl; auto. Qed.

Lemma rev_name_fresh (b : string) (i : nat) : rev_name b i ≠ b.
Proof.
  intros E. apply (f_equal String.length) in E.
  unfold rev_name in E. rewrite append_length in E. simpl in E. lia.
Qed.

(** The base name and the revisions below [index] are [index] distinct
    names. *)
Lemma taken_names_bound (names : gset string) (b : string) (index : nat) :
  b ∈ names →
  (∀ j, (1 ≤ j < index)%nat → rev_name b j ∈ names) →
  (1 ≤ index)%nat →
  (index ≤ size names)%nat.
Proof.
  intros Hb Hrev Hindex.
  set (l := b :: (rev_name b <$> seq 1 (index - 1))).
  assert (NoDup l) as Hnodup.
  { constructor.
    - rewrite list_elem_of_fmap. intros (j & Hj & _). by eapply rev_name_fresh.
    - apply NoDup_fmap_2; [apply rev_name_inj|apply NoDup_seq]. }
  assert (list_to_set l ⊆ names) as Hsub.
  { intros x. rewrite elem_of_list_to_set. unfold l.
    rewrite elem_of_cons, list_elem_of_fmap.
    intros [-> | (j & -> & Hj%elem_of_seq)]; [done|]. apply Hrev. lia. }
  apply subseteq_size in Hsub. rewrite size_list_to_set in Hsub by done.
  unfold l in Hsub. simpl in Hsub. rewrite length_fmap, length_seq in Hsub. lia.
Qed.

Lemma rev_candidates_spec (d : store) (b : string) :
  b ∈ bom_creator_names d →
  ∀ fuel index,
    (1 ≤ index)%nat →
    (∀ j, (1 ≤ j < index)%nat → rev_name b j ∈ bom_creator_names d) →
    (size (bom_creator_names d) < fuel + index)%nat →
    ∃ k, (index ≤ k)%nat
      ∧ rev_candidates fuel d b index = Some (rev_name b k)
      ∧ (rev_name b k ∉ bom_creator_names d)
      ∧ (∀ j, (1 ≤ j < k)%nat → rev_name b j ∈ bom_creator_names d)
      ∧ rev_checks fuel d b index = (k - index + 1)%nat.
Proof.
  intros Hb. induction fuel as [|fuel IH]; intros index Hindex Htaken Hfuel.
  - pose proof (taken_names_bound _ b index Hb Htaken Hindex). lia.
  - simpl. destruct (bom_creator_exists d (rev_name b index)) eqn:E; simpl.
    + apply bom_creator_exists_names in E.
      assert (∀ j, (1 ≤ j < S index)%nat → rev_name b j ∈ bom_creator_names d)
        as Htaken'.
      { intros j Hj. destruct (decide (j = index)) as [->|]; [done|].
        apply Htaken. lia. }
      destruct (IH (S index) ltac:(lia) Htaken' ltac:(lia))
        as (k & Hk & Hres & Hfree & Hall & Hchecks).
      exists k. rewrite Hres, Hchecks. repeat split; [lia|done|done|lia].
    + exists index. repeat split; [done| |done|lia].
      rewrite <-bom_creator_exists_names. by rewrite E.
Qed.

Lemma get_unique_bom_creator_name_spec `{PyRuntime} (fuel : nat) (d : store) (base_name : cell) :
  (size (bom_creator_names d) ≤ fuel)%nat →
  let b := Py.strip (cstr base_name) in
  ∃ name,
    get_unique_bom_creator_name fuel d base_name = Some name
    ∧ (name ∉ bom_creator_names d)
    ∧ (name_checks fuel d base_name ≤ size (bom_creator_names d) + 1)%nat
    ∧ (b ∉ bom_creator_names d → name = b)
    ∧ (b ∈ bom_creator_names d →
       ∃ k, (1 ≤ k)%nat ∧ name = rev_name b k
            ∧ ∀ j, (1 ≤ j < k)%nat → rev_name b j ∈ bom_creator_names d).
Proof.
  intros Hfuel b. unfold get_unique_bom_creator_name, name_checks. fold b.
  destruct (bom_creator_exists d b) eqn:E; simpl.
  - apply bom_creator_exists_names in E.
    destruct (rev_candidates_spec d b E fuel 1 ltac:(lia) ltac:(intros; lia) ltac:(lia))
      as (k & Hk & Hres & Hfree & Hall & Hchecks).
    exists (rev_name b k). rewrite Hres, Hchecks.
    pose proof (taken_names_bound _ b k E Hall Hk).
    split; [done|]. split; [done|]. split; [lia|]. split; [done|].
    intros _. eauto.
  - assert (b ∉ bom_creator_names d) as Hb.
    { rewrite <-bom_creator_exists_names. by rewrite E. }
    exists b. split; [done|]. split; [done|]. split; [lia|]. by split.
Qed.


(** ** Abort-class failures *)

Section Abort.
Context `{PyRuntime} `{Collaborators}.

Lemma select_root_is_Some (nodes : list Node.t) :
  nodes ≠ [] → is_Some (select_root nodes).
Proof.
  intros Hne. destruct (select_root_spec nodes Hne) as (? & ? & ? & _ & -> & _).
  eauto.
Qed.

Lemma bom_prepare_aborts (d : store) :
  abort_class d → ∃ msg, bom_prepare d = inl msg.
Proof.
  intros Habort. destruct (bom_prepare d) as [msg|ok] eqn:E; [eauto|]. exfalso.
  unfold bom_prepare, nodes_prepare, get_file in E. fold (attached_file d) in E.
  destruct (Tool.plm_file (tool d)) as [|c plm] eqn:Hplm; [done|]. simpl in E.
  case_bool_decide as Hext; [|done].
  unfold load_rows in E.
  destruct (file_rows (attached_file d)) as [|header [|r1 data]] eqn:Hrows; try done.
  remember (parse_nodes (build_header_map header) (enumerate 2 (r1 :: data)))
    as parsed eqn:Hparsed.
  destruct (has_field "structure_level" (build_header_map header)) eqn:Hlevel; [|done].
  destruct (has_field "item_code" (build_header_map header)) eqn:Hcode; [|done].
  simpl in E.
  destruct (select_root _) as [[root nodes]|] eqn:Hroot; [|done].
  destruct (item_exists d (Node.item_code root)) eqn:Hitem; [|done]. simpl in E.
  destruct (or_else _ _) as [[|c1 company]|] eqn:Hcompany; try done.
  destruct (default_currency d _) as [[|c2 currency]|] eqn:Hcurrency; try done.
  destruct Habort as [Hp|He|Hl|field header' Hf Hh Hhas|Hn|root' nodes' Hr Hi|Hc|company' Hc Hcur].
  - rewrite Hplm in Hp. done.
  - done.
  - rewrite Hrows in Hl. simpl in Hl. lia.
  - rewrite Hrows in Hh. injection Hh as <-.
    set_unfold in Hf. destruct Hf as [-> | [-> | []]]; congruence.
  - unfold parsed_nodes in Hn. rewrite Hrows, <-Hparsed in Hn. by subst parsed.
  - unfold parsed_nodes in Hr. rewrite Hrows, <-Hparsed in Hr. congruence.
  - destruct Hc; congruence.
  - rewrite Hc in Hcompany. injection Hcompany as ->.
    destruct Hcur; congruence.
Qed.

(** Conversely, the checks throw under an abort-class condition only. *)
Lemma throw_is_abort_class (d : store) (msg : string) :
  bom_prepare d = inl msg → abort_class d.
Proof.
  unfold bom_prepare, nodes_prepare, get_file. fold (attached_file d).
  destruct (Tool.plm_file (tool d)) as [|c plm] eqn:Hplm;
    [intros _; by apply MissingAttachment|]. simpl.
  case_bool_decide as Hext; [|intros _; by apply UnsupportedExtension].
  unfold load_rows.
  destruct (file_rows (attached_file d)) as [|header [|r1 data]] eqn:Hrows;
    [intros _; apply TooShortFile; rewrite Hrows; simpl; lia
    |intros _; apply TooShortFile; rewrite Hrows; simpl; lia|].
  remember (parse_nodes (build_header_map header) (enumerate 2 (r1 :: data)))
    as parsed eqn:Hparsed.
  destruct (has_field "structure_level" (build_header_map header)) eqn:Hlevel.
  2: { intros _. apply (MissingColumn d "structure_level" header);
         [left|by rewrite Hrows|done]. }
  destruct (has_field "item_code" (build_header_map header)) eqn:Hcode.
  2: { intros _. apply (MissingColumn d "item_code" header);
         [right; left|by rewrite Hrows|done]. }
  simpl.
  assert (parsed_nodes d = parsed) as Hnodes.
  { unfold parsed_nodes. by rewrite Hrows. }
  destruct (select_root parsed) as [[root nodes]|] eqn:Hroot.
  2: { intros _. apply EmptyNodeList. rewrite Hnodes.
       destruct parsed as [|n parsed]; [done|].
       destruct (select_root_is_Some (n :: parsed)) as [x Hx]; [done|]. congruence. }
  destruct (item_exists d (Node.item_code root)) eqn:Hitem.
  2: { intros _. apply (MissingRootItem d root nodes); [by rewrite Hnodes|done]. }
  simpl.
  destruct (or_else _ _) as [[|c1 company]|] eqn:Hcompany.
  1, 3: intros _; apply MissingCompany; unfold falsy; rewrite Hcompany; auto.
  destruct (default_currency d _) as [[|c2 currency]|] eqn:Hcurrency; [| done |].
  all: intros _; apply (MissingCurrency d (String c1 company)); [done|];
    unfold falsy; rewrite Hcurrency; auto.
Qed.

(** C6. Under an abort-class condition (no attachment, unsupported
    extension, a file of fewer than two rows, a required column missing, no
    node parsed, root item not in the catalog, no default company or no
    default currency) [import_bom_creator] throws an error message, returns
    no report, and leaves the store as it was. *)
Theorem abort_leaves_store_unchanged (fuel : nat) (d : store) :
  abort_class d → ∃ msg, import_bom_creator fuel d = (Throw msg, d).
Proof.
  intros [msg Hmsg]%bom_prepare_aborts. exists msg.
  unfold import_bom_creator. by rewrite Hmsg.
Qed.

End Abort.

(** ** Per-row failures *)

Section RowFailures.
Context `{PyRuntime} `{Collaborators}.

Lemma items_loop_app (hm : list (nat * string)) (st : Items.state)
  (pre post : list (nat * row)) :
  items_loop hm st (pre ++ post) = items_loop hm (items_loop hm st pre) post.
Proof. apply foldl_app. Qed.

Lemma tree_loop_app (d : store) (st : Bom.state) (pre post : list Node.t) :
  tree_loop d st (pre ++ post) = tree_loop d (tree_loop d st pre) post.
Proof. apply foldl_app. Qed.

Lemma items_step_grows (hm : list (nat * string)) (st : Items.state) (ir : nat * row) :
  Items.logs st `prefix_of` Items.logs (items_step hm st ir)
  ∧ (items_failures st ≤ items_failures (items_step hm st ir))%nat
  ∧ (Items.created st ≤ Items.created (items_step hm st ir))%nat.
Proof.
  destruct ir as [i r]. unfold items_step, items_failures.
  destruct (items_row hm (Items.db st) r) as [o d].
  destruct (items_count o) as [[[c dup] s] e]. simpl.
  split; [by apply prefix_app_r|lia].
Qed.

Lemma items_loop_grows (hm : list (nat * string)) (rows : list (nat * row)) :
  ∀ st, Items.logs st `prefix_of` Items.logs (items_loop hm st rows)
        ∧ (items_failures st ≤ items_failures (items_loop hm st rows))%nat
        ∧ (Items.created st ≤ Items.created (items_loop hm st rows))%nat.
Proof.
  induction rows as [|ir rows IH]; intros st; [by repeat split|].
  change (items_loop hm st (ir :: rows)) with (items_loop hm (items_step hm st ir) rows).
  destruct (IH (items_step hm st ir)) as (Hl & Hf & Hc).
  destruct (items_step_grows hm st ir) as (Hl' & Hf' & Hc').
  split; [by etrans|lia].
Qed.

Lemma tree_step_grows (d : store) (st : Bom.state) (n : Node.t) :
  Bom.logs st `prefix_of` Bom.logs (tree_step d st n)
  ∧ (tree_failures st ≤ tree_failures (tree_step d st n))%nat
  ∧ (Bom.created st ≤ Bom.created (tree_step d st n))%nat.
Proof.
  unfold tree_step, tree_failures.
  destruct (tree_outcome _ _ _ _); simpl; (split; [by apply prefix_app_r|lia]).
Qed.

Lemma tree_loop_grows (d : store) (nodes : list Node.t) :
  ∀ st, Bom.logs st `prefix_of` Bom.logs (tree_loop d st nodes)
        ∧ (tree_failures st ≤ tree_failures (tree_loop d st nodes))%nat
        ∧ (Bom.created st ≤ Bom.created (tree_loop d st nodes))%nat.
Proof.
  induction nodes as [|n nodes IH]; intros st; [by repeat split|].
  change (tree_loop d st (n :: nodes)) with (tree_loop d (tree_step d st n) nodes).
  destruct (IH (tree_step d st n)) as (Hl & Hf & Hc).
  destruct (tree_step_grows d st n) as (Hl' & Hf' & Hc').
  split; [by etrans|lia].
Qed.

(** A failing row of [import_items]: one line, one counter, and on to the
    rest. *)
Lemma items_failure_recorded (hm : list (nat * string)) (st : Items.state)
  (pre : list (nat * row)) (i : nat) (r : row) (post : list (nat * row)) :
  let s := items_loop hm st pre in
  let s' := items_step hm s (i, r) in
  let final := items_loop hm st (pre ++ (i, r) :: post) in
  let o := (items_row hm (Items.db s) r).1 in
  items_failed o = true →
  ∃ line,
    items_log_line i o = Some line
    ∧ Items.logs s' = Items.logs s ++ [line]
    ∧ items_failures s' = S (items_failures s)
    ∧ Items.created s' = Items.created s
    ∧ final = items_loop hm s' post
    ∧ line ∈ Items.logs final
    ∧ (items_failures s < items_failures final)%nat.
Proof.
  intros s s' final o Ho.
  assert (final = items_loop hm s' post) as Hfinal.
  { unfold final. by rewrite items_loop_app. }
  destruct (items_loop_grows hm post s') as (Hl & Hf & _). rewrite <-Hfinal in Hl, Hf.
  unfold s', items_step, items_failures in *. unfold o in Ho.
  destruct (items_row hm (Items.db s) r) as [o' d'] eqn:Hrow. simpl in Ho.
  destruct o'; try done; simpl in *;
    (eexists; split; [done|]; split; [done|]; split; [lia|]; split; [lia|];
     split; [done|]; split;
       [eapply elem_of_prefix; [|exact Hl]; apply elem_of_app; right; by left
       |lia]).
Qed.

(** A failing node of the tree loop of [import_bom_creator], likewise. *)
Lemma tree_failure_recorded (d : store) (st : Bom.state)
  (pre : list Node.t) (n : Node.t) (post : list Node.t) :
  let s := tree_loop d st pre in
  let s' := tree_step d s n in
  let final := tree_loop d st (pre ++ n :: post) in
  let o := tree_outcome d (Bom.bom_creator s)
             (pop_frames (Node.level n) (Bom.stack s)) n in
  tree_failed o = true →
  ∃ line,
    tree_log_line n o = Some line
    ∧ Bom.logs s' = Bom.logs s ++ [line]
    ∧ tree_failures s' = S (tree_failures s)
    ∧ Bom.created s' = Bom.created s
    ∧ final = tree_loop d s' post
    ∧ line ∈ Bom.logs final
    ∧ (tree_failures s < tree_failures final)%nat.
Proof.
  intros s s' final o Ho.
  assert (final = tree_loop d s' post) as Hfinal.
  { unfold final. by rewrite tree_loop_app. }
  destruct (tree_loop_grows d post s') as (Hl & Hf & _). rewrite <-Hfinal in Hl, Hf.
  subst s' o. unfold tree_step, tree_failures in *.
  destruct (tree_outcome _ _ _ _); try done; simpl in *;
    (eexists; split; [done|]; split; [done|]; split; [lia|]; split; [lia|];
     split; [done|]; split;
       [eapply elem_of_prefix; [|exact Hl]; apply elem_of_app; right; by left
       |lia]).
Qed.

Lemma import_items_returns (d : store) (hm : list (nat * string))
  (data : list (nat * row)) :
  items_prepare d = inr (hm, data) →
  ∃ report d',
    import_items d = (Ok report, d')
    ∧ Items.summary report = items_summary (items_loop hm (items_init d) data).
Proof. intros Hp. unfold import_items. rewrite Hp. eauto. Qed.

Lemma import_bom_creator_returns (fuel : nat) (d : store)
  (x : Node.t * list Node.t * string * string) :
  bom_prepare d = inr x → (size (bom_creator_names d) ≤ fuel)%nat →
  ∃ report d', import_bom_creator fuel d = (Ok report, d').
Proof.
  intros Hp Hfuel. unfold import_bom_creator, bom_build. rewrite Hp.
  destruct x as [[[root nodes] company] currency].
  destruct (get_unique_bom_creator_name_spec fuel d (CStr (Node.item_code root)) Hfuel)
    as (name & -> & _).
  eauto.
Qed.

End RowFailures.

(** ** Running the item import again *)

Section Idempotence.
Context `{PyRuntime} `{Collaborators}.

Lemma covers_refl (d : store) : covers d d.
Proof. by split. Qed.

Lemma covers_trans (d3 d2 d1 : store) : covers d3 d2 → covers d2 d1 → covers d3 d1.
Proof. intros [Hi Hg] [Hi' Hg']. split; auto. Qed.

Lemma covers_with_items (d : store) (l : list Item.doc) :
  covers (with_items d (item_table d ++ l)) d.
Proof.
  split; [|done]. intros name. unfold item_exists. simpl.
  rewrite existsb_app. intros ->. done.
Qed.

Lemma covers_with_item_groups (d : store) (l : list ItemGroup.doc) :
  covers (with_item_groups d (item_group_table d ++ l)) d.
Proof.
  split; [done|]. intros name. unfold item_group_exists. simpl.
  rewrite existsb_app. intros ->. done.
Qed.

Lemma ensure_item_group_created (d d' : store) (g g' : string) :
  ensure_item_group d g = Some (g', d') →
  g' = g ∧ item_group_exists d' g = true ∧ covers d' d
  ∧ item_table d' = item_table d ∧ tool d' = tool d ∧ files d' = files d.
Proof.
  unfold ensure_item_group. destruct (item_group_exists d g) eqn:E.
  - intros [= <- <-]. split_and!; auto using covers_refl.
  - destruct (insert_item_group_raises _ _); [done|]. intros [= <- <-].
    split; [done|]. split; [|split_and!; auto using covers_with_item_groups].
    unfold item_group_exists. simpl. rewrite existsb_app. simpl.
    by rewrite String.eqb_refl, orb_true_r.
Qed.

Lemma ensure_item_group_exists (d : store) (g : string) :
  item_group_exists d g = true → ensure_item_group d g = Some (g, d).
Proof. unfold ensure_item_group. by intros ->. Qed.

Lemma items_row_grows (hm : list (nat * string)) (d d' : store) (r : row)
  (o : Items.outcome) :
  items_row hm d r = (o, d') →
  covers d' d ∧ tool d' = tool d ∧ files d' = files d.
Proof.
  unfold items_row. destruct (negb (any r)); [intros [= <- <-]; split_and!; auto using covers_refl|].
  destruct (negb (Py.truthy _)); [intros [= <- <-]; split_and!; auto using covers_refl|].
  destruct (negb (Py.truthy _)); [intros [= <- <-]; split_and!; auto using covers_refl|].
  destruct (ensure_item_group d _) as [[g dg]|] eqn:Hg;
    [|intros [= <- <-]; split_and!; auto using covers_refl].
  apply ensure_item_group_created in Hg as (_ & _ & Hc & _ & Ht & Hf).
  destruct (item_exists dg _); [by intros [= <- <-]|].
  destruct (insert_item_raises _ _); [by intros [= <- <-]|].
  intros [= <- <-]. split; [|done].
  eapply covers_trans; [apply covers_with_items|done].
Qed.

Lemma items_step_db (hm : list (nat * string)) (st : Items.state) (i : nat) (r : row) :
  Items.db (items_step hm st (i, r)) = (items_row hm (Items.db st) r).2.
Proof.
  unfold items_step. destruct (items_row _ _ _) as [o d].
  by destruct (items_count o) as [[[? ?] ?] ?].
Qed.

Lemma items_loop_covers (hm : list (nat * string)) (rows : list (nat * row)) :
  ∀ st, covers (Items.db (items_loop hm st rows)) (Items.db st)
        ∧ tool (Items.db (items_loop hm st rows)) = tool (Items.db st)
        ∧ files (Items.db (items_loop hm st rows)) = files (Items.db st).
Proof.
  induction rows as [|[i r] rows IH]; intros st; [split_and!; auto using covers_refl|].
  change (items_loop hm st ((i, r) :: rows))
    with (items_loop hm (items_step hm st (i, r)) rows).
  destruct (IH (items_step hm st (i, r))) as (Hc & Ht & Hf).
  rewrite items_step_db in Hc, Ht, Hf.
  destruct (items_row hm (Items.db st) r) as [o d'] eqn:Hrow.
  apply items_row_grows in Hrow as (Hc' & Ht' & Hf'). simpl in *.
  split; [by eapply covers_trans|]. split; congruence.
Qed.

(** A row that did not fail with an error is, on any store that has the
    items and groups the first run left, a duplicate or skipped as before,
    and that store is left as it is. *)
Lemma items_row_rerun (hm : list (nat * string)) (s1 s1' s2 : store) (r : row)
  (o1 : Items.outcome) :
  items_row hm s1 r = (o1, s1') → items_error o1 = false → covers s2 s1' →
  items_row hm s2 r = (rerun o1, s2).
Proof.
  unfold items_row. destruct (negb (any r)); [by intros [= <- <-]|].
  destruct (negb (Py.truthy _)); [by intros [= <- <-]|].
  destruct (negb (Py.truthy _)); [by intros [= <- <-]|].
  destruct (ensure_item_group s1 _) as [[g dg]|] eqn:Hg; [|by intros [= <- <-]].
  apply ensure_item_group_created in Hg as (-> & Hg & _ & Hitems & _).
  destruct (item_exists dg _) eqn:Hitem.
  - intros [= <- <-] _ [Hi Hgr].
    rewrite (ensure_item_group_exists s2) by auto. by rewrite Hi.
  - destruct (insert_item_raises _ _); [by intros [= <- <-]|].
    intros [= <- <-] _ [Hi Hgr].
    rewrite (ensure_item_group_exists s2) by auto.
    rewrite Hi; [done|]. unfold item_exists. simpl. rewrite existsb_app. simpl.
    by rewrite String.eqb_refl, orb_true_r.
Qed.

Lemma items_trace_rerun (hm : list (nat * string)) (rows : list (nat * row)) :
  ∀ (st1 : Items.state) (s2 : store),
    Forall (λ e, items_error e.2 = false) (items_trace hm (Items.db st1) rows) →
    covers s2 (Items.db (items_loop hm st1 rows)) →
    items_trace hm s2 rows
    = (λ e, (e.1, rerun e.2)) <$> items_trace hm (Items.db st1) rows
    ∧ ∀ st2, Items.db st2 = s2 → Items.db (items_loop hm st2 rows) = s2.
Proof.
  induction rows as [|[i r] rows IH]; intros st1 s2 Herr Hcov; [done|].
  change (items_loop hm st1 ((i, r) :: rows))
    with (items_loop hm (items_step hm st1 (i, r)) rows) in Hcov.
  simpl in Herr. simpl.
  destruct (items_row hm (Items.db st1) r) as [o1 s1'] eqn:Hrow1.
  assert (Items.db (items_step hm st1 (i, r)) = s1') as Hdb
    by (by rewrite items_step_db, Hrow1).
  apply Forall_cons in Herr as [Ho Herr]. simpl in Ho.
  destruct (items_loop_covers hm rows (items_step hm st1 (i, r))) as (Hc & _).
  rewrite Hdb in Hc.
  rewrite (items_row_rerun hm _ _ s2 r o1 Hrow1 Ho) by (by eapply covers_trans).
  rewrite <-Hdb in Herr.
  destruct (IH (items_step hm st1 (i, r)) s2 Herr Hcov) as [-> Hloop].
  rewrite Hdb. split; [done|].
  intros st2 Hst2.
  change (items_loop hm st2 ((i, r) :: rows))
    with (items_loop hm (items_step hm st2 (i, r)) rows).
  apply Hloop. etrans; [exact (items_step_db hm st2 i r)|]. rewrite Hst2.
  by rewrite (items_row_rerun hm _ _ s2 r o1 Hrow1 Ho) by (by eapply covers_trans).
Qed.

(** The log and the counters are those of the trace. *)
Lemma items_loop_trace (hm : list (nat * string)) (rows : list (nat * row)) :
  ∀ st,
    let tr := items_trace hm (Items.db st) rows in
    let st' := items_loop hm st rows in
    Items.logs st' = Items.logs st ++ items_lines tr
    ∧ Items.created st' = (Items.created st + tally is_created tr)%nat
    ∧ Items.duplicates st' = (Items.duplicates st + tally is_duplicate tr)%nat
    ∧ Items.skipped st' = (Items.skipped st + tally is_skipped tr)%nat
    ∧ Items.errors st' = (Items.errors st + tally items_error tr)%nat.
Proof.
  induction rows as [|[i r] rows IH]; intros st.
  - simpl. unfold tally. simpl. rewrite app_nil_r. split_and!; (done || lia).
  - intros tr st'. subst tr st'.
    change (items_loop hm st ((i, r) :: rows))
      with (items_loop hm (items_step hm st (i, r)) rows).
    destruct (IH (items_step hm st (i, r))) as (Hl & Hc & Hd & Hs & He).
    rewrite Hl, Hc, Hd, Hs, He. clear Hl Hc Hd Hs He IH.
    pose proof (items_step_db hm st i r) as Hdb. rewrite Hdb. simpl.
    unfold items_step.
    destruct (items_row hm (Items.db st) r) as [o d']. simpl.
    unfold tally, items_lines. simpl.
    destruct o; simpl; rewrite <-?app_assoc; simpl; split_and!;
      (done || (unfold fmap; lia)).
Qed.

Lemma tally_cons (kind : Items.outcome → bool) (e : nat * Items.outcome)
  (tr : list (nat * Items.outcome)) :
  tally kind (e :: tr) = ((if kind e.2 then 1 else 0) + tally kind tr)%nat.
Proof. done. Qed.

Lemma tally_zero (kind : Items.outcome → bool) (tr : list (nat * Items.outcome)) :
  tally kind tr = 0%nat → Forall (λ e, kind e.2 = false) tr.
Proof.
  unfold tally. induction tr as [|e tr IH]; simpl; [constructor|].
  destruct (kind e.2) eqn:E; [done|]. intros Hz. constructor; auto.
Qed.

Lemma tally_rerun (tr : list (nat * Items.outcome)) :
  Forall (λ e, items_error e.2 = false) tr →
  let tr' := (λ e, (e.1, rerun e.2)) <$> tr in
  tally is_created tr' = 0%nat
  ∧ tally is_duplicate tr' = (tally is_created tr + tally is_duplicate tr)%nat
  ∧ tally is_skipped tr' = tally is_skipped tr
  ∧ tally items_error tr' = 0%nat.
Proof.
  induction 1 as [|[i o] tr Ho _ IH]; [done|].
  intros tr'. subst tr'. rewrite fmap_cons, !tally_cons.
  destruct IH as (-> & -> & -> & ->). simpl in Ho.
  destruct o; simpl in *; split_and!; (done || lia).
Qed.

Lemma items_prepare_with_tool (d d' : store) :
  Tool.plm_file (tool d') = Tool.plm_file (tool d) → files d' = files d →
  items_prepare d' = items_prepare d.
Proof.
  intros Hp Hf. unfold items_prepare, get_file. by rewrite Hp, Hf.
Qed.

(** C8 (amended). Run [import_items] on a file and, when that run met no
    error, run it again on the store it left. The second run creates no
    item: every row the first run created or found duplicate is logged as a
    duplicate, and every row the first run skipped is skipped again with
    the same line. *)
Theorem second_run_creates_nothing (d : store) (hm : list (nat * string))
  (data : list (nat * row)) :
  items_prepare d = inr (hm, data) →
  let st1 := items_loop hm (items_init d) data in
  let d1 := (import_items d).2 in
  let st2 := items_loop hm (items_init d1) data in
  Items.errors st1 = 0%nat →
  items_prepare d1 = inr (hm, data)
  ∧ items_trace hm d1 data = (λ e, (e.1, rerun e.2)) <$> items_trace hm d data
  ∧ Items.logs st2 = items_lines (items_trace hm d1 data)
  ∧ item_table (Items.db st2) = item_table d1
  ∧ Items.created st2 = 0%nat
  ∧ Items.duplicates st2 = (Items.created st1 + Items.duplicates st1)%nat
  ∧ Items.skipped st2 = Items.skipped st1
  ∧ Items.errors st2 = 0%nat
  ∧ (∀ i item_code,
       (i, Items.Created item_code) ∈ items_trace hm d data
       ∨ (i, Items.Duplicate item_code) ∈ items_trace hm d data →
       "Row " +:+ Py.str_nat i +:+ ": duplicate " +:+ item_code
       +:+ " (already exists)." ∈ Items.logs st2).
Proof.
  intros Hp st1 d1 st2 Herr.
  destruct (items_loop_trace hm data (items_init d)) as (Hl1 & Hc1 & Hd1 & Hs1 & He1).
  fold st1 in Hl1, Hc1, Hd1, Hs1, He1. simpl in *.
  assert (Forall (λ e, items_error e.2 = false) (items_trace hm d data)) as Hok.
  { apply tally_zero. lia. }
  destruct (items_loop_covers hm data (items_init d)) as (_ & Htool & Hfiles).
  fold st1 in Htool, Hfiles. simpl in *.
  assert (d1 = with_tool (Items.db st1) (tool d1)) as Hd1eq.
  { unfold d1, import_items. by rewrite Hp. }
  assert (Tool.plm_file (tool d1) = Tool.plm_file (tool d)) as Hplm.
  { unfold d1, import_items. rewrite Hp. simpl. fold st1. by rewrite Htool. }
  assert (files d1 = files d) as Hf1.
  { rewrite Hd1eq. simpl. done. }
  assert (covers d1 (Items.db st1)) as Hcov.
  { rewrite Hd1eq. by split. }
  destruct (items_trace_rerun hm data (items_init d) d1 Hok Hcov) as [Htr Hdb].
  simpl in Htr.
  destruct (items_loop_trace hm data (items_init d1)) as (Hl2 & Hc2 & Hd2 & Hs2 & He2).
  fold st2 in Hl2, Hc2, Hd2, Hs2, He2. simpl in *.
  destruct (tally_rerun _ Hok) as (Tc & Td & Ts & Te). simpl in *.
  rewrite <-Htr in Tc, Td, Ts, Te.
  split; [by rewrite (items_prepare_with_tool d d1)|].
  split; [done|]. split; [done|].
  split; [unfold st2; by rewrite (Hdb (items_init d1) eq_refl)|].
  split; [lia|]. split; [lia|]. split; [lia|]. split; [lia|].
  intros i item_code Hin. rewrite Hl2, Htr. unfold items_lines.
  apply list_elem_of_omap.
  destruct Hin as [Hin|Hin].
  - exists (i, rerun (Items.Created item_code)). split; [|done].
    apply list_elem_of_fmap. by exists (i, Items.Created item_code).
  - exists (i, rerun (Items.Duplicate item_code)). split; [|done].
    apply list_elem_of_fmap. by exists (i, Items.Duplicate item_code).
Qed.

End Idempotence.

(** ** Rows that give no node *)

Section NodeParsing.
Context `{PyRuntime} `{Collaborators}.

Lemma enumerate_app {A} (l1 l2 : list A) :
  ∀ start, enumerate start (l1 ++ l2)
           = enumerate start l1 ++ enumerate (start + length l1) l2.
Proof.
  induction l1 as [|x l1 IH]; intros start; simpl.
  - by rewrite Nat.add_0_r.
  - by rewrite IH, Nat.add_succ_r.
Qed.

Lemma parse_nodes_app (hm : list (nat * string)) (pre post : list (nat * row)) :
  parse_nodes hm (pre ++ post) = parse_nodes hm pre ++ parse_nodes hm post.
Proof. apply omap_app. Qed.

Lemma node_of_row_blank (hm : list (nat * string)) (i : nat) :
  node_of_row hm i [] = None.
Proof. done. Qed.

Lemma node_of_row_dropped (hm : list (nat * string)) (i : nat) (r : row) :
  in_none_or_empty (get (extract_row_data r hm) "structure_level") = true
  ∨ Py.strip (cstr (get (extract_row_data r hm) "item_code")) = EmptyString →
  node_of_row hm i r = None.
Proof.
  unfold node_of_row. destruct (negb (any r)); [done|].
  intros [-> | ->]; [done|]. by destruct (in_none_or_empty _).
Qed.

Lemma node_of_row_level_0 (hm : list (nat * string)) (i : nat) (r : row) (s : string) :
  any r = true →
  get (extract_row_data r hm) "structure_level" = CStr s →
  s ≠ EmptyString → py_float s = None →
  Py.strip (cstr (get (extract_row_data r hm) "item_code")) ≠ EmptyString →
  ∃ n, node_of_row hm i r = Some n ∧ Node.level n = 0 ∧ Node.row_idx n = i.
Proof.
  intros Hany Hlevel Hs Hfloat Hcode. unfold node_of_row.
  rewrite Hany, Hlevel. simpl.
  destruct s as [|a s]; [done|]. simpl.
  destruct (Py.strip (cstr _)) as [|c code] eqn:E; [done|]. simpl.
  destruct (parse_qty_and_uom _) as [qty qty_uom].
  eexists. split; [done|]. simpl. by rewrite Hfloat.
Qed.

Lemma next_at_level_at (n : Node.t) (before after : list Node.t) :
  Forall (λ m, Node.level m ≠ Node.level n) before →
  ∀ pos, next_at_level pos (Node.level n) (before ++ n :: after)
         = Some ((pos + length before)%nat, n).
Proof.
  induction 1 as [|m before Hm _ IH]; intros pos; simpl.
  - by rewrite Z.eqb_refl, Nat.add_0_r.
  - apply Z.eqb_neq in Hm. rewrite Hm, IH. by rewrite Nat.add_succ_r.
Qed.

Lemma min_level_unique (first : Node.t) (rest : list Node.t) (n : Node.t) :
  n ∈ first :: rest →
  Forall (λ m, Node.level n ≤ Node.level m) (first :: rest) →
  min_level first rest = Node.level n.
Proof.
  intros Hn Hall.
  pose proof (min_level_le first rest) as Hle.
  destruct (min_level_elem first rest) as (m & Hm & Hlvl).
  rewrite Forall_forall in Hall, Hle.
  specialize (Hall m Hm). specialize (Hle n Hn). simpl in *. lia.
Qed.

(** A node below which no earlier node lies, and below which no later node
    lies strictly, is the root. *)
Lemma select_root_at (n : Node.t) (before after : list Node.t) :
  Forall (λ m, Node.level n < Node.level m) before →
  Forall (λ m, Node.level n ≤ Node.level m) after →
  select_root (before ++ n :: after) = Some (n, n :: after).
Proof.
  intros Hbefore Hafter.
  assert (Forall (λ m, Node.level m ≠ Node.level n) before) as Hne.
  { eapply Forall_impl; [exact Hbefore|]. simpl. intros; lia. }
  assert (Forall (λ m, Node.level n ≤ Node.level m) (before ++ n :: after)) as Hall.
  { apply Forall_app. split.
    - eapply Forall_impl; [exact Hbefore|]. simpl. intros; lia.
    - constructor; [lia|done]. }
  assert (n ∈ before ++ n :: after) as Hn.
  { apply elem_of_app. right. left. }
  pose proof (next_at_level_at n before after Hne 0) as Hnext.
  pose proof (list_index_spec n before after Hne 0) as Hidx.
  unfold select_root.
  destruct (before ++ n :: after) as [|first rest] eqn:E.
  { by destruct before. }
  rewrite (min_level_unique first rest n Hn Hall), Hnext. simpl in *.
  rewrite Hidx. simpl. by rewrite <-E, drop_app_length.
Qed.

Lemma nodes_prepare_blank (d : store) (header r : row) (pre post : list row) :
  (∀ i, node_of_row (build_header_map header) i r = None) →
  nodes_prepare d (header :: pre ++ r :: post)
  = nodes_prepare d (header :: pre ++ [] :: post).
Proof.
  intros Hr. unfold nodes_prepare.
  assert (parse_nodes (build_header_map header) (enumerate 2 (pre ++ r :: post))
          = parse_nodes (build_header_map header) (enumerate 2 (pre ++ [] :: post)))
    as Hparse.
  { rewrite !enumerate_app, !parse_nodes_app. f_equal. simpl.
    unfold parse_nodes. simpl. by rewrite Hr. }
  destruct pre as [|p pre]; simpl in *; by rewrite Hparse.
Qed.

(** C10. In [import_bom_creator] a row that is not blank but whose
    structure-level cell is empty or missing, or whose item code is empty
    once trimmed, gives no node: the nodes parsed are those of the other
    rows, and the import does exactly what it does when the row is blank, so
    no log line and no counter come from it. A structure-level cell that is
    not numeric gives level 0, and the node is then the root when no node
    before it has level 0 or less and no node after it lies below 0. *)
Theorem row_without_level_or_code_is_dropped (header : row) (i : nat) (r : row) :
  let hm := build_header_map header in
  let row_data := extract_row_data r hm in
  (in_none_or_empty (get row_data "structure_level") = true
   ∨ Py.strip (cstr (get row_data "item_code")) = EmptyString →
   node_of_row hm i r = None
   ∧ (∀ pre post,
        parse_nodes hm (pre ++ (i, r) :: post)
        = parse_nodes hm pre ++ parse_nodes hm post)
   ∧ (∀ fuel d pre post,
        import_bom_rows fuel d (header :: pre ++ r :: post)
        = import_bom_rows fuel d (header :: pre ++ [] :: post)))
  ∧ (∀ s, any r = true →
       get row_data "structure_level" = CStr s →
       s ≠ EmptyString → py_float s = None →
       Py.strip (cstr (get row_data "item_code")) ≠ EmptyString →
       ∃ n, node_of_row hm i r = Some n ∧ Node.level n = 0 ∧ Node.row_idx n = i
            ∧ ∀ before after,
                Forall (λ m, 0 < Node.level m) before →
                Forall (λ m, 0 ≤ Node.level m) after →
                select_root (before ++ n :: after) = Some (n, n :: after)).
Proof.
  intros hm row_data. split.
  - intros Hdrop. split; [by apply node_of_row_dropped|]. split.
    + intros pre post. rewrite parse_nodes_app. f_equal.
      unfold parse_nodes. simpl. fold hm. by rewrite node_of_row_dropped.
    + intros fuel d pre post. unfold import_bom_rows.
      rewrite (nodes_prepare_blank d header r pre post); [done|].
      intros j. by apply node_of_row_dropped.
  - intros s Hany Hlevel Hs Hfloat Hcode.
    destruct (node_of_row_level_0 hm i r s Hany Hlevel Hs Hfloat Hcode)
      as (n & Hn & Hl & Hi).
    exists n. split; [done|]. split; [done|]. split; [done|].
    intros before after Hb Ha. apply select_root_at; by rewrite Hl.
Qed.

End NodeParsing.

(** ** A root, two children and a grandchild *)

Section EndToEnd.
Context `{PyRuntime} `{Collaborators}.

Lemma tree_step_created (d : store) (st : Bom.state) (n : Node.t)
  (parent : Frame.t) (rest : list Frame.t) :
  pop_frames (Node.level n) (Bom.stack st) = parent :: rest →
  item_exists d (Node.item_code n) = true →
  append_raises (Bom.bom_creator st) (new_row d n parent) = false →
  let r := numbered (BomCreator.items (Bom.bom_creator st)) (new_row d n parent) in
  tree_step d st n =
    {| Bom.bom_creator :=
         with_rows (Bom.bom_creator st) (BomCreator.items (Bom.bom_creator st) ++ [r]);
       Bom.stack :=
         {| Frame.level := Node.level n; Frame.item_code := Node.item_code n;
            Frame.item_row_no := Some (BomItem.idx r) |} :: parent :: rest;
       Bom.logs := Bom.logs st; Bom.created := S (Bom.created st);
       Bom.skipped := Bom.skipped st; Bom.errors := Bom.errors st |}.
Proof.
  intros Hpop Hitem Happend. unfold tree_step, tree_outcome.
  rewrite Hpop, Hitem. simpl. rewrite Happend. simpl. by rewrite app_nil_r.
Qed.

Lemma tree_loop_family (d : store) (b : BomCreator.doc) (n0 n1 n2 n3 : Node.t) :
  Node.level n0 = 0 → Node.level n1 = 1 → Node.level n2 = 1 → Node.level n3 = 2 →
  Forall (λ n, item_exists d (Node.item_code n) = true) [n1; n2; n3] →
  (∀ b r, append_raises b r = false) →
  BomCreator.items b = [] →
  let st := tree_loop d (tree_init b n0) [n1; n2; n3] in
  Bom.created st = 3%nat ∧ Bom.skipped st = 0%nat ∧ Bom.errors st = 0%nat
  ∧ Bom.logs st = []
  ∧ BomCreator.name (Bom.bom_creator st) = BomCreator.name b
  ∧ BomCreator.item_code (Bom.bom_creator st) = BomCreator.item_code b
  ∧ linkage <$> BomCreator.items (Bom.bom_creator st)
    = [ (Node.item_code n1, Node.item_code n0, None, 1%nat);
        (Node.item_code n2, Node.item_code n0, None, 2%nat);
        (Node.item_code n3, Node.item_code n2, Some 2%nat, 3%nat) ].
Proof.
  intros L0 L1 L2 L3 Hitems Happend Hb st. subst st.
  apply Forall_cons in Hitems as [E1 Hitems].
  apply Forall_cons in Hitems as [E2 Hitems].
  apply Forall_cons in Hitems as [E3 _].
  unfold tree_loop. simpl foldl.
  rewrite (tree_step_created d (tree_init b n0) n1 (root_frame n0) []);
    [|simpl; by rewrite L1, L0|done|done].
  erewrite (tree_step_created d _ n2 (root_frame n0) []);
    [|simpl; by rewrite L2, L1, L0|done|done].
  erewrite (tree_step_created d _ n3 _ [root_frame n0]);
    [|simpl; by rewrite L3, L2|done|done].
  simpl. rewrite Hb. simpl. split_and!; done.
Qed.

(** C9 (amended). A file of five rows (the header, a root at level 0, two
    children at level 1 and a grandchild at level 2 below the second child),
    all items being in the catalog and no append raising, gives a BOM
    Creator with exactly 3 rows under the root: the two children hang on the
    root, with no parent row number, and the grandchild on row 2; the
    summary reads "Items: 3, Skipped: 0, Errors: 0.". *)
Theorem family_of_four_gives_three_rows (fuel : nat) (d : store)
  (header : row) (data : list row) (n0 n1 n2 n3 : Node.t)
  (company currency : string) :
  let hm := build_header_map header in
  Tool.plm_file (tool d) ≠ EmptyString →
  Py.lstrip_dots (extension_part (attached_file d)) ∈ ["csv"; "xlsx"; "xls"] →
  file_rows (attached_file d) = header :: data →
  length data = 4%nat →
  has_field "structure_level" hm = true →
  has_field "item_code" hm = true →
  parse_nodes hm (enumerate 2 data) = [n0; n1; n2; n3] →
  Node.level n0 = 0 → Node.level n1 = 1 → Node.level n2 = 1 → Node.level n3 = 2 →
  Forall (λ n, item_exists d (Node.item_code n) = true) [n0; n1; n2; n3] →
  (∀ b r, append_raises b r = false) →
  or_else (user_default_company d) (global_default_company d) = Some company →
  company ≠ EmptyString →
  default_currency d company = Some currency →
  currency ≠ EmptyString →
  (size (bom_creator_names d) ≤ fuel)%nat →
  ∃ name report d' b,
    import_bom_creator fuel d = (Ok report, d')
    ∧ Bom.summary report
      = "Created BOM Creator " +:+ name +:+ ". Items: 3, Skipped: 0, Errors: 0."
    ∧ Bom.log report = Bom.summary report
    ∧ Bom.bom_creator_name report = name
    ∧ bom_creator_table d' = bom_creator_table d ++ [b]
    ∧ BomCreator.name b = name
    ∧ BomCreator.item_code b = Node.item_code n0
    ∧ length (BomCreator.items b) = 3%nat
    ∧ linkage <$> BomCreator.items b
      = [ (Node.item_code n1, Node.item_code n0, None, 1%nat);
          (Node.item_code n2, Node.item_code n0, None, 2%nat);
          (Node.item_code n3, Node.item_code n2, Some 2%nat, 3%nat) ].
Proof.
  intros hm Hplm Hext Hrows Hlen Hlevel Hcode Hparse L0 L1 L2 L3 Hitems Happend
    Hcompany Hc Hcurrency Hcur Hfuel.
  assert (select_root [n0; n1; n2; n3] = Some (n0, [n0; n1; n2; n3])) as Hroot.
  { apply (select_root_at n0 []); [constructor|].
    rewrite L0. repeat constructor; lia. }
  assert (bom_prepare d = inr (n0, [n0; n1; n2; n3], company, currency)) as Hprep.
  { unfold bom_prepare, get_file. fold (attached_file d).
    destruct (Tool.plm_file (tool d)); [done|]. simpl.
    rewrite bool_decide_eq_true_2 by done. unfold load_rows. rewrite Hrows.
    unfold nodes_prepare. destruct data as [|r0 data]; [done|].
    fold hm. rewrite Hlevel, Hcode. cbn [negb]. rewrite Hparse, Hroot.
    apply Forall_cons in Hitems as [-> _]. cbn [negb]. rewrite Hcompany.
    destruct company; [done|]. rewrite Hcurrency. by destruct currency. }
  destruct (get_unique_bom_creator_name_spec fuel d (CStr (Node.item_code n0)) Hfuel)
    as (name & Hname & _).
  unfold import_bom_creator, bom_build. rewrite Hprep, Hname.
  apply Forall_cons in Hitems as [_ Hitems].
  destruct (tree_loop_family d
              (new_bom_creator d name n0 company currency) n0 n1 n2 n3
              L0 L1 L2 L3 Hitems Happend eq_refl)
    as (Hcr & Hsk & Her & Hlogs & Hnm & Hic & Hlink).
  cbn [tail].
  set (st := tree_loop d (tree_init (new_bom_creator d name n0 company currency) n0)
               [n1; n2; n3]) in *.
  eexists name, _, _, (submitted (Bom.bom_creator st)).
  split; [reflexivity|]. cbn [Bom.summary Bom.log Bom.bom_creator_name].
  unfold bom_summary. rewrite Hcr, Hsk, Her, Hlogs.
  split; [reflexivity|]. split; [reflexivity|]. split; [reflexivity|].
  split; [reflexivity|]. split; [exact Hnm|]. split; [exact Hic|].
  split; [|exact Hlink].
  change (BomCreator.items (submitted (Bom.bom_creator st)))
    with (BomCreator.items (Bom.bom_creator st)).
  by rewrite <-(length_fmap linkage), Hlink.
Qed.

End EndToEnd.

(** * The properties on the example data *)

Lemma root_is_first_minimum_witness :
  ∃ before root after,
    five_levels = before ++ root :: after
    ∧ select_root five_levels = Some (root, root :: after)
    ∧ Forall (λ n, Node.level root ≤ Node.level n) five_levels
    ∧ Forall (λ n, Node.level root < Node.level n) before.
Proof. apply (root_is_first_minimum five_levels). discriminate. Defined.

Lemma five_levels_root :
  select_root five_levels
  = Some (example_node 4 1 "C",
          [example_node 4 1 "C"; example_node 5 2 "D"; example_node 6 1 "E"]).
Proof. reflexivity. Qed.

(** Levels 0, 0, 1: the second node pops the root and is skipped; the third
    has that skipped node as its only ancestor and is skipped as well. With
    levels 0, 1 the second node is created under the root. *)
Lemma skipped_node_is_never_parent_witness :
  let d := family_store in
  let root := example_node 2 0 "ROOT" in
  let b := new_bom_creator d "ROOT" root "ACME" "INR" in
  tree_trace d (tree_init b root) [example_node 3 0 "A"; example_node 4 1 "B"] !! 1%nat
  = Some (example_node 4 1 "B", Bom.NoParent)
  ∧ Bom.stack (tree_loop d (tree_init b root)
                 [example_node 3 0 "A"; example_node 4 1 "B"]) = []
  ∧ head (omap snd (ancestors 1 (history root [])))
    = Some (root_frame root).
Proof.
  intros d root b.
  destruct (skipped_node_is_never_parent d b root
              [example_node 3 0 "A"] (example_node 4 1 "B") [])
    as (Hlookup & Hstack & _ & Hskip).
  destruct (skipped_node_is_never_parent d b root [] (example_node 3 1 "A") [])
    as (_ & _ & Hparent & _).
  split; [|split].
  - destruct Hskip as [Ho _]; [vm_compute; repeat constructor|].
    etrans; [exact Hlookup|].
    exact (f_equal (λ o, Some (example_node 4 1 "B", o)) Ho).
  - etrans; [apply Hstack; reflexivity|]. reflexivity.
  - eapply Hparent. reflexivity.
Defined.

Lemma taken_twice_gives_rev2 :
  get_unique_bom_creator_name 2
    (example_store "/files/bom.csv" [] [] ["ITEM-100"; "ITEM-100-REV1"])
    (CStr "ITEM-100")
  = Some "ITEM-100-REV2".
Proof. reflexivity. Qed.

(** The resolver strips the base name before the first check: a base name
    with a leading blank, which no item code of a parsed node has, comes
    back without it. *)
Lemma unique_name_strips_base :
  let d := example_store "/files/bom.csv" [] [] [] in
  bom_creator_exists d " ITEM-100" = false
  ∧ get_unique_bom_creator_name 0 d (CStr " ITEM-100") = Some "ITEM-100"
  ∧ get_unique_bom_creator_name 0 d (CStr " ITEM-100") ≠ Some " ITEM-100".
Proof. split; [reflexivity|]. split; [reflexivity|]. vm_compute. discriminate. Qed.

(** No file attached: the import throws and the store is as before. *)
Lemma abort_leaves_store_unchanged_witness :
  let d := example_store EmptyString (family_header :: family_data) ["ROOT"] [] in
  ∃ msg, import_bom_creator 0 d = (Throw msg, d).
Proof.
  intros d. apply (abort_leaves_store_unchanged 0 d).
  apply MissingAttachment. reflexivity.
Defined.

Lemma no_attachment_message :
  let d := example_store EmptyString (family_header :: family_data) ["ROOT"] [] in
  import_bom_creator 0 d
  = (Throw "Please attach a PLM file before creating BOM Creator.", d).
Proof. reflexivity. Qed.

(** The item file run twice: the second run creates nothing, finds item A a
    duplicate and skips the row without item code again. *)
Lemma second_run_creates_nothing_witness :
  let hm := build_header_map item_header in
  let data := enumerate 2 item_data in
  let d1 := (import_items item_store).2 in
  Items.created (items_loop hm (items_init d1) data) = 0%nat
  ∧ "Row 2: duplicate A (already exists)."
      ∈ Items.logs (items_loop hm (items_init d1) data).
Proof.
  intros hm data d1.
  destruct (second_run_creates_nothing item_store hm data)
    as (_ & _ & _ & _ & Hcreated & _ & _ & _ & Hlogged);
    [reflexivity|vm_compute; reflexivity|].
  split; [exact Hcreated|].
  apply (Hlogged 2%nat "A"). left. vm_compute. left.
Defined.

(** C8 as stated fails: on the second run the row without item code is
    logged as skipped, not as a duplicate. *)
Lemma second_run_skips_again :
  let d1 := (import_items item_store).2 in
  (import_items d1).1
  = Ok {| Items.summary := "Created: 0, Duplicates: 1, Skipped: 1, Errors: 0.";
          Items.log :=
            Py.join newline
              [ "Created: 0, Duplicates: 1, Skipped: 1, Errors: 0.";
                "Row 2: duplicate A (already exists).";
                "Row 3: skipped (missing item code)." ] |}
  ∧ items_trace (build_header_map item_header) d1 (enumerate 2 item_data)
    = [(2%nat, Items.Duplicate "A"); (3%nat, Items.MissingItemCode)]
  ∧ ¬ Forall (λ e, ∃ item_code, e.2 = Items.Duplicate item_code)
        (items_trace (build_header_map item_header) d1 (enumerate 2 item_data)).
Proof.
  split; [reflexivity|]. split; [reflexivity|].
  intros Hall. vm_compute in Hall.
  apply Forall_cons in Hall as [_ Hall]. apply Forall_cons in Hall as [[c Hc] _].
  discriminate.
Qed.

(** The family file: three rows under the root. *)
Lemma family_of_four_gives_three_rows_witness :
  ∃ name report d',
    import_bom_creator 0 family_store = (Ok report, d')
    ∧ Bom.summary report
      = "Created BOM Creator " +:+ name +:+ ". Items: 3, Skipped: 0, Errors: 0.".
Proof.
  destruct (family_of_four_gives_three_rows 0 family_store family_header family_data
              {| Node.row_idx := 2; Node.level := 0; Node.item_code := "ROOT";
                 Node.item_name := EmptyString; Node.item_group := EmptyString;
                 Node.qty := Finite (Q2Qc (10 # 10)); Node.uom := EmptyString |}
              {| Node.row_idx := 3; Node.level := 1; Node.item_code := "A";
                 Node.item_name := EmptyString; Node.item_group := EmptyString;
                 Node.qty := Finite (Q2Qc (20 # 10)); Node.uom := "Nos" |}
              {| Node.row_idx := 4; Node.level := 1; Node.item_code := "B";
                 Node.item_name := EmptyString; Node.item_group := EmptyString;
                 Node.qty := Finite (Q2Qc (30 # 10)); Node.uom := EmptyString |}
              {| Node.row_idx := 5; Node.level := 2; Node.item_code := "C";
                 Node.item_name := EmptyString; Node.item_group := EmptyString;
                 Node.qty := Finite (Q2Qc (40 # 10)); Node.uom := EmptyString |}
              "ACME" "INR")
    as (name & report & d' & b & Himport & Hsummary & _).
  - discriminate.
  - vm_compute. left.
  - reflexivity.
  - reflexivity.
  - reflexivity.
  - reflexivity.
  - vm_compute. reflexivity.
  - reflexivity.
  - reflexivity.
  - reflexivity.
  - reflexivity.
  - vm_compute. repeat constructor.
  - intros b r. reflexivity.
  - reflexivity.
  - discriminate.
  - reflexivity.
  - discriminate.
  - vm_compute. repeat constructor.
  - exists name, report, d'. by split.
Defined.

(** C9 as stated fails: on the family file the table has 3 rows and the
    summary counts 3 items, not 4. *)
Lemma family_has_three_rows :
  (import_bom_creator 0 family_store).1
  = Ok {| Bom.summary := "Created BOM Creator ROOT. Items: 3, Skipped: 0, Errors: 0.";
          Bom.log := "Created BOM Creator ROOT. Items: 3, Skipped: 0, Errors: 0.";
          Bom.bom_creator_name := "ROOT" |}
  ∧ (linkage <$> concat (BomCreator.items
                           <$> bom_creator_table (import_bom_creator 0 family_store).2))
    = [("A", "ROOT", None, 1%nat); ("B", "ROOT", None, 2%nat);
       ("C", "B", Some 2%nat, 3%nat)]
  ∧ Bom.summary <$> (match (import_bom_creator 0 family_store).1 with
                     | Ok report => Some report
                     | _ => None
                     end)
    ≠ Some "Created BOM Creator ROOT. Items: 4, Skipped: 0, Errors: 0.".
Proof. split; [reflexivity|]. split; [reflexivity|]. vm_compute. discriminate. Qed.

(** A row with an empty level cell is dropped like a blank row, and a row
    whose level cell reads "n/a" is a node of level 0, here the root. *)
Lemma row_without_level_or_code_is_dropped_witness :
  let hm := build_header_map family_header in
  let pre := [[CStr "0"; CStr "ROOT"; CStr "1"]] in
  let post := [[CStr "1"; CStr "B"; CStr "3"]] in
  node_of_row hm 3 [CStr ""; CStr "A"; CStr "2"] = None
  ∧ import_bom_rows 0 family_store
      (family_header :: pre ++ [CStr ""; CStr "A"; CStr "2"] :: post)
    = import_bom_rows 0 family_store (family_header :: pre ++ [] :: post)
  ∧ ∃ n, node_of_row hm 2 [CStr "n/a"; CStr "ROOT"; CStr "1"] = Some n
         ∧ Node.level n = 0
         ∧ select_root ([] ++ n :: [example_node 3 1 "A"])
           = Some (n, [n; example_node 3 1 "A"]).
Proof.
  intros hm pre post.
  destruct (row_without_level_or_code_is_dropped family_header 3
              [CStr ""; CStr "A"; CStr "2"]) as [Hdrop _].
  destruct Hdrop as (Hnone & _ & Hsame); [left; reflexivity|].
  destruct (row_without_level_or_code_is_dropped family_header 2
              [CStr "n/a"; CStr "ROOT"; CStr "1"]) as [_ Hlevel].
  destruct (Hlevel "n/a") as (n & Hn & Hl & _ & Hroot);
    [reflexivity|reflexivity|discriminate|reflexivity|discriminate|].
  split; [exact Hnone|]. split; [apply Hsame|].
  exists n. split; [exact Hn|]. split; [exact Hl|].
  apply Hroot; [constructor|]. repeat constructor. simpl. lia.
Defined.

Lemma empty_level_row_leaves_no_trace :
  (import_bom_rows 0 family_store
     [ family_header; [CStr "0"; CStr "ROOT"; CStr "1"];
       [CStr ""; CStr "A"; CStr "2"]; [CStr "1"; CStr "B"; CStr "3"] ]).1
  = Ok {| Bom.summary := "Created BOM Creator ROOT. Items: 1, Skipped: 0, Errors: 0.";
          Bom.log := "Created BOM Creator ROOT. Items: 1, Skipped: 0, Errors: 0.";
          Bom.bom_creator_name := "ROOT" |}.
Proof. reflexivity. Qed.

(** Levels 1, 2, 2, 3, 2: the nodes of level 2 hang on the root, the node of
    level 3 on the node of level 2 just before it. *)
Lemma siblings_and_chain :
  let d := example_store "/files/bom.csv" [] ["R"; "A"; "B"; "C"; "D"] [] in
  let root := example_node 2 1 "R" in
  let b := new_bom_creator d "R" root "ACME" "INR" in
  linkage <$> BomCreator.items
                (Bom.bom_creator
                   (tree_loop d (tree_init b root)
                      [ example_node 3 2 "A"; example_node 4 2 "B";
                        example_node 5 3 "C"; example_node 6 2 "D" ]))
  = [ ("A", "R", None, 1%nat); ("B", "R", None, 2%nat);
      ("C", "B", Some 2%nat, 3%nat); ("D", "R", None, 4%nat) ].
Proof. reflexivity. Qed.

(** * Further properties of the module *)

(** ** Trimming *)

Lemma rstrip_idempotent (s : string) : Py.rstrip (Py.rstrip s) = Py.rstrip s.
Proof.
  induction s as [|a s IH]; [done|]. simpl.
  destruct (Py.rstrip s) as [|b r] eqn:E.
  - destruct (Py.isspace a) eqn:Ha; [done|]. simpl. by rewrite Ha.
  - change (Py.rstrip (String a (String b r)))
      with (match Py.rstrip (String b r) with
            | EmptyString => if Py.isspace a then EmptyString else String a EmptyString
            | r' => String a r'
            end).
    by rewrite IH.
Qed.

Lemma strip_idempotent (s : string) : Py.strip (Py.strip s) = Py.strip s.
Proof.
  destruct (strip_head s) as [-> | (a & r & E & Ha)]; [done|].
  unfold Py.strip at 1. rewrite E. simpl Py.lstrip. rewrite Ha.
  rewrite <-E. unfold Py.strip. apply rstrip_idempotent.
Qed.

(** ** Row normalizer *)

Section RowNormalizerFacts.
Context `{PyRuntime}.

Lemma extract_step_other (r : row) (field : string) (hm : list (nat * string)) :
  (∀ j, (j, field) ∈ hm → r !! j = None) →
  ∀ acc : gmap string cell,
    foldl (λ row_data '(idx, fieldname),
             match r !! idx with
             | None => row_data
             | Some value => <[fieldname := strip_cell value]> row_data
             end) acc hm !! field
    = acc !! field.
Proof.
  induction hm as [|[idx f] hm IH]; intros Hnone acc; [done|]. simpl.
  rewrite IH by (intros j Hj; apply Hnone; by right).
  destruct (r !! idx) as [v|] eqn:E; [|done].
  destruct (decide (f = field)) as [-> | Hne].
  - rewrite Hnone in E; [done|left].
  - by rewrite lookup_insert_ne.
Qed.

Lemma extract_step_origin (r : row) (field : string) (hm : list (nat * string)) :
  ∀ (acc : gmap string cell) (v : cell),
    foldl (λ row_data '(idx, fieldname),
             match r !! idx with
             | None => row_data
             | Some value => <[fieldname := strip_cell value]> row_data
             end) acc hm !! field = Some v →
    acc !! field = Some v
    ∨ ∃ idx c, (idx, field) ∈ hm ∧ r !! idx = Some c ∧ v = strip_cell c.
Proof.
  induction hm as [|[idx f] hm IH]; intros acc v; [by left|]. simpl.
  intros [Hacc | (j & c & Hj & Hr & ->)]%IH.
  - destruct (r !! idx) as [c|] eqn:E; [|by left].
    destruct (decide (f = field)) as [-> | Hne].
    + rewrite lookup_insert_eq in Hacc. injection Hacc as <-.
      right. exists idx, c. split; [left|done].
    + rewrite lookup_insert_ne in Hacc by done. by left.
  - right. exists j, c. split; [by right|done].
Qed.

Lemma extract_row_data_lookup (r : row) (hm : list (nat * string)) (field : string) :
  (∀ v, extract_row_data r hm !! field = Some v →
        ∃ idx c, (idx, field) ∈ hm ∧ r !! idx = Some c ∧ v = strip_cell c)
  ∧ ((∀ idx, (idx, field) ∈ hm → (length r ≤ idx)%nat) →
     get (extract_row_data r hm) field = CNone)
  ∧ (∀ hm1 idx c hm2,
       hm = hm1 ++ (idx, field) :: hm2 → r !! idx = Some c →
       (∀ j, (j, field) ∈ hm2 → (length r ≤ j)%nat) →
       get (extract_row_data r hm) field = strip_cell c).
Proof.
  split; [|split].
  - intros v Hv. apply extract_step_origin in Hv as [Hv | Hv]; [done|exact Hv].
  - intros Hshort. unfold get, extract_row_data.
    rewrite extract_step_other; [done|].
    intros j Hj. apply lookup_ge_None. by apply Hshort.
  - intros hm1 idx c hm2 -> Hc Hshort. unfold get, extract_row_data.
    rewrite foldl_app. simpl. rewrite Hc.
    rewrite extract_step_other.
    + by rewrite lookup_insert_eq.
    + intros j Hj. apply lookup_ge_None. by apply Hshort.
Qed.

(** X1. The value [extract_row_data] holds for a field is always the
    trimmed cell of a column mapped to that field. When the row is too short
    for every such column the field is absent, and read as [None]; otherwise
    the rightmost such column the row reaches gives the value. *)
Theorem row_data_is_rightmost_column (r : row) (hm : list (nat * string))
  (field : string) :
  (∀ v, extract_row_data r hm !! field = Some v →
        ∃ idx c, (idx, field) ∈ hm ∧ r !! idx = Some c ∧ v = strip_cell c)
  ∧ ((∀ idx, (idx, field) ∈ hm → (length r ≤ idx)%nat) →
     get (extract_row_data r hm) field = CNone)
  ∧ (∀ hm1 idx c hm2,
       hm = hm1 ++ (idx, field) :: hm2 → r !! idx = Some c →
       (∀ j, (j, field) ∈ hm2 → (length r ≤ j)%nat) →
       get (extract_row_data r hm) field = strip_cell c).
Proof. apply extract_row_data_lookup. Qed.

Lemma elem_of_enumerate {A} (l : list A) (i : nat) (x : A) :
  ∀ start, (i, x) ∈ enumerate start l ↔ (start ≤ i)%nat ∧ l !! (i - start)%nat = Some x.
Proof.
  induction l as [|y l IH]; intros start; simpl.
  - rewrite elem_of_nil. split; [done|]. intros [_ Hl]. by rewrite lookup_nil in Hl.
  - rewrite elem_of_cons, IH. split.
    + intros [[= -> ->] | [Hle Hl]].
      * by rewrite Nat.sub_diag.
      * split; [lia|]. by replace (i - start)%nat with (S (i - S start)) by lia.
    + intros [Hle Hl]. destruct (decide (i = start)) as [-> | Hne].
      * left. rewrite Nat.sub_diag in Hl. simpl in Hl. congruence.
      * right. split; [lia|].
        by replace (i - start)%nat with (S (i - S start)) in Hl by lia.
Qed.

Lemma build_header_map_elem (headers : row) (idx : nat) (field : string) :
  (idx, field) ∈ build_header_map headers
  ↔ ∃ header, headers !! idx = Some header
              ∧ alias_of (scrub (cstr header)) aliases = Some field.
Proof.
  unfold build_header_map. rewrite list_elem_of_omap. split.
  - intros ([i h] & Hin & Hf). apply elem_of_enumerate in Hin as [_ Hh].
    rewrite Nat.sub_0_r in Hh.
    destruct (alias_of (scrub (cstr h)) aliases) as [f|] eqn:E; [|done].
    simpl in Hf. injection Hf as Hi Hfield. subst. eauto.
  - intros (h & Hh & Ha). exists (idx, h). split.
    + apply elem_of_enumerate. rewrite Nat.sub_0_r. split; [lia|done].
    + by rewrite Ha.
Qed.

Lemma has_field_elem (field : string) (hm : list (nat * string)) :
  has_field field hm = true ↔ ∃ idx, (idx, field) ∈ hm.
Proof.
  unfold has_field. rewrite existsb_exists. split.
  - intros ([idx f] & Hin%list_elem_of_In & ->%String.eqb_eq). eauto.
  - intros [idx Hin]. exists (idx, field).
    split; [by apply list_elem_of_In|apply String.eqb_refl].
Qed.

Lemma omap_enumerate_sorted {A B} (f : A → option B) (l : list A) :
  ∀ start,
    Forall (λ p, (start ≤ p.1)%nat)
      (omap (λ '(idx, x), (λ y, (idx, y)) <$> f x) (enumerate start l))
    ∧ StronglySorted (λ p q, (p.1 < q.1)%nat)
        (omap (λ '(idx, x), (λ y, (idx, y)) <$> f x) (enumerate start l)).
Proof.
  induction l as [|x l IH]; intros start.
  - split; constructor.
  - destruct (IH (S start)) as [Hge Hsorted].
    change (omap (λ '(idx, x), (λ y, (idx, y)) <$> f x) (enumerate start (x :: l)))
      with (match (λ y, (start, y)) <$> f x with
            | Some p => p :: omap (λ '(idx, x), (λ y, (idx, y)) <$> f x)
                               (enumerate (S start) l)
            | None => omap (λ '(idx, x), (λ y, (idx, y)) <$> f x)
                        (enumerate (S start) l)
            end).
    destruct (f x) as [y|]; simpl.
    + split.
      * constructor; [simpl; lia|]. eapply Forall_impl; [exact Hge|]. simpl. intros; lia.
      * constructor; [done|]. eapply Forall_impl; [exact Hge|]. simpl. intros; lia.
    + split; [|done]. eapply Forall_impl; [exact Hge|]. simpl. intros; lia.
Qed.

(** X2. The header map has an entry for a column exactly when the header of
    that column, scrubbed, is one of the aliases, and the entry carries the
    field of that alias; its column indexes are strictly increasing, so a
    column has at most one field. The required-column test [has_field]
    holds exactly when some header of the file is an alias of the field. *)
Theorem header_map_holds_the_aliased_columns (headers : row) :
  (∀ idx field,
     (idx, field) ∈ build_header_map headers
     ↔ ∃ header, headers !! idx = Some header
                 ∧ alias_of (scrub (cstr header)) aliases = Some field)
  ∧ StronglySorted (λ p q, (p.1 < q.1)%nat) (build_header_map headers)
  ∧ (∀ field,
       has_field field (build_header_map headers) = true
       ↔ ∃ header, header ∈ headers
                   ∧ alias_of (scrub (cstr header)) aliases = Some field).
Proof.
  split; [apply build_header_map_elem|].
  split.
  { pose proof (omap_enumerate_sorted (λ h, alias_of (scrub (cstr h)) aliases)
                  headers 0) as [_ Hsorted].
    exact Hsorted. }
  intros field. rewrite has_field_elem. split.
  - intros [idx (h & Hh & Ha)%build_header_map_elem].
    exists h. split; [by eapply list_elem_of_lookup_2|done].
  - intros (h & [idx Hh]%list_elem_of_lookup_1 & Ha).
    exists idx. apply build_header_map_elem. eauto.
Qed.

End RowNormalizerFacts.

(** ** Parsed nodes *)

Section NodeFacts.
Context `{PyRuntime} `{Collaborators}.

Lemma parse_qty_and_uom_gt0 (value : cell) : gt0 (parse_qty_and_uom value).1 = true.
Proof.
  unfold parse_qty_and_uom. destruct (qty_tokens value) as [v u]. simpl.
  set (q := if in_none_or_empty v then _ else _).
  destruct (gt0 q) eqn:Hq; [exact Hq|reflexivity].
Qed.

Lemma normalize_qty_fixed (x : pyfloat) : gt0 x = true → normalize_qty (CNum x) = x.
Proof.
  intros Hx. unfold normalize_qty, parse_qty_and_uom. simpl. by rewrite !Hx.
Qed.

Lemma node_of_row_facts (hm : list (nat * string)) (i : nat) (r : row) (n : Node.t) :
  node_of_row hm i r = Some n →
  let row_data := extract_row_data r hm in
  any r = true
  ∧ Node.row_idx n = i
  ∧ Node.level n = cint (get row_data "structure_level")
  ∧ in_none_or_empty (get row_data "structure_level") = false
  ∧ Node.item_code n = Py.strip (cstr (get row_data "item_code"))
  ∧ Node.item_code n ≠ EmptyString
  ∧ Py.strip (Node.item_code n) = Node.item_code n
  ∧ Node.qty n = (parse_qty_and_uom (get row_data "qty")).1
  ∧ gt0 (Node.qty n) = true
  ∧ (Py.strip (cstr (get row_data "stock_uom")) ≠ EmptyString →
     Node.uom n = Py.strip (cstr (get row_data "stock_uom")))
  ∧ (Py.strip (cstr (get row_data "stock_uom")) = EmptyString →
     Node.uom n = map_qty_uom (parse_qty_and_uom (get row_data "qty")).2).
Proof.
  unfold node_of_row. destruct (any r); [|done]. simpl.
  destruct (in_none_or_empty _) eqn:Hlevel; [done|].
  destruct (Py.strip (cstr (get (extract_row_data r hm) "item_code")))
    as [|c code] eqn:Hcode; [done|]. simpl.
  pose proof (parse_qty_and_uom_gt0 (get (extract_row_data r hm) "qty")) as Hq.
  destruct (parse_qty_and_uom _) as [qty qty_uom]. simpl in Hq.
  intros [= <-]. simpl.
  split_and!; try done.
  - by rewrite <-Hcode, strip_idempotent.
  - intros Hu. by destruct (Py.strip (cstr (get (extract_row_data r hm) "stock_uom"))).
  - intros ->. simpl. destruct qty_uom as [|a u]; [done|]. simpl.
    by destruct (map_qty_uom (String a u)).
Qed.

(** X3. Every node parsed from a row carries the number of that row, the
    row's item code trimmed and not empty, a positive quantity, and as unit
    the row's own unit when it has one, else the unit mapped from the
    quantity cell. *)
Theorem parsed_node_is_well_formed (hm : list (nat * string)) (i : nat) (r : row)
  (n : Node.t) :
  node_of_row hm i r = Some n →
  let row_data := extract_row_data r hm in
  Node.row_idx n = i
  ∧ Node.item_code n = Py.strip (cstr (get row_data "item_code"))
  ∧ Node.item_code n ≠ EmptyString
  ∧ Py.strip (Node.item_code n) = Node.item_code n
  ∧ positive_number (Node.qty n)
  ∧ (Py.strip (cstr (get row_data "stock_uom")) ≠ EmptyString →
     Node.uom n = Py.strip (cstr (get row_data "stock_uom")))
  ∧ (Py.strip (cstr (get row_data "stock_uom")) = EmptyString →
     Node.uom n = map_qty_uom (parse_qty_and_uom (get row_data "qty")).2).
Proof.
  intros Hn row_data.
  destruct (node_of_row_facts hm i r n Hn)
    as (_ & Hi & _ & _ & Hc & Hne & Hs & _ & Hq & Hu & Hu').
  split_and!; try done. by apply gt0_positive.
Qed.

Lemma parse_nodes_elem (hm : list (nat * string)) (data : list row) (start : nat)
  (n : Node.t) :
  n ∈ parse_nodes hm (enumerate start data)
  ↔ ∃ r, (start ≤ Node.row_idx n)%nat
         ∧ data !! (Node.row_idx n - start)%nat = Some r
         ∧ node_of_row hm (Node.row_idx n) r = Some n.
Proof.
  unfold parse_nodes. rewrite list_elem_of_omap. split.
  - intros ([i r] & Hin & Hn). apply elem_of_enumerate in Hin as [Hle Hr].
    destruct (node_of_row_facts hm i r n Hn) as (_ & <- & _). eauto.
  - intros (r & Hle & Hr & Hn). exists (Node.row_idx n, r). split; [|done].
    by apply elem_of_enumerate.
Qed.

Lemma parse_nodes_sorted (hm : list (nat * string)) (data : list row) :
  ∀ start,
    Forall (λ n, (start ≤ Node.row_idx n)%nat) (parse_nodes hm (enumerate start data))
    ∧ StronglySorted (λ m n, (Node.row_idx m < Node.row_idx n)%nat)
        (parse_nodes hm (enumerate start data)).
Proof.
  induction data as [|r data IH]; intros start.
  - split; constructor.
  - destruct (IH (S start)) as [Hge Hsorted].
    change (parse_nodes hm (enumerate start (r :: data)))
      with (match node_of_row hm start r with
            | Some n => n :: parse_nodes hm (enumerate (S start) data)
            | None => parse_nodes hm (enumerate (S start) data)
            end).
    destruct (node_of_row hm start r) as [n|] eqn:Hn.
    + destruct (node_of_row_facts hm start r n Hn) as (_ & Hi & _).
      split.
      * constructor; [lia|]. eapply Forall_impl; [exact Hge|]. simpl. intros; lia.
      * constructor; [done|]. eapply Forall_impl; [exact Hge|]. simpl. intros; lia.
    + split; [|done]. eapply Forall_impl; [exact Hge|]. simpl. intros; lia.
Qed.

Lemma parse_nodes_length (hm : list (nat * string)) (data : list row) :
  ∀ start, (length (parse_nodes hm (enumerate start data)) ≤ length data)%nat.
Proof.
  induction data as [|r data IH]; intros start; [done|].
  change (parse_nodes hm (enumerate start (r :: data)))
    with (match node_of_row hm start r with
          | Some n => n :: parse_nodes hm (enumerate (S start) data)
          | None => parse_nodes hm (enumerate (S start) data)
          end).
  specialize (IH (S start)). destruct (node_of_row hm start r); simpl; lia.
Qed.

(** X4. The nodes parsed from the data rows keep the file order: each is the
    node of the row whose number it carries, and the row numbers are
    strictly increasing, so no two nodes, and no two log lines, name the
    same row. *)
Theorem parsed_nodes_keep_file_order (hm : list (nat * string)) (data : list row)
  (start : nat) :
  (∀ n, n ∈ parse_nodes hm (enumerate start data)
        ↔ ∃ r, (start ≤ Node.row_idx n)%nat
               ∧ data !! (Node.row_idx n - start)%nat = Some r
               ∧ node_of_row hm (Node.row_idx n) r = Some n)
  ∧ StronglySorted (λ m n, (Node.row_idx m < Node.row_idx n)%nat)
      (parse_nodes hm (enumerate start data))
  ∧ (length (parse_nodes hm (enumerate start data)) ≤ length data)%nat.
Proof.
  split; [intros n; apply parse_nodes_elem|].
  split; [apply parse_nodes_sorted|].
  apply parse_nodes_length.
Qed.

(** X5. Normalizing a quantity that [parse_qty_and_uom] returned changes
    nothing, so a BOM row and the BOM Creator itself carry the quantity
    parsed for their node; whatever the node, the quantity written is
    positive. *)
Theorem parsed_quantity_is_kept (d : store) (value : cell) (n : Node.t)
  (parent : Frame.t) :
  normalize_qty (CNum (parse_qty_and_uom value).1) = (parse_qty_and_uom value).1
  ∧ positive_number (BomItem.qty (new_row d n parent))
  ∧ BomItem.stock_qty (new_row d n parent) = BomItem.qty (new_row d n parent)
  ∧ (gt0 (Node.qty n) = true → BomItem.qty (new_row d n parent) = Node.qty n).
Proof.
  split; [apply normalize_qty_fixed, parse_qty_and_uom_gt0|].
  split; [|split; [done|]].
  - simpl. unfold normalize_qty.
    match goal with |- context [gt0 ?q] => destruct (gt0 q) eqn:Hq end;
      by apply gt0_positive.
  - intros Hq. simpl. by apply normalize_qty_fixed.
Qed.

End NodeFacts.

(** ** The level stack *)

Section StackFacts.
Context `{PyRuntime} `{Collaborators}.

Lemma pop_frames_Forall (P : Frame.t → Prop) (l : Z) (s : list Frame.t) :
  Forall P s → Forall P (pop_frames l s).
Proof.
  induction 1 as [|f s Hf Hs IH]; simpl; [constructor|].
  destruct (l <=? Frame.level f); [done|by constructor].
Qed.

Lemma pop_frames_descending (l : Z) (s : list Frame.t) :
  descending s → descending (pop_frames l s).
Proof.
  induction 1 as [|f s Hs IH Hf]; simpl; [constructor|].
  destruct (l <=? Frame.level f); [done|by constructor].
Qed.

Lemma descending_below (l : Z) (s : list Frame.t) :
  descending s →
  match s with [] => True | top :: _ => Frame.level top < l end →
  Forall (λ g, Frame.level g < l) s.
Proof.
  destruct 1 as [|f s Hs Hf]; [constructor|]. intros Hl.
  constructor; [done|]. eapply Forall_impl; [exact Hf|]. simpl. intros; lia.
Qed.

Lemma tree_step_descending (d : store) (st : Bom.state) (n : Node.t) :
  descending (Bom.stack st) → descending (Bom.stack (tree_step d st n)).
Proof.
  intros Hs. rewrite tree_step_stack. simpl.
  pose proof (pop_frames_descending (Node.level n) _ Hs) as Hp.
  destruct (pushed_frame n _) as [f|] eqn:Hf; [|done].
  assert (Frame.level f = Node.level n) as Hl.
  { destruct (tree_outcome _ _ _ _); try done. by injection Hf as <-. }
  constructor; [done|]. rewrite Hl. apply descending_below; [done|].
  destruct (pop_frames _ _) as [|top rest] eqn:E; [done|].
  by eapply pop_frames_top.
Qed.

Lemma tree_loop_descending (d : store) (nodes : list Node.t) :
  ∀ st, descending (Bom.stack st) → descending (Bom.stack (tree_loop d st nodes)).
Proof.
  induction nodes as [|n nodes IH]; intros st Hs; [done|].
  apply (IH (tree_step d st n)). by apply tree_step_descending.
Qed.

(** X6. All along the tree loop the levels on the stack decrease strictly
    from the top down: the stack never holds two frames of one level, and
    the frame under a frame is always of a smaller level. *)
Theorem stack_levels_decrease (d : store) (b : BomCreator.doc) (root : Node.t)
  (nodes : list Node.t) :
  descending (Bom.stack (tree_loop d (tree_init b root) nodes))
  ∧ ∀ st, descending (Bom.stack st) → descending (Bom.stack (tree_loop d st nodes)).
Proof.
  split; [|apply tree_loop_descending].
  apply tree_loop_descending. simpl. repeat constructor.
Qed.

Lemma pop_frames_above_root (l : Z) (rf : Frame.t) (upper : list Frame.t) :
  Frame.level rf < l →
  pop_frames l (upper ++ [rf]) = pop_frames l upper ++ [rf].
Proof.
  intros Hl. induction upper as [|f upper IH]; simpl.
  - by assert ((l <=? Frame.level rf) = false) as -> by lia.
  - by destruct (l <=? Frame.level f).
Qed.

Lemma pop_frames_through_root (l : Z) (rf : Frame.t) (upper : list Frame.t) :
  l ≤ Frame.level rf → Forall (λ f, Frame.level rf < Frame.level f) upper →
  pop_frames l (upper ++ [rf]) = [].
Proof.
  intros Hl. induction 1 as [|f upper Hf _ IH]; simpl.
  - by assert ((l <=? Frame.level rf) = true) as -> by lia.
  - by assert ((l <=? Frame.level f) = true) as -> by lia.
Qed.

Lemma tree_outcome_no_parent (d : store) (b : BomCreator.doc)
  (popped : list Frame.t) (n : Node.t) :
  tree_outcome d b popped n = Bom.NoParent ↔ popped = [].
Proof.
  unfold tree_outcome. destruct popped as [|p rest]; [done|].
  destruct (negb _); [done|]. by destruct (append_raises _ _).
Qed.

(** The stack after the nodes [seen]: above the root frame as long as every
    node lay above the root, empty from then on. *)
Lemma root_frame_fate (d : store) (b : BomCreator.doc) (root : Node.t)
  (seen : list Node.t) :
  (Forall (λ m, Node.level root < Node.level m) seen
   ∧ ∃ upper, Bom.stack (tree_loop d (tree_init b root) seen)
              = upper ++ [root_frame root]
              ∧ Forall (λ f, Node.level root < Frame.level f) upper)
  ∨ (Exists (λ m, Node.level m ≤ Node.level root) seen
     ∧ Bom.stack (tree_loop d (tree_init b root) seen) = []).
Proof.
  induction seen as [|m seen IH] using rev_ind.
  - left. split; [constructor|]. exists []. split; [done|constructor].
  - unfold tree_loop. rewrite foldl_app. simpl. fold (tree_loop d (tree_init b root) seen).
    rewrite tree_step_stack. simpl.
    destruct IH as [(Hall & upper & -> & Hupper) | (Hex & ->)].
    + destruct (decide (Node.level root < Node.level m)) as [Hm | Hm].
      * left. split; [apply Forall_app; split; [done|by constructor]|].
        rewrite (pop_frames_above_root _ (root_frame root)) by done.
        destruct (pushed_frame m _) as [f|] eqn:Hf.
        -- exists (f :: pop_frames (Node.level m) upper). split; [done|].
           constructor; [|by apply pop_frames_Forall].
           destruct (tree_outcome _ _ _ _); try done. injection Hf as <-. done.
        -- exists (pop_frames (Node.level m) upper).
           split; [done|by apply pop_frames_Forall].
      * right. split; [apply Exists_app; right; constructor; lia|].
        by rewrite (pop_frames_through_root _ (root_frame root))
          by (done || simpl; lia).
    + right. split; [apply Exists_app; by left|]. done.
Qed.

Lemma no_parent_iff (d : store) (b : BomCreator.doc) (root : Node.t)
  (pre : list Node.t) (n : Node.t) :
  let st := tree_loop d (tree_init b root) pre in
  tree_outcome d (Bom.bom_creator st)
    (pop_frames (Node.level n) (Bom.stack st)) n = Bom.NoParent
  ↔ Exists (λ m, Node.level m ≤ Node.level root) (pre ++ [n]).
Proof.
  intros st. rewrite tree_outcome_no_parent. unfold st.
  destruct (root_frame_fate d b root pre) as [(Hall & upper & -> & Hupper) | (Hex & ->)].
  - destruct (decide (Node.level root < Node.level n)) as [Hn | Hn].
    + rewrite (pop_frames_above_root _ (root_frame root)) by done. split.
      * by destruct (pop_frames _ upper).
      * intros [Hex | Hex]%Exists_app.
        -- apply Exists_exists in Hex as (m & Hm & Hle).
           rewrite Forall_forall in Hall. specialize (Hall m Hm). simpl in *. lia.
        -- apply Exists_cons in Hex as [Hle | Hnil]; [lia|by apply Exists_nil in Hnil].
    + rewrite (pop_frames_through_root _ (root_frame root)) by (done || simpl; lia).
      split; [|done]. intros _. apply Exists_app. right. constructor. lia.
  - split; [|done]. intros _. apply Exists_app. by left.
Qed.

(** X7. A node is skipped with "no parent found" exactly when it, or a node
    between the root and it, has a level not above the root's: such a node
    empties the stack, nothing is ever pushed again, and every later node of
    the file is skipped in the same way. *)
Theorem second_root_orphans_the_rest (d : store) (b : BomCreator.doc)
  (root : Node.t) (pre : list Node.t) (n : Node.t) :
  let st := tree_loop d (tree_init b root) pre in
  (tree_outcome d (Bom.bom_creator st)
     (pop_frames (Node.level n) (Bom.stack st)) n = Bom.NoParent
   ↔ Exists (λ m, Node.level m ≤ Node.level root) (pre ++ [n]))
  ∧ (Exists (λ m, Node.level m ≤ Node.level root) pre → Bom.stack st = []).
Proof.
  intros st. split; [apply no_parent_iff|].
  intros Hex. unfold st.
  destruct (root_frame_fate d b root pre) as [(Hall & _) | (_ & ->)]; [|done].
  apply Exists_exists in Hex as (m & Hm & Hle).
  rewrite Forall_forall in Hall. specialize (Hall m Hm). simpl in *. lia.
Qed.

End StackFacts.

(** ** The table built by the tree loop *)

Section TableFacts.
Context `{PyRuntime} `{Collaborators}.

Lemma tree_step_accounts (d : store) (st : Bom.state) (n : Node.t) :
  let st' := tree_step d st n in
  (Bom.created st' + Bom.skipped st' + Bom.errors st'
   = S (Bom.created st + Bom.skipped st + Bom.errors st))%nat
  ∧ (length (BomCreator.items (Bom.bom_creator st')) + Bom.created st
     = length (BomCreator.items (Bom.bom_creator st)) + Bom.created st')%nat
  ∧ (length (Bom.logs st') + Bom.skipped st + Bom.errors st
     = length (Bom.logs st) + Bom.skipped st' + Bom.errors st')%nat.
Proof.
  unfold tree_step. destruct (tree_outcome _ _ _ _); simpl;
    rewrite ?length_app; simpl; lia.
Qed.

Lemma tree_loop_accounts (d : store) (nodes : list Node.t) :
  ∀ st,
    let st' := tree_loop d st nodes in
    (Bom.created st' + Bom.skipped st' + Bom.errors st'
     = Bom.created st + Bom.skipped st + Bom.errors st + length nodes)%nat
    ∧ (length (BomCreator.items (Bom.bom_creator st')) + Bom.created st
       = length (BomCreator.items (Bom.bom_creator st)) + Bom.created st')%nat
    ∧ (length (Bom.logs st') + Bom.skipped st + Bom.errors st
       = length (Bom.logs st) + Bom.skipped st' + Bom.errors st')%nat.
Proof.
  induction nodes as [|n nodes IH]; intros st; [simpl; lia|].
  intros st'. subst st'.
  change (tree_loop d st (n :: nodes)) with (tree_loop d (tree_step d st n) nodes).
  destruct (IH (tree_step d st n)) as (A1 & A2 & A3).
  destruct (tree_step_accounts d st n) as (B1 & B2 & B3). simpl in *. lia.
Qed.

(** X8. When the tree loop ends, created + skipped + errors is the number
    of nodes after the root; the table has one row per created node and the
    log one line per skipped or failed node. *)
Theorem tree_counters_add_up (d : store) (b : BomCreator.doc) (root : Node.t)
  (nodes : list Node.t) :
  BomCreator.items b = [] →
  let st := tree_loop d (tree_init b root) nodes in
  (Bom.created st + Bom.skipped st + Bom.errors st = length nodes)%nat
  ∧ length (BomCreator.items (Bom.bom_creator st)) = Bom.created st
  ∧ length (Bom.logs st) = (Bom.skipped st + Bom.errors st)%nat.
Proof.
  intros Hb st.
  destruct (tree_loop_accounts d nodes (tree_init b root)) as (A1 & A2 & A3).
  fold st in A1, A2, A3. simpl in *. rewrite Hb in A2. simpl in *. lia.
Qed.

Lemma frame_linked_grows (root_code : string) (table : list BomItem.doc)
  (r : BomItem.doc) (f : Frame.t) :
  frame_linked root_code table f → frame_linked root_code (table ++ [r]) f.
Proof.
  intros [Hroot | (k & q & Hk & Hf)]; [by left|].
  right. exists k, q. split; [|done]. by apply lookup_app_l_Some.
Qed.

Lemma tree_step_linked (d : store) (root_code : string) (st : Bom.state) (n : Node.t) :
  well_linked root_code (BomCreator.items (Bom.bom_creator st)) →
  Forall (frame_linked root_code (BomCreator.items (Bom.bom_creator st)))
    (Bom.stack st) →
  well_linked root_code (BomCreator.items (Bom.bom_creator (tree_step d st n)))
  ∧ Forall (frame_linked root_code
              (BomCreator.items (Bom.bom_creator (tree_step d st n))))
      (Bom.stack (tree_step d st n)).
Proof.
  intros Htable Hstack.
  pose proof (pop_frames_Forall _ (Node.level n) _ Hstack) as Hpopped.
  unfold tree_step.
  destruct (tree_outcome _ _ _ _) as [| |p|p r] eqn:Ho; simpl; try done.
  apply tree_outcome_parent in Ho as [Hp ->].
  set (table := BomCreator.items (Bom.bom_creator st)) in *.
  assert (frame_linked root_code table p) as Hlinked.
  { destruct (pop_frames _ _) as [|top rest]; [done|].
    injection Hp as ->. by apply Forall_cons in Hpopped as [? _]. }
  split.
  - intros k r Hk. apply lookup_app_Some in Hk as [Hk | [Hlen Hk]].
    + destruct (Htable k r Hk) as [Hidx Hparent]. split; [done|].
      destruct (BomItem.parent_row_no r) as [q|]; [|done].
      destruct Hparent as (Hq & q' & Hq' & Hlink). split; [done|].
      exists q'. split; [by apply lookup_app_l_Some|done].
    + apply list_lookup_singleton_Some in Hk as [Hk <-].
      assert (k = length table) as -> by lia. split; [done|]. simpl.
      destruct Hlinked as [[-> Hcode] | (j & q & Hj & -> & Hcode)]; [done|].
      pose proof (lookup_lt_Some _ _ _ Hj) as Hlt.
      split; [lia|]. exists q. simpl. rewrite Nat.sub_0_r.
      split; [by apply lookup_app_l_Some|].
      split; [by destruct (Htable j q Hj)|done].
  - constructor.
    + right. exists (length table), (numbered table (new_row d n p)).
      split; [|done]. rewrite lookup_app_r by done.
      by rewrite Nat.sub_diag.
    + eapply Forall_impl; [exact Hpopped|]. intros f. apply frame_linked_grows.
Qed.

Lemma tree_loop_linked (d : store) (root_code : string) (nodes : list Node.t) :
  ∀ st,
    well_linked root_code (BomCreator.items (Bom.bom_creator st)) →
    Forall (frame_linked root_code (BomCreator.items (Bom.bom_creator st)))
      (Bom.stack st) →
    well_linked root_code (BomCreator.items (Bom.bom_creator (tree_loop d st nodes))).
Proof.
  induction nodes as [|n nodes IH]; intros st Htable Hstack; [done|].
  destruct (tree_step_linked d root_code st n Htable Hstack) as [Ht Hs].
  by apply (IH (tree_step d st n)).
Qed.

(** X9. The table the tree loop builds on an empty one is numbered 1, 2,
    ... in order, and its parent references are sound: a row without parent
    row number goes into the root item, and a row with one names an earlier
    row of the table, whose item is the item the row goes into. *)
Theorem parent_rows_exist (d : store) (b : BomCreator.doc) (root : Node.t)
  (nodes : list Node.t) :
  BomCreator.items b = [] →
  well_linked (Node.item_code root)
    (BomCreator.items (Bom.bom_creator (tree_loop d (tree_init b root) nodes))).
Proof.
  intros Hb. apply tree_loop_linked; simpl; rewrite Hb.
  - intros k r Hk. by rewrite lookup_nil in Hk.
  - constructor; [by left|constructor].
Qed.

Lemma created_rows_facts (d : store) (nodes : list Node.t) :
  ∀ st,
    Forall (λ e, ∀ r, created_row e = Some r →
                  BomItem.item_code r = Node.item_code e.1
                  ∧ item_exists d (BomItem.item_code r) = true
                  ∧ positive_number (BomItem.qty r)
                  ∧ BomItem.stock_qty r = BomItem.qty r
                  ∧ BomItem.stock_uom r = BomItem.uom r
                  ∧ BomItem.allow_alternative_item r = 1)
      (tree_trace d st nodes).
Proof.
  induction nodes as [|n nodes IH]; intros st; simpl; constructor; [|apply IH].
  intros r. unfold created_row. simpl.
  destruct (tree_outcome _ _ _ _) as [| |p|p r'] eqn:Ho; try done.
  intros [= ->].
  unfold tree_outcome in Ho. destruct (pop_frames _ _) as [|parent rest]; [done|].
  destruct (item_exists d (Node.item_code n)) eqn:Hitem; [|done]. simpl in Ho.
  destruct (append_raises _ _); [done|]. injection Ho as _ <-. simpl.
  split_and!; try done.
  unfold normalize_qty.
  match goal with |- context [gt0 ?q] => destruct (gt0 q) eqn:Hq end;
    by apply gt0_positive.
Qed.

Lemma created_rows_sublist (d : store) (nodes : list Node.t) :
  ∀ st,
    (BomItem.item_code <$> omap created_row (tree_trace d st nodes))
    `sublist_of` (Node.item_code <$> nodes).
Proof.
  induction nodes as [|n nodes IH]; intros st; [done|].
  simpl tree_trace. rewrite fmap_cons.
  change (omap created_row ((n, ?o) :: ?t))
    with (match created_row (n, o) with
          | Some r => r :: omap created_row t
          | None => omap created_row t
          end).
  destruct (created_row _) as [r|] eqn:Hr.
  - rewrite fmap_cons.
    pose proof (created_rows_facts d (n :: nodes) st) as Hfacts.
    simpl in Hfacts. apply Forall_cons in Hfacts as [Hfacts _].
    destruct (Hfacts r Hr) as [-> _]. simpl. apply sublist_skip, IH.
  - apply sublist_cons, IH.
Qed.

(** X10. The rows of the table are rows of nodes of the file, in file
    order: the item codes of the table are a subsequence of the item codes
    of the nodes after the root. *)
Theorem table_keeps_file_order (d : store) (b : BomCreator.doc) (root : Node.t)
  (nodes : list Node.t) :
  BomCreator.items b = [] →
  (BomItem.item_code
     <$> BomCreator.items (Bom.bom_creator (tree_loop d (tree_init b root) nodes)))
  `sublist_of` (Node.item_code <$> nodes).
Proof.
  intros Hb. rewrite tree_loop_items. simpl. rewrite Hb. simpl.
  apply created_rows_sublist.
Qed.

(** X11. Every row of the table is for an item of the catalog, has a
    positive quantity, the same quantity and unit as stock quantity and
    stock unit, and allows alternative items: a node whose item is not in
    the catalog never gets a row. *)
Theorem table_rows_are_catalog_items (d : store) (b : BomCreator.doc)
  (root : Node.t) (nodes : list Node.t) :
  BomCreator.items b = [] →
  Forall (λ r, item_exists d (BomItem.item_code r) = true
               ∧ positive_number (BomItem.qty r)
               ∧ BomItem.stock_qty r = BomItem.qty r
               ∧ BomItem.stock_uom r = BomItem.uom r
               ∧ BomItem.allow_alternative_item r = 1)
    (BomCreator.items (Bom.bom_creator (tree_loop d (tree_init b root) nodes))).
Proof.
  intros Hb. rewrite tree_loop_items. simpl. rewrite Hb. simpl.
  apply Forall_forall. intros r [e [He Hr]]%list_elem_of_omap.
  pose proof (created_rows_facts d nodes (tree_init b root)) as Hfacts.
  rewrite Forall_forall in Hfacts. by destruct (Hfacts e He r Hr) as (_ & ?).
Qed.

End TableFacts.

(** ** The flat item import *)

Section ItemFacts.
Context `{PyRuntime} `{Collaborators}.

Lemma filled_rows_cons (i : nat) (r : row) (rows : list (nat * row)) :
  filled_rows ((i, r) :: rows)
  = ((if any r then 1 else 0) + filled_rows rows)%nat.
Proof.
  unfold filled_rows. rewrite filter_cons. simpl.
  destruct (any r); by case_decide.
Qed.

Lemma items_step_accounts (hm : list (nat * string)) (st : Items.state)
  (i : nat) (r : row) :
  let st' := items_step hm st (i, r) in
  (Items.created st' + Items.duplicates st' + Items.skipped st' + Items.errors st'
   = Items.created st + Items.duplicates st + Items.skipped st + Items.errors st
     + (if any r then 1 else 0))%nat
  ∧ length (Items.logs st') = (length (Items.logs st) + (if any r then 1 else 0))%nat.
Proof.
  unfold items_step, items_row. destruct (any r); simpl.
  - destruct (negb (Py.truthy _)); simpl; [rewrite length_app; simpl; lia|].
    destruct (negb (Py.truthy _)); simpl; [rewrite length_app; simpl; lia|].
    destruct (ensure_item_group _ _) as [[g dg]|]; simpl;
      [|rewrite length_app; simpl; lia].
    destruct (item_exists dg _); simpl; [rewrite length_app; simpl; lia|].
    destruct (insert_item_raises _ _); simpl; rewrite length_app; simpl; lia.
  - rewrite app_nil_r. lia.
Qed.

Lemma items_loop_accounts (hm : list (nat * string)) (rows : list (nat * row)) :
  ∀ st,
    let st' := items_loop hm st rows in
    (Items.created st' + Items.duplicates st' + Items.skipped st' + Items.errors st'
     = Items.created st + Items.duplicates st + Items.skipped st + Items.errors st
       + filled_rows rows)%nat
    ∧ length (Items.logs st') = (length (Items.logs st) + filled_rows rows)%nat.
Proof.
  induction rows as [|[i r] rows IH]; intros st; [simpl; unfold filled_rows; simpl; lia|].
  intros st'. subst st'.
  change (items_loop hm st ((i, r) :: rows))
    with (items_loop hm (items_step hm st (i, r)) rows).
  destruct (IH (items_step hm st (i, r))) as [A1 A2].
  destruct (items_step_accounts hm st i r) as [B1 B2].
  rewrite filled_rows_cons. simpl in *. lia.
Qed.

(** X12. At the end of [import_items] the four counters add up to the
    number of data rows that are not blank, and the log has one line for
    each of them: a blank row is passed over in silence, every other row is
    accounted for exactly once. *)
Theorem item_counters_add_up (d : store) (hm : list (nat * string))
  (data : list (nat * row)) :
  let st := items_loop hm (items_init d) data in
  (Items.created st + Items.duplicates st + Items.skipped st + Items.errors st
   = filled_rows data)%nat
  ∧ length (Items.logs st) = filled_rows data
  ∧ (filled_rows data ≤ length data)%nat.
Proof.
  intros st. destruct (items_loop_accounts hm data (items_init d)) as [A1 A2].
  fold st in A1, A2. simpl in *. split; [lia|]. split; [lia|].
  unfold filled_rows. apply length_filter.
Qed.

Lemma item_exists_codes (d : store) (code : string) :
  item_exists d code = true ↔ code ∈ item_codes d.
Proof.
  unfold item_exists, item_codes. rewrite existsb_exists, list_elem_of_fmap. split.
  - intros (it & Hin%list_elem_of_In & Heq%String.eqb_eq). eauto.
  - intros (it & -> & Hin%list_elem_of_In). exists it.
    split; [done|apply String.eqb_refl].
Qed.

Lemma item_group_exists_names (d : store) (name : string) :
  item_group_exists d name = true ↔ name ∈ item_group_names d.
Proof.
  unfold item_group_exists, item_group_names.
  rewrite existsb_exists, list_elem_of_fmap. split.
  - intros (g & Hin%list_elem_of_In & Heq%String.eqb_eq). eauto.
  - intros (g & -> & Hin%list_elem_of_In). exists g.
    split; [done|apply String.eqb_refl].
Qed.

Lemma NoDup_snoc (l : list string) (x : string) :
  NoDup l → x ∉ l → NoDup (l ++ [x]).
Proof.
  intros Hl Hx. apply NoDup_app. split; [done|]. split; [|apply NoDup_singleton].
  intros y Hy ->%list_elem_of_singleton. done.
Qed.

Lemma ensure_item_group_frame (d d' : store) (g g' : string) :
  ensure_item_group d g = Some (g', d') →
  g' = g
  ∧ item_group_exists d' g = true
  ∧ ensure_item_group d' g = Some (g, d')
  ∧ (item_group_exists d g = true → d' = d)
  ∧ (item_group_exists d g = false →
     item_group_table d'
     = item_group_table d
       ++ [{| ItemGroup.item_group_name := g;
              ItemGroup.parent_item_group := "All Item Groups";
              ItemGroup.is_group := 0 |}])
  ∧ item_group_table d `prefix_of` item_group_table d'
  ∧ (NoDup (item_group_names d) → NoDup (item_group_names d'))
  ∧ item_table d' = item_table d
  ∧ bom_creator_table d' = bom_creator_table d.
Proof.
  intros He.
  destruct (ensure_item_group_created d d' g g' He) as (-> & Hex & _).
  split; [done|]. split; [done|]. split; [by apply ensure_item_group_exists|].
  unfold ensure_item_group in He.
  destruct (item_group_exists d g) eqn:E.
  - injection He as <-. split_and!; try done.
  - destruct (insert_item_group_raises _ _); [done|]. injection He as <-.
    split_and!; try done.
    + by apply prefix_app_r.
    + unfold item_group_names. simpl. rewrite fmap_app. simpl.
      intros Hnd. apply NoDup_snoc; [done|].
      rewrite <-(item_group_exists_names d). by rewrite E.
Qed.

(** X13. When [ensure_item_group] returns, it returns the name asked for
    and the group exists; an existing group leaves the store untouched, a
    missing one is added once, under "All Item Groups" and not as a group
    of groups. Asking again changes nothing, and group names stay
    distinct. *)
Theorem ensure_item_group_ensures (d d' : store) (g g' : string) :
  ensure_item_group d g = Some (g', d') →
  g' = g
  ∧ item_group_exists d' g = true
  ∧ ensure_item_group d' g = Some (g, d')
  ∧ (item_group_exists d g = true → d' = d)
  ∧ (item_group_exists d g = false →
     item_group_table d'
     = item_group_table d
       ++ [{| ItemGroup.item_group_name := g;
              ItemGroup.parent_item_group := "All Item Groups";
              ItemGroup.is_group := 0 |}])
  ∧ (NoDup (item_group_names d) → NoDup (item_group_names d')).
Proof.
  intros He.
  destruct (ensure_item_group_frame d d' g g' He) as (A & B & C & D & E & _ & F & _).
  by split_and!.
Qed.

Lemma items_row_created (hm : list (nat * string)) (d d' : store) (r : row)
  (code : string) :
  items_row hm d r = (Items.Created code, d') →
  ∃ it,
    item_table d' = item_table d ++ [it]
    ∧ Item.item_code it = code
    ∧ code = Py.strip (cstr (get (extract_row_data r hm) "item_code"))
    ∧ code ≠ EmptyString
    ∧ item_exists d code = false
    ∧ Item.item_name it ≠ EmptyString
    ∧ Item.item_group it
      = Py.strip (cstr (get (extract_row_data r hm) "item_group"))
    ∧ Item.item_group it ≠ EmptyString
    ∧ item_group_exists d' (Item.item_group it) = true
    ∧ Item.stock_uom it ≠ EmptyString.
Proof.
  unfold items_row. destruct (negb (any r)); [done|].
  destruct (Py.strip (cstr (get (extract_row_data r hm) "item_code")))
    as [|c0 code0] eqn:Hcode; [done|]. simpl.
  destruct (Py.strip (cstr (get (extract_row_data r hm) "item_group")))
    as [|g0 group0] eqn:Hgroup; [done|]. simpl.
  destruct (ensure_item_group d _) as [[g dg]|] eqn:Hg; [|done].
  apply ensure_item_group_frame in Hg as (-> & Hex & _ & _ & _ & _ & _ & Hitems & _).
  destruct (item_exists dg _) eqn:Hitem; [done|].
  destruct (insert_item_raises _ _); [done|]. intros [= <- <-].
  eexists. simpl. rewrite Hitems. split; [done|].
  split_and!; try done.
  - unfold item_exists in *. by rewrite <-Hitems.
  - unfold new_item. simpl.
    by destruct (Py.strip (cstr (get (extract_row_data r hm) "item_name"))).
  - unfold new_item. simpl.
    by destruct (Py.strip (cstr (get (extract_row_data r hm) "stock_uom"))).
Qed.

(** X14. An item that [import_items] creates has the row's trimmed item
    code, which is not empty and was not in the catalog, a name, an item
    group that exists, and a stock unit, none of them empty: the name falls
    back to the item code and the unit to "Nos". *)
Theorem created_item_is_complete (hm : list (nat * string)) (d d' : store) (r : row)
  (code : string) :
  items_row hm d r = (Items.Created code, d') →
  ∃ it,
    item_table d' = item_table d ++ [it]
    ∧ Item.item_code it = code
    ∧ code = Py.strip (cstr (get (extract_row_data r hm) "item_code"))
    ∧ code ≠ EmptyString
    ∧ item_exists d code = false
    ∧ Item.item_name it ≠ EmptyString
    ∧ Item.item_group it
      = Py.strip (cstr (get (extract_row_data r hm) "item_group"))
    ∧ Item.item_group it ≠ EmptyString
    ∧ item_group_exists d' (Item.item_group it) = true
    ∧ Item.stock_uom it ≠ EmptyString.
Proof. apply items_row_created. Qed.

Lemma items_row_frame (hm : list (nat * string)) (d d' : store) (r : row)
  (o : Items.outcome) :
  items_row hm d r = (o, d') →
  item_table d `prefix_of` item_table d'
  ∧ item_group_table d `prefix_of` item_group_table d'
  ∧ bom_creator_table d' = bom_creator_table d
  ∧ (NoDup (item_codes d) → NoDup (item_codes d'))
  ∧ (NoDup (item_group_names d) → NoDup (item_group_names d'))
  ∧ (item_table d' = item_table d ∨ ∃ code, o = Items.Created code).
Proof.
  unfold items_row. destruct (negb (any r)); [by intros [= <- <-]; split_and!; auto|].
  destruct (negb (Py.truthy _)); [by intros [= <- <-]; split_and!; auto|].
  destruct (negb (Py.truthy _)); [by intros [= <- <-]; split_and!; auto|].
  destruct (ensure_item_group d _) as [[g dg]|] eqn:Hg;
    [|by intros [= <- <-]; split_and!; auto].
  apply ensure_item_group_frame in Hg
    as (_ & _ & _ & _ & _ & Hgp & Hgn & Hitems & Hboms).
  assert (item_codes dg = item_codes d) as Hcodes by (unfold item_codes; by rewrite Hitems).
  destruct (item_exists dg _) eqn:Hitem.
  { intros [= <- Hd]. subst d'. rewrite Hitems, Hcodes. split_and!; auto. }
  destruct (insert_item_raises _ _).
  { intros [= <- Hd]. subst d'. rewrite Hitems, Hcodes. split_and!; auto. }
  intros [= <- Hd]. subst d'. simpl. rewrite Hitems. split_and!; eauto.
  - by apply prefix_app_r.
  - intros Hnd. unfold item_codes. simpl. rewrite fmap_app, ?Hitems. simpl.
    apply NoDup_snoc; [done|]. fold (item_codes d).
    rewrite <-Hcodes, <-item_exists_codes. by rewrite Hitem.
Qed.

Lemma items_loop_frame (hm : list (nat * string)) (rows : list (nat * row)) :
  ∀ st,
    let d := Items.db st in
    let d' := Items.db (items_loop hm st rows) in
    item_table d `prefix_of` item_table d'
    ∧ item_group_table d `prefix_of` item_group_table d'
    ∧ bom_creator_table d' = bom_creator_table d
    ∧ (NoDup (item_codes d) → NoDup (item_codes d'))
    ∧ (NoDup (item_group_names d) → NoDup (item_group_names d'))
    ∧ (Items.created (items_loop hm st rows) = Items.created st →
       item_table d' = item_table d).
Proof.
  induction rows as [|[i r] rows IH]; intros st; [by split_and!|].
  intros d d'. subst d d'.
  change (items_loop hm st ((i, r) :: rows))
    with (items_loop hm (items_step hm st (i, r)) rows).
  destruct (IH (items_step hm st (i, r))) as (A1 & A2 & A3 & A4 & A5 & A6).
  destruct (items_loop_grows hm rows (items_step hm st (i, r))) as (_ & _ & Hc).
  assert (Items.created (items_step hm st (i, r))
          = (Items.created st + (items_count (items_row hm (Items.db st) r).1).1.1.1)%nat)
    as Hstep.
  { unfold items_step. destruct (items_row _ _ _) as [o dr]. simpl.
    by destruct (items_count o) as [[[? ?] ?] ?]. }
  rewrite items_step_db in A1, A2, A3, A4, A5, A6.
  destruct (items_row hm (Items.db st) r) as [o dr] eqn:Hrow. simpl in *.
  destruct (items_row_frame hm _ _ r o Hrow) as (B1 & B2 & B3 & B4 & B5 & B6).
  split_and!.
  - by etrans.
  - by etrans.
  - congruence.
  - auto.
  - auto.
  - intros Hcreated.
    destruct B6 as [B6 | [code ->]].
    + rewrite A6, B6; [done|lia].
    + simpl in Hstep. lia.
Qed.

(** X15. [import_items] only adds to the catalog: the items and item groups
    it found stay where they were, item codes and group names that were
    distinct stay distinct (a code already in the catalog is never inserted
    again), the BOM Creators are left alone, and a run that reports no
    created item leaves the item table as it was. *)
Theorem import_items_only_adds (d d' : store) (result : result Items.report) :
  import_items d = (result, d') →
  item_table d `prefix_of` item_table d'
  ∧ item_group_table d `prefix_of` item_group_table d'
  ∧ bom_creator_table d' = bom_creator_table d
  ∧ (NoDup (item_codes d) → NoDup (item_codes d'))
  ∧ (NoDup (item_group_names d) → NoDup (item_group_names d'))
  ∧ Tool.plm_file (tool d') = Tool.plm_file (tool d)
  ∧ (∀ report, result = Ok report →
       Tool.item_creation_log (tool d') = Items.log report).
Proof.
  unfold import_items. destruct (items_prepare d) as [msg | [hm data]] eqn:Hp.
  - intros [= <- <-]. by split_and!.
  - intros [= <- <-]. simpl.
    destruct (items_loop_frame hm data (items_init d)) as (A1 & A2 & A3 & A4 & A5 & _).
    destruct (items_loop_covers hm data (items_init d)) as (_ & Htool & _).
    simpl in *. split_and!; try done.
    + by rewrite Htool.
    + by intros report [= <-].
Qed.

Lemma items_prepare_aborts (d : store) :
  (items_abort d → ∃ msg, items_prepare d = inl msg)
  ∧ (∀ msg, items_prepare d = inl msg → items_abort d).
Proof.
  unfold items_prepare, get_file. fold (attached_file d).
  destruct (Tool.plm_file (tool d)) as [|c plm] eqn:Hplm.
  { split; [eauto|]. intros _ _. by apply ItemsMissingAttachment. }
  simpl. case_bool_decide as Hext.
  2: { split; [eauto|]. intros _ _. by apply ItemsUnsupportedExtension. }
  unfold load_rows.
  destruct (file_rows (attached_file d)) as [|header [|r1 data]] eqn:Hrows.
  1, 2: split; [eauto|]; intros _ _; apply ItemsTooShortFile; rewrite Hrows;
    simpl; lia.
  destruct (has_field "item_code" (build_header_map header)) eqn:Hcode; simpl.
  - split; [|done].
    intros [Hp | He | Hl | header' Hh Hhas]; [congruence|done| |].
    + rewrite Hrows in Hl. simpl in Hl. lia.
    + rewrite Hrows in Hh. injection Hh as <-. congruence.
  - split; [eauto|]. intros _ _.
    apply (ItemsMissingColumn d header); [by rewrite Hrows|done].
Qed.

(** X16. [import_items] throws exactly when no file is attached, the
    extension is not csv, xlsx or xls, the file has fewer than two rows, or
    no header is an alias of the item code; it then leaves the store as it
    was. In every other case it returns a report. *)
Theorem import_items_throws_before_writing (d : store) :
  (items_abort d → ∃ msg, import_items d = (Throw msg, d))
  ∧ (∀ msg d', import_items d = (Throw msg, d') → items_abort d ∧ d' = d)
  ∧ (¬ items_abort d → ∃ report d', import_items d = (Ok report, d'))
  ∧ (import_items d).1 ≠ OutOfFuel.
Proof.
  destruct (items_prepare_aborts d) as [Habort Hthrow].
  unfold import_items.
  destruct (items_prepare d) as [msg | [hm data]] eqn:Hp.
  - split_and!.
    + intros _. eauto.
    + intros m d' [= <- <-]. split; [by eapply Hthrow|done].
    + intros Hn. destruct Hn. by eapply Hthrow.
    + done.
  - split_and!.
    + intros [m Hm]%Habort. done.
    + intros m d' [=].
    + intros _. eauto.
    + done.
Qed.

End ItemFacts.

(** ** BOM lookup *)

Lemma latest_spec (rows : list BillOfMaterials.doc) :
  ∀ best,
    match latest best rows with
    | None => best = None ∧ rows = []
    | Some x =>
        (best = Some x ∨ x ∈ rows)
        ∧ (∀ b, best = Some b → BillOfMaterials.creation b ≤ BillOfMaterials.creation x)
        ∧ Forall (λ y, BillOfMaterials.creation y ≤ BillOfMaterials.creation x) rows
    end.
Proof.
  induction rows as [|y rows IH]; intros best; simpl.
  - destruct best as [b|]; [|done]. split; [by left|]. split; [|constructor].
    by intros ? [= <-].
  - set (best' := match best with
                  | Some b =>
                      if BillOfMaterials.creation b <? BillOfMaterials.creation y
                      then Some y else best
                  | None => Some y
                  end).
    specialize (IH best'). destruct (latest best' rows) as [x|].
    + destruct IH as (Hin & Hbest & Hall).
      assert (∃ b', best' = Some b'
                    ∧ BillOfMaterials.creation y ≤ BillOfMaterials.creation b'
                    ∧ (best = Some b' ∨ b' = y)
                    ∧ ∀ b, best = Some b →
                           BillOfMaterials.creation b ≤ BillOfMaterials.creation b')
        as (b' & Hb' & Hy & Horigin & Hold).
      { unfold best'. destruct best as [b|].
        - destruct (BillOfMaterials.creation b <? BillOfMaterials.creation y) eqn:E.
          + exists y. split_and!; [done|lia|by right|]. intros ? [= <-]. lia.
          + exists b. split_and!; [done|lia|by left|]. by intros ? [= <-].
        - exists y. split_and!; [done|lia|by right|done]. }
      specialize (Hbest b' Hb').
      split_and!.
      * destruct Hin as [Hin | Hin]; [|right; by right].
        rewrite Hb' in Hin. injection Hin as <-.
        destruct Horigin as [? | ->]; [by left|right; left].
      * intros b Hb. specialize (Hold b Hb). lia.
      * constructor; [lia|done].
    + destruct IH as [Hnone _]. unfold best' in Hnone.
      destruct best as [b|]; [|done]. by destruct (_ <? _).
Qed.

Lemma get_bom_for_bom_creator_spec (table : list BillOfMaterials.doc)
  (bom_creator : string) :
  (bom_creator = EmptyString → get_bom_for_bom_creator table bom_creator = None)
  ∧ (bom_creator ≠ EmptyString →
     ∃ bom_name,
       get_bom_for_bom_creator table bom_creator = Some bom_name
       ∧ (bom_name = None ↔
          ∀ x, x ∈ table → BillOfMaterials.bom_creator x = bom_creator →
               BillOfMaterials.docstatus x ≠ 1)
       ∧ (∀ name, bom_name = Some name →
            ∃ x, x ∈ table ∧ BillOfMaterials.name x = name
                 ∧ BillOfMaterials.bom_creator x = bom_creator
                 ∧ BillOfMaterials.docstatus x = 1
                 ∧ ∀ y, y ∈ table → BillOfMaterials.bom_creator y = bom_creator →
                        BillOfMaterials.docstatus y = 1 →
                        BillOfMaterials.creation y ≤ BillOfMaterials.creation x)).
Proof.
  split; [by intros ->|]. intros Hne.
  unfold get_bom_for_bom_creator. destruct bom_creator as [|c s]; [done|]. simpl.
  eexists. split; [done|]. unfold get_value_bom.
  set (matches := List.filter _ table).
  assert (∀ x, x ∈ matches
               ↔ x ∈ table ∧ BillOfMaterials.bom_creator x = String c s
                 ∧ BillOfMaterials.docstatus x = 1) as Hmatches.
  { intros x. unfold matches. rewrite !list_elem_of_In, filter_In.
    rewrite andb_true_iff, String.eqb_eq, Z.eqb_eq. tauto. }
  pose proof (latest_spec matches None) as Hlatest.
  destruct (latest None matches) as [x|]; simpl.
  - destruct Hlatest as ([? | Hin] & _ & Hall); [done|].
    apply Hmatches in Hin as (Hin & Hc & Hs). split.
    + split; [done|]. intros Hnone. by destruct (Hnone x Hin Hc).
    + intros name [= <-]. exists x. split_and!; try done.
      intros y Hy Hyc Hys. rewrite Forall_forall in Hall.
      apply Hall, Hmatches. done.
  - destruct Hlatest as [_ Hnil]. split.
    + split; [|done]. intros _ x Hx Hc Hs.
      assert (x ∈ matches) as Hin by (by apply Hmatches).
      rewrite Hnil in Hin. by apply elem_of_nil in Hin.
    + by intros name [=].
Qed.

(** X17. [get_bom_for_bom_creator] returns [None] for an empty BOM Creator
    name. Otherwise it returns a dictionary: its value is [None] exactly
    when no submitted BOM was made from that BOM Creator, and else the name
    of a submitted BOM made from it that no other such BOM is newer than;
    draft and cancelled BOMs are never returned. *)
Theorem latest_submitted_bom_is_returned (table : list BillOfMaterials.doc)
  (bom_creator : string) :
  (bom_creator = EmptyString → get_bom_for_bom_creator table bom_creator = None)
  ∧ (bom_creator ≠ EmptyString →
     ∃ bom_name,
       get_bom_for_bom_creator table bom_creator = Some bom_name
       ∧ (bom_name = None ↔
          ∀ x, x ∈ table → BillOfMaterials.bom_creator x = bom_creator →
               BillOfMaterials.docstatus x ≠ 1)
       ∧ (∀ name, bom_name = Some name →
            ∃ x, x ∈ table ∧ BillOfMaterials.name x = name
                 ∧ BillOfMaterials.bom_creator x = bom_creator
                 ∧ BillOfMaterials.docstatus x = 1
                 ∧ ∀ y, y ∈ table → BillOfMaterials.bom_creator y = bom_creator →
                        BillOfMaterials.docstatus y = 1 →
                        BillOfMaterials.creation y ≤ BillOfMaterials.creation x)).
Proof. apply get_bom_for_bom_creator_spec. Qed.

(** ** What a successful BOM import leaves *)

Section BomImportFacts.
Context `{PyRuntime} `{Collaborators}.

Lemma rev_candidates_sound (d : store) (b : string) :
  ∀ fuel index name,
    rev_candidates fuel d b index = Some name →
    ∃ k, (index ≤ k)%nat ∧ name = rev_name b k
         ∧ bom_creator_exists d name = false
         ∧ ∀ j, (index ≤ j < k)%nat → bom_creator_exists d (rev_name b j) = true.
Proof.
  induction fuel as [|fuel IH]; intros index name; [done|]. simpl.
  destruct (bom_creator_exists d (rev_name b index)) eqn:E; simpl.
  - intros (k & Hk & -> & Hfree & Hall)%IH. exists k.
    split_and!; [lia|done|done|]. intros j Hj.
    destruct (decide (j = index)) as [-> | Hne]; [done|]. apply Hall. lia.
  - intros [= <-]. exists index. split_and!; [lia|done|done|]. intros j Hj. lia.
Qed.

Lemma get_unique_bom_creator_name_sound (fuel : nat) (d : store) (base_name : cell)
  (name : string) :
  get_unique_bom_creator_name fuel d base_name = Some name →
  let b := Py.strip (cstr base_name) in
  (name ∉ bom_creator_names d)
  ∧ (b ∉ bom_creator_names d → name = b)
  ∧ (b ∈ bom_creator_names d →
     ∃ k, (1 ≤ k)%nat ∧ name = rev_name b k
          ∧ ∀ j, (1 ≤ j < k)%nat → rev_name b j ∈ bom_creator_names d).
Proof.
  intros Hname b. unfold get_unique_bom_creator_name in Hname. fold b in Hname.
  destruct (bom_creator_exists d b) eqn:E; simpl in Hname.
  - apply rev_candidates_sound in Hname as (k & Hk & -> & Hfree & Hall).
    split_and!.
    + rewrite <-bom_creator_exists_names. by rewrite Hfree.
    + intros Hb. destruct Hb. by apply bom_creator_exists_names.
    + intros _. exists k. split_and!; [done|done|].
      intros j Hj. apply bom_creator_exists_names. by apply Hall.
  - injection Hname as <-.
    assert (b ∉ bom_creator_names d) as Hb.
    { rewrite <-bom_creator_exists_names. by rewrite E. }
    by split_and!.
Qed.

Lemma tree_step_header (d : store) (st : Bom.state) (n : Node.t) :
  with_rows (Bom.bom_creator (tree_step d st n)) []
  = with_rows (Bom.bom_creator st) [].
Proof. unfold tree_step. by destruct (tree_outcome _ _ _ _). Qed.

Lemma tree_loop_header (d : store) (nodes : list Node.t) :
  ∀ st, with_rows (Bom.bom_creator (tree_loop d st nodes)) []
        = with_rows (Bom.bom_creator st) [].
Proof.
  induction nodes as [|n nodes IH]; intros st; [done|].
  change (tree_loop d st (n :: nodes)) with (tree_loop d (tree_step d st n) nodes).
  by rewrite IH, tree_step_header.
Qed.

Lemma select_root_elem (nodes kept : list Node.t) (root : Node.t) :
  select_root nodes = Some (root, kept) →
  root ∈ nodes ∧ ∃ rest, kept = root :: rest.
Proof.
  intros Hroot. destruct nodes as [|first others]; [done|].
  destruct (select_root_spec (first :: others))
    as (before & root' & after & Hnodes & Hsel & _); [done|].
  rewrite Hroot in Hsel. injection Hsel as <- ->. split; [|eauto].
  rewrite Hnodes. apply elem_of_app. right. left.
Qed.

Lemma bom_prepare_facts (d : store) (root : Node.t) (nodes : list Node.t)
  (company currency : string) :
  bom_prepare d = inr (root, nodes, company, currency) →
  select_root (parsed_nodes d) = Some (root, nodes)
  ∧ item_exists d (Node.item_code root) = true
  ∧ company ≠ EmptyString ∧ currency ≠ EmptyString
  ∧ or_else (user_default_company d) (global_default_company d) = Some company
  ∧ default_currency d company = Some currency.
Proof.
  unfold bom_prepare, nodes_prepare, get_file, parsed_nodes. fold (attached_file d).
  destruct (Tool.plm_file (tool d)) as [|c plm]; [done|]. simpl.
  case_bool_decide; [|done]. unfold load_rows.
  destruct (file_rows (attached_file d)) as [|header [|r1 data]]; try done.
  remember (parse_nodes (build_header_map header) (enumerate 2 (r1 :: data)))
    as parsed eqn:Hparsed.
  destruct (has_field "structure_level" _); [|done].
  destruct (has_field "item_code" _); [|done]. simpl.
  destruct (select_root parsed) as [[root' nodes']|]; [|done].
  destruct (item_exists d (Node.item_code root')) eqn:Hitem; [|done]. simpl.
  destruct (or_else _ _) as [[|c1 company']|]; try done.
  destruct (default_currency d _) as [[|c2 currency']|] eqn:Hcur; try done.
  intros [= <- <- <- <-]. by split_and!.
Qed.

Lemma import_bom_creator_effects (fuel : nat) (d d' : store) (report : Bom.report) :
  import_bom_creator fuel d = (Ok report, d') →
  ∃ b root rest,
    select_root (parsed_nodes d) = Some (root, root :: rest)
    ∧ bom_creator_table d' = bom_creator_table d ++ [b]
    ∧ BomCreator.name b = Bom.bom_creator_name report
    ∧ (BomCreator.name b ∉ bom_creator_names d)
    ∧ (Node.item_code root ∉ bom_creator_names d →
       BomCreator.name b = Node.item_code root)
    ∧ (Node.item_code root ∈ bom_creator_names d →
       ∃ k, (1 ≤ k)%nat ∧ BomCreator.name b = rev_name (Node.item_code root) k
            ∧ ∀ j, (1 ≤ j < k)%nat →
                   rev_name (Node.item_code root) j ∈ bom_creator_names d)
    ∧ BomCreator.item_code b = Node.item_code root
    ∧ item_exists d (BomCreator.item_code b) = true
    ∧ BomCreator.docstatus b = 1
    ∧ BomCreator.rm_cost_as_per b = "Valuation Rate"
    ∧ BomCreator.company b ≠ EmptyString
    ∧ BomCreator.currency b ≠ EmptyString
    ∧ positive_number (BomCreator.qty b)
    ∧ BomCreator.items b
      = BomCreator.items
          (Bom.bom_creator
             (tree_loop d
                (tree_init (new_bom_creator d (BomCreator.name b) root
                              (BomCreator.company b) (BomCreator.currency b)) root)
                rest))
    ∧ item_table d' = item_table d
    ∧ item_group_table d' = item_group_table d
    ∧ Tool.bom_parent_item (tool d') = BomCreator.name b
    ∧ Tool.bom_creation_log (tool d') = Bom.log report
    ∧ Tool.item_creation_log (tool d') = Tool.item_creation_log (tool d)
    ∧ Tool.plm_file (tool d') = Tool.plm_file (tool d).
Proof.
  unfold import_bom_creator.
  destruct (bom_prepare d) as [msg | [[[root nodes] company] currency]] eqn:Hp; [done|].
  apply bom_prepare_facts in Hp as (Hroot & Hitem & Hc & Hcur & _).
  destruct (select_root_elem _ _ _ Hroot) as [Hin [rest ->]].
  unfold bom_build.
  destruct (get_unique_bom_creator_name fuel d (CStr (Node.item_code root)))
    as [name|] eqn:Hname; [|done].
  apply get_unique_bom_creator_name_sound in Hname as (Hfresh & Hfree & Htaken).
  assert (Py.strip (Node.item_code root) = Node.item_code root) as Hstrip.
  { unfold parsed_nodes in Hin.
    destruct (file_rows (attached_file d)) as [|header data];
      [by apply elem_of_nil in Hin|].
    apply parse_nodes_elem in Hin as (r & _ & _ & Hn).
    by destruct (node_of_row_facts _ _ _ _ Hn) as (_ & _ & _ & _ & _ & _ & Hs & _). }
  simpl in Hfree, Htaken. rewrite Hstrip in Hfree, Htaken.
  intros [= <- <-]. cbn [tail].
  set (st := tree_loop d (tree_init (new_bom_creator d name root company currency) root)
               rest).
  pose proof (tree_loop_header d rest
                (tree_init (new_bom_creator d name root company currency) root))
    as Hheader.
  fold st in Hheader. simpl in Hheader.
  exists (submitted (Bom.bom_creator st)), root, rest.
  assert (BomCreator.name (Bom.bom_creator st) = name) as Hn
    by exact (f_equal BomCreator.name Hheader).
  assert (BomCreator.company (Bom.bom_creator st) = company) as Hco
    by exact (f_equal BomCreator.company Hheader).
  assert (BomCreator.currency (Bom.bom_creator st) = currency) as Hcu
    by exact (f_equal BomCreator.currency Hheader).
  assert (BomCreator.item_code (Bom.bom_creator st) = Node.item_code root) as Hic
    by exact (f_equal BomCreator.item_code Hheader).
  assert (BomCreator.rm_cost_as_per (Bom.bom_creator st) = "Valuation Rate") as Hrm
    by exact (f_equal BomCreator.rm_cost_as_per Hheader).
  assert (BomCreator.qty (Bom.bom_creator st)
          = normalize_qty (CNum (Node.qty root))) as Hq
    by exact (f_equal BomCreator.qty Hheader).
  simpl. rewrite Hn, Hco, Hcu, Hic, Hrm, Hq.
  split_and!; try done.
  unfold normalize_qty.
  match goal with |- context [gt0 ?q] => destruct (gt0 q) eqn:Hgt end;
    by apply gt0_positive.
Qed.

(** X18. When [import_bom_creator] returns, exactly one BOM Creator has been
    added, submitted, for the root item, which is in the catalog. Its name
    was not taken: it is the root item code itself when that is free, and
    else the first free revision of it. Its rows are those the tree loop
    built from the nodes after the root. *)
Theorem import_adds_one_bom_creator (fuel : nat) (d d' : store) (report : Bom.report) :
  import_bom_creator fuel d = (Ok report, d') →
  ∃ b root rest,
    select_root (parsed_nodes d) = Some (root, root :: rest)
    ∧ bom_creator_table d' = bom_creator_table d ++ [b]
    ∧ BomCreator.name b = Bom.bom_creator_name report
    ∧ (BomCreator.name b ∉ bom_creator_names d)
    ∧ (Node.item_code root ∉ bom_creator_names d →
       BomCreator.name b = Node.item_code root)
    ∧ (Node.item_code root ∈ bom_creator_names d →
       ∃ k, (1 ≤ k)%nat ∧ BomCreator.name b = rev_name (Node.item_code root) k
            ∧ ∀ j, (1 ≤ j < k)%nat →
                   rev_name (Node.item_code root) j ∈ bom_creator_names d)
    ∧ BomCreator.item_code b = Node.item_code root
    ∧ item_exists d (BomCreator.item_code b) = true
    ∧ BomCreator.docstatus b = 1
    ∧ BomCreator.company b ≠ EmptyString
    ∧ BomCreator.currency b ≠ EmptyString
    ∧ positive_number (BomCreator.qty b)
    ∧ BomCreator.items b
      = BomCreator.items
          (Bom.bom_creator
             (tree_loop d
                (tree_init (new_bom_creator d (BomCreator.name b) root
                              (BomCreator.company b) (BomCreator.currency b)) root)
                rest)).
Proof.
  intros Himport.
  destruct (import_bom_creator_effects fuel d d' report Himport)
    as (b & root & rest & A1 & A2 & A3 & A4 & A5 & A6 & A7 & A8 & A9 & _ & A11 & A12
        & A13 & A14 & _).
  exists b, root, rest. by split_and!.
Qed.

(** X19. A BOM import that returns never touches the catalog: the items and
    the item groups are as before. On the import tool document it records
    the name of the BOM Creator and the log it returns, and leaves the
    attachment and the item log alone. *)
Theorem import_leaves_catalog_alone (fuel : nat) (d d' : store) (report : Bom.report) :
  import_bom_creator fuel d = (Ok report, d') →
  item_table d' = item_table d
  ∧ item_group_table d' = item_group_table d
  ∧ Tool.bom_parent_item (tool d') = Bom.bom_creator_name report
  ∧ Tool.bom_creation_log (tool d') = Bom.log report
  ∧ Tool.item_creation_log (tool d') = Tool.item_creation_log (tool d)
  ∧ Tool.plm_file (tool d') = Tool.plm_file (tool d).
Proof.
  intros Himport.
  destruct (import_bom_creator_effects fuel d d' report Himport)
    as (b & root & rest & _ & _ & A3 & _ & _ & _ & _ & _ & _ & _ & _ & _ & _ & _
        & B1 & B2 & B3 & B4 & B5 & B6).
  rewrite <-A3. by split_and!.
Qed.

(** X20. [import_bom_creator] throws under an abort-class condition only,
    and then leaves the store as it was; when no such condition holds and
    the fuel covers the existing BOM Creator names, it returns a report. The
    fuel running out writes nothing either. *)
Theorem import_throws_only_on_abort (fuel : nat) (d : store) :
  (∀ msg d', import_bom_creator fuel d = (Throw msg, d') → abort_class d ∧ d' = d)
  ∧ (¬ abort_class d → (size (bom_creator_names d) ≤ fuel)%nat →
     ∃ report d', import_bom_creator fuel d = (Ok report, d'))
  ∧ (∀ d', import_bom_creator fuel d = (OutOfFuel, d') →
       d' = d ∧ (fuel < size (bom_creator_names d))%nat).
Proof.
  split_and!.
  - intros msg d'. unfold import_bom_creator.
    destruct (bom_prepare d) as [m | [[[root nodes] company] currency]] eqn:Hp.
    + intros [= <- <-]. split; [by eapply throw_is_abort_class|done].
    + unfold bom_build. by destruct (get_unique_bom_creator_name _ _ _).
  - intros Hn Hfuel.
    destruct (bom_prepare d) as [m | x] eqn:Hp.
    + destruct Hn. by eapply throw_is_abort_class.
    + by eapply import_bom_creator_returns.
  - intros d'. unfold import_bom_creator.
    destruct (bom_prepare d) as [m | [[[root nodes] company] currency]] eqn:Hp; [done|].
    unfold bom_build.
    destruct (get_unique_bom_creator_name _ _ _) as [name|] eqn:Hname; [done|].
    intros [= <-]. split; [done|].
    destruct (decide (size (bom_creator_names d) ≤ fuel)%nat) as [Hle | Hgt]; [|lia].
    destruct (get_unique_bom_creator_name_spec fuel d (CStr (Node.item_code root)) Hle)
      as (name & Hsome & _).
    congruence.
Qed.

End BomImportFacts.

(** ** Unit mapping (source lines 389-393) *)

Lemma lower_char_idempotent (a : ascii) :
  Py.lower_char (Py.lower_char a) = Py.lower_char a.
Proof. by destruct a as [[] [] [] [] [] [] [] []]. Qed.

Lemma isspace_lower_char (a : ascii) : Py.isspace (Py.lower_char a) = Py.isspace a.
Proof. by destruct a as [[] [] [] [] [] [] [] []]. Qed.

Lemma lower_idempotent (s : string) : Py.lower (Py.lower s) = Py.lower s.
Proof.
  unfold Py.lower. induction s as [|a s IH]; [done|].
  simpl. by rewrite lower_char_idempotent, IH.
Qed.

Lemma lstrip_lower (s : string) : Py.lstrip (Py.lower s) = Py.lower (Py.lstrip s).
Proof.
  unfold Py.lower. induction s as [|a s IH]; [done|].
  simpl. rewrite isspace_lower_char. by destruct (Py.isspace a).
Qed.

Lemma rstrip_lower (s : string) : Py.rstrip (Py.lower s) = Py.lower (Py.rstrip s).
Proof.
  unfold Py.lower. induction s as [|a s IH]; [done|].
  simpl. rewrite IH, isspace_lower_char.
  destruct (Py.rstrip s) as [|c r]; simpl; [by destruct (Py.isspace a)|done].
Qed.

Lemma strip_lower (s : string) : Py.strip (Py.lower s) = Py.lower (Py.strip s).
Proof. unfold Py.strip. by rewrite lstrip_lower, rstrip_lower. Qed.

Lemma map_qty_uom_stable (uom : string) :
  (map_qty_uom uom = "Nos" ∨ map_qty_uom uom = EmptyString)
  ∧ (map_qty_uom uom = "Nos"
     ↔ Py.lower (Py.strip uom) ∈ ["each"; "ea"; "nos"; "no"; "pcs"; "pc"])
  ∧ map_qty_uom (map_qty_uom uom) = map_qty_uom uom
  ∧ map_qty_uom (Py.strip uom) = map_qty_uom uom
  ∧ map_qty_uom (Py.lower uom) = map_qty_uom uom.
Proof.
  split_and!.
  - unfold map_qty_uom. case_bool_decide; [by left|by right].
  - unfold map_qty_uom. case_bool_decide; [done|]. split; [discriminate|done].
  - unfold map_qty_uom at 2 3. by case_bool_decide.
  - unfold map_qty_uom. by rewrite strip_idempotent.
  - unfold map_qty_uom. by rewrite strip_lower, lower_idempotent.
Qed.

(** X21. [map_qty_uom] gives "Nos" or the empty unit, and "Nos" exactly for
    the six spellings of a piece; it ignores the case of the letters and the
    blanks around the unit, and mapping a mapped unit changes nothing. *)
Theorem unit_mapping_is_stable (uom : string) :
  (map_qty_uom uom = "Nos" ∨ map_qty_uom uom = EmptyString)
  ∧ (map_qty_uom uom = "Nos"
     ↔ Py.lower (Py.strip uom) ∈ ["each"; "ea"; "nos"; "no"; "pcs"; "pc"])
  ∧ map_qty_uom (map_qty_uom uom) = map_qty_uom uom
  ∧ map_qty_uom (Py.strip uom) = map_qty_uom uom
  ∧ map_qty_uom (Py.lower uom) = map_qty_uom uom.
Proof. apply map_qty_uom_stable. Qed.

(** ** The claims on naming and on failing rows *)

(** C5. With fuel for as many rounds as there are persisted BOM Creator
    names, [get_unique_bom_creator_name] returns. For a base name without
    surrounding blanks it returns the base name unmodified when that is not
    taken, and otherwise the first free name among base-REV1, base-REV2,
    ...; the result is never a taken name, and at most the number of
    existing names plus one existence checks are made. The base name
    [import_bom_creator] passes is the item code of a parsed node, and every
    such item code is without surrounding blanks. *)
Theorem unique_name_first_free `{PyRuntime} (fuel : nat) (d : store) :
  (size (bom_creator_names d) ≤ fuel)%nat →
  (∀ base_name,
     Py.strip base_name = base_name →
     ∃ name,
       get_unique_bom_creator_name fuel d (CStr base_name) = Some name
       ∧ (name ∉ bom_creator_names d)
       ∧ (name_checks fuel d (CStr base_name) ≤ size (bom_creator_names d) + 1)%nat
       ∧ (base_name ∉ bom_creator_names d → name = base_name)
       ∧ (base_name ∈ bom_creator_names d →
          ∃ k, (1 ≤ k)%nat ∧ name = rev_name base_name k
               ∧ ∀ j, (1 ≤ j < k)%nat → rev_name base_name j ∈ bom_creator_names d))
  ∧ (∀ hm i r n,
       node_of_row hm i r = Some n → Py.strip (Node.item_code n) = Node.item_code n).
Proof.
  intros Hfuel. split.
  - intros base_name Hstrip.
    destruct (get_unique_bom_creator_name_spec fuel d (CStr base_name) Hfuel)
      as (name & Hname & Hfree & Hchecks & Hbase & Hrev).
    simpl in Hbase, Hrev. rewrite Hstrip in Hbase, Hrev.
    exists name. by split_and!.
  - intros hm i r n Hn.
    by destruct (node_of_row_facts hm i r n Hn) as (_ & _ & _ & _ & _ & _ & Hs & _).
Qed.

(** ** Failing rows and the report of the import *)

Section FailingRowFacts.
Context `{PyRuntime} `{Collaborators}.













End FailingRowFacts.

(** * The further properties on the example data *)

(** Two columns are aliases of the item code: the last one the row reaches
    gives the value, and a row that reaches none has no item code. *)
Lemma row_data_is_rightmost_column_witness :
  let hm := build_header_map [CStr "Number"; CStr "Qty"; CStr "Item Code"] in
  get (extract_row_data [CStr "A"; CStr "2"; CStr " B "] hm) "item_code"
  = strip_cell (CStr " B ")
  ∧ get (extract_row_data [CStr "A"; CStr "2"] hm) "item_code" = strip_cell (CStr "A")
  ∧ get (extract_row_data [] hm) "item_code" = CNone.
Proof.
  intros hm.
  destruct (row_data_is_rightmost_column [CStr "A"; CStr "2"; CStr " B "] hm "item_code")
    as (_ & _ & Hlong).
  destruct (row_data_is_rightmost_column [CStr "A"; CStr "2"] hm "item_code")
    as (_ & _ & Hshort).
  destruct (row_data_is_rightmost_column [] hm "item_code") as (_ & Hnone & _).
  split; [|split].
  - apply (Hlong [(0%nat, "item_code"); (1%nat, "qty")] 2%nat (CStr " B ") []);
      [reflexivity|reflexivity|].
    intros j Hj. by apply elem_of_nil in Hj.
  - apply (Hshort [] 0%nat (CStr "A") [(1%nat, "qty"); (2%nat, "item_code")]);
      [reflexivity|reflexivity|].
    intros j Hj. apply elem_of_cons in Hj as [Hj | Hj]; [discriminate Hj|].
    apply list_elem_of_singleton in Hj as [= ->]. simpl. lia.
  - apply Hnone. intros idx _. simpl. lia.
Defined.

(** The header of the family file: "Number" is the item code column, and
    the file has a quantity column. *)
Lemma header_map_holds_the_aliased_columns_witness :
  (1%nat, "item_code") ∈ build_header_map family_header
  ∧ has_field "qty" (build_header_map family_header) = true.
Proof.
  destruct (header_map_holds_the_aliased_columns family_header) as (Helem & _ & Hhas).
  split.
  - apply Helem. exists (CStr "Number"). split; reflexivity.
  - apply Hhas. exists (CStr "Qty"). split; [|reflexivity].
    right. right. left.
Defined.

(** The family file: the node of row 3 is among the parsed nodes. *)
Lemma parsed_nodes_keep_file_order_witness :
  let hm := build_header_map family_header in
  {| Node.row_idx := 3; Node.level := 1; Node.item_code := "A";
     Node.item_name := EmptyString; Node.item_group := EmptyString;
     Node.qty := Finite (Q2Qc (20 # 10)); Node.uom := "Nos" |}
  ∈ parse_nodes hm (enumerate 2 family_data)
  ∧ (length (parse_nodes hm (enumerate 2 family_data)) ≤ 4)%nat.
Proof.
  intros hm.
  destruct (parsed_nodes_keep_file_order hm family_data 2) as (Helem & _ & Hlength).
  split; [|exact Hlength].
  apply Helem. exists [CStr "1"; CStr "A"; CStr "2 pcs"].
  split; [simpl; lia|]. split; reflexivity.
Defined.

(** A node of quantity 1 gives a row of quantity 1. *)
Lemma parsed_quantity_is_kept_witness :
  let root := example_node 2 0 "ROOT" in
  let n := example_node 3 1 "A" in
  BomItem.qty (new_row family_store n (root_frame root)) = Node.qty n
  ∧ BomItem.stock_qty (new_row family_store n (root_frame root)) = Node.qty n.
Proof.
  intros root n.
  destruct (parsed_quantity_is_kept family_store (CStr "1") n (root_frame root))
    as (_ & _ & Hstock & Hkept).
  split; [by apply Hkept|]. etrans; [exact Hstock|]. by apply Hkept.
Defined.

(** The stack after the root and a child, then a grandchild and a second
    child. *)
Lemma stack_levels_decrease_witness :
  let d := family_store in
  let root := example_node 2 0 "ROOT" in
  let b := new_bom_creator d "ROOT" root "ACME" "INR" in
  let st := tree_loop d (tree_init b root) [example_node 3 1 "A"] in
  descending (Bom.stack (tree_loop d st [example_node 4 2 "C"; example_node 5 1 "B"])).
Proof.
  intros d root b st.
  destruct (stack_levels_decrease d b root [example_node 4 2 "C"; example_node 5 1 "B"])
    as [_ Hfrom].
  apply Hfrom.
  by destruct (stack_levels_decrease d b root [example_node 3 1 "A"]) as [Hinit _].
Defined.

(** Levels 0, 0, 1: the second node is at the root's level, so the third
    finds no parent and the stack is empty. *)
Lemma second_root_orphans_the_rest_witness :
  let d := family_store in
  let root := example_node 2 0 "ROOT" in
  let b := new_bom_creator d "ROOT" root "ACME" "INR" in
  let st := tree_loop d (tree_init b root) [example_node 3 0 "A"] in
  tree_outcome d (Bom.bom_creator st) (pop_frames 1 (Bom.stack st)) (example_node 4 1 "B")
  = Bom.NoParent
  ∧ Bom.stack st = [].
Proof.
  intros d root b st.
  destruct (second_root_orphans_the_rest d b root [example_node 3 0 "A"]
              (example_node 4 1 "B")) as [Hiff Hstack].
  split.
  - apply Hiff. left. simpl. lia.
  - apply Hstack. left. simpl. lia.
Defined.

(** No file attached: [import_items] throws and the store is as before. *)
Lemma import_items_throws_before_writing_witness :
  let d := example_store EmptyString (item_header :: item_data) [] [] in
  (∃ msg, import_items d = (Throw msg, d))
  ∧ items_abort d.
Proof.
  intros d.
  destruct (import_items_throws_before_writing d) as (Hthrows & Honly & _).
  split.
  - apply Hthrows. apply ItemsMissingAttachment. reflexivity.
  - apply (Honly "Please attach a PLM file before creating items." d). reflexivity.
Defined.

(** Two submitted BOMs and a later draft of one BOM Creator: the later
    submitted one is returned. *)
Lemma latest_submitted_bom_is_returned_witness :
  let table :=
    [ {| BillOfMaterials.name := "BOM-ROOT-001"; BillOfMaterials.bom_creator := "ROOT";
         BillOfMaterials.docstatus := 1; BillOfMaterials.creation := 1 |};
      {| BillOfMaterials.name := "BOM-ROOT-002"; BillOfMaterials.bom_creator := "ROOT";
         BillOfMaterials.docstatus := 1; BillOfMaterials.creation := 5 |};
      {| BillOfMaterials.name := "BOM-ROOT-003"; BillOfMaterials.bom_creator := "ROOT";
         BillOfMaterials.docstatus := 0; BillOfMaterials.creation := 9 |} ] in
  get_bom_for_bom_creator table EmptyString = None
  ∧ get_bom_for_bom_creator table "ROOT" = Some (Some "BOM-ROOT-002")
  ∧ ∃ x, x ∈ table ∧ BillOfMaterials.name x = "BOM-ROOT-002"
         ∧ BillOfMaterials.docstatus x = 1
         ∧ ∀ y, y ∈ table → BillOfMaterials.bom_creator y = "ROOT" →
                BillOfMaterials.docstatus y = 1 →
                BillOfMaterials.creation y ≤ BillOfMaterials.creation x.
Proof.
  intros table.
  destruct (latest_submitted_bom_is_returned table EmptyString) as [Hempty _].
  destruct (latest_submitted_bom_is_returned table "ROOT") as [_ Hfilled].
  destruct Hfilled as (bom_name & Hget & _ & Hlatest); [discriminate|].
  split; [by apply Hempty|]. split; [reflexivity|].
  destruct (Hlatest "BOM-ROOT-002") as (x & Hx & Hname & _ & Hstatus & Hnewest).
  { vm_compute in Hget. congruence. }
  exists x. by split_and!.
Defined.

(** No file attached: the throw is an abort-class one. "ROOT" taken and no
    fuel: the fuel was below the number of names. *)
Lemma import_throws_only_on_abort_witness :
  let d := example_store EmptyString (family_header :: family_data) ["ROOT"] [] in
  let d2 := example_store "/files/bom.csv" (family_header :: family_data)
              ["ROOT"; "A"; "B"; "C"] ["ROOT"] in
  abort_class d
  ∧ (0 < size (bom_creator_names d2))%nat.
Proof.
  intros d d2.
  destruct (import_throws_only_on_abort 0 d) as (Honly & _ & _).
  destruct (import_throws_only_on_abort 0 d2) as (_ & _ & Hfuel).
  split.
  - apply (Honly "Please attach a PLM file before creating BOM Creator." d). reflexivity.
  - apply (Hfuel d2). reflexivity.
Defined.

(** The second data row of the family file: node A of level 1, quantity 2,
    with the unit "Nos" mapped from "pcs". *)
Lemma parsed_node_is_well_formed_witness :
  let hm := build_header_map family_header in
  let r := [CStr "1"; CStr "A"; CStr "2 pcs"] in
  ∃ n, node_of_row hm 3 r = Some n
       ∧ Node.row_idx n = 3%nat
       ∧ Node.item_code n = Py.strip (cstr (get (extract_row_data r hm) "item_code"))
       ∧ positive_number (Node.qty n)
       ∧ Node.uom n = map_qty_uom (parse_qty_and_uom (get (extract_row_data r hm) "qty")).2.
Proof.
  intros hm r.
  set (n := {| Node.row_idx := 3; Node.level := 1; Node.item_code := "A";
               Node.item_name := EmptyString; Node.item_group := EmptyString;
               Node.qty := Finite (Q2Qc (20 # 10)); Node.uom := "Nos" |}).
  destruct (parsed_node_is_well_formed hm 3 r n) as (Hi & Hc & _ & _ & Hq & _ & Hu);
    [reflexivity|].
  exists n. split; [reflexivity|]. split; [exact Hi|]. split; [exact Hc|].
  split; [exact Hq|]. apply Hu. reflexivity.
Defined.

(** Levels 0, 1, 0, 1 under a root of level 0: one row created, two nodes
    without parent. *)
Lemma tree_counters_add_up_witness :
  let d := family_store in
  let root := example_node 2 0 "ROOT" in
  let b := new_bom_creator d "ROOT" root "ACME" "INR" in
  let nodes := [example_node 3 1 "A"; example_node 4 0 "B"; example_node 5 1 "C"] in
  let st := tree_loop d (tree_init b root) nodes in
  (Bom.created st + Bom.skipped st + Bom.errors st = 3)%nat
  ∧ length (BomCreator.items (Bom.bom_creator st)) = Bom.created st
  ∧ length (Bom.logs st) = (Bom.skipped st + Bom.errors st)%nat.
Proof.
  intros d root b nodes.
  apply (tree_counters_add_up d b root nodes). reflexivity.
Defined.

Lemma parent_rows_exist_witness :
  let d := family_store in
  let root := example_node 2 0 "ROOT" in
  let b := new_bom_creator d "ROOT" root "ACME" "INR" in
  let nodes := [example_node 3 1 "A"; example_node 4 1 "B"; example_node 5 2 "C"] in
  well_linked "ROOT"
    (BomCreator.items (Bom.bom_creator (tree_loop d (tree_init b root) nodes))).
Proof.
  intros d root b nodes.
  apply (parent_rows_exist d b root nodes). reflexivity.
Defined.

(** Item X is not in the catalog: the table holds A and C, in that order. *)
Lemma table_keeps_file_order_witness :
  let d := family_store in
  let root := example_node 2 0 "ROOT" in
  let b := new_bom_creator d "ROOT" root "ACME" "INR" in
  let nodes := [example_node 3 1 "A"; example_node 4 1 "X"; example_node 5 1 "C"] in
  (BomItem.item_code
     <$> BomCreator.items (Bom.bom_creator (tree_loop d (tree_init b root) nodes)))
  `sublist_of` ["A"; "X"; "C"].
Proof.
  intros d root b nodes.
  apply (table_keeps_file_order d b root nodes). reflexivity.
Defined.

Lemma table_rows_are_catalog_items_witness :
  let d := family_store in
  let root := example_node 2 0 "ROOT" in
  let b := new_bom_creator d "ROOT" root "ACME" "INR" in
  let nodes := [example_node 3 1 "A"; example_node 4 1 "X"; example_node 5 1 "C"] in
  Forall (λ r, item_exists d (BomItem.item_code r) = true
               ∧ positive_number (BomItem.qty r)
               ∧ BomItem.stock_qty r = BomItem.qty r
               ∧ BomItem.stock_uom r = BomItem.uom r
               ∧ BomItem.allow_alternative_item r = 1)
    (BomCreator.items (Bom.bom_creator (tree_loop d (tree_init b root) nodes))).
Proof.
  intros d root b nodes.
  apply (table_rows_are_catalog_items d b root nodes). reflexivity.
Defined.

(** The item store has no item group: "Parts" is added, once. *)
Lemma ensure_item_group_ensures_witness :
  let d := item_store in
  ∃ d', ensure_item_group d "Parts" = Some ("Parts", d')
        ∧ item_group_exists d' "Parts" = true
        ∧ ensure_item_group d' "Parts" = Some ("Parts", d')
        ∧ item_group_names d' = ["Parts"]
        ∧ NoDup (item_group_names d').
Proof.
  intros d.
  set (d' := match ensure_item_group d "Parts" with
             | Some (_, d') => d'
             | None => d
             end).
  destruct (ensure_item_group_ensures d d' "Parts" "Parts")
    as (_ & Hexists & Hagain & _ & Hadded & Hnodup); [reflexivity|].
  exists d'. split; [reflexivity|]. split; [exact Hexists|]. split; [exact Hagain|].
  split.
  - unfold item_group_names. rewrite Hadded; reflexivity.
  - apply Hnodup. constructor.
Defined.

(** The first row of the item file: item A is created, named A, in the group
    "Parts". *)
Lemma created_item_is_complete_witness :
  let hm := build_header_map item_header in
  let d := item_store in
  let r := [CStr "A"; CStr "Parts"] in
  ∃ it,
    item_table (items_row hm d r).2 = item_table d ++ [it]
    ∧ Item.item_code it = "A"
    ∧ "A" = Py.strip (cstr (get (extract_row_data r hm) "item_code"))
    ∧ "A" ≠ EmptyString
    ∧ item_exists d "A" = false
    ∧ Item.item_name it ≠ EmptyString
    ∧ Item.item_group it
      = Py.strip (cstr (get (extract_row_data r hm) "item_group"))
    ∧ Item.item_group it ≠ EmptyString
    ∧ item_group_exists (items_row hm d r).2 (Item.item_group it) = true
    ∧ Item.stock_uom it ≠ EmptyString.
Proof.
  intros hm d r.
  apply (created_item_is_complete hm d (items_row hm d r).2 r "A"). reflexivity.
Defined.

(** The item file: the catalog grows, the BOM Creators stay. *)
Lemma import_items_only_adds_witness :
  let d := item_store in
  let d' := (import_items d).2 in
  item_table d `prefix_of` item_table d'
  ∧ item_group_table d `prefix_of` item_group_table d'
  ∧ bom_creator_table d' = bom_creator_table d
  ∧ (NoDup (item_codes d) → NoDup (item_codes d'))
  ∧ (NoDup (item_group_names d) → NoDup (item_group_names d'))
  ∧ Tool.plm_file (tool d') = Tool.plm_file (tool d)
  ∧ (∀ report, (import_items d).1 = Ok report →
       Tool.item_creation_log (tool d') = Items.log report).
Proof.
  intros d d'.
  apply (import_items_only_adds d d' (import_items d).1). reflexivity.
Defined.

(** The family file, "ROOT" not taken: the BOM Creator is named "ROOT". *)
Lemma import_adds_one_bom_creator_witness :
  let d := family_store in
  let d' := (import_bom_creator 0 d).2 in
  ∃ b root rest,
    select_root (parsed_nodes d) = Some (root, root :: rest)
    ∧ bom_creator_table d' = bom_creator_table d ++ [b]
    ∧ BomCreator.name b = "ROOT"
    ∧ (BomCreator.name b ∉ bom_creator_names d)
    ∧ BomCreator.name b = Node.item_code root
    ∧ BomCreator.item_code b = Node.item_code root
    ∧ item_exists d (BomCreator.item_code b) = true
    ∧ BomCreator.docstatus b = 1.
Proof.
  intros d d'.
  destruct (import_adds_one_bom_creator 0 d d'
              {| Bom.summary := "Created BOM Creator ROOT. Items: 3, Skipped: 0, Errors: 0.";
                 Bom.log := "Created BOM Creator ROOT. Items: 3, Skipped: 0, Errors: 0.";
                 Bom.bom_creator_name := "ROOT" |})
    as (b & root & rest & A1 & A2 & A3 & A4 & A5 & _ & A7 & A8 & A9 & _);
    [reflexivity|].
  exists b, root, rest.
  split; [exact A1|]. split; [exact A2|]. split; [exact A3|]. split; [exact A4|].
  split; [apply A5; apply not_elem_of_empty|].
  split; [exact A7|]. split; [exact A8|]. exact A9.
Defined.

Lemma import_leaves_catalog_alone_witness :
  let d := family_store in
  let d' := (import_bom_creator 0 d).2 in
  item_table d' = item_table d
  ∧ item_group_table d' = item_group_table d
  ∧ Tool.bom_parent_item (tool d') = "ROOT"
  ∧ Tool.bom_creation_log (tool d')
    = "Created BOM Creator ROOT. Items: 3, Skipped: 0, Errors: 0."
  ∧ Tool.item_creation_log (tool d') = Tool.item_creation_log (tool d)
  ∧ Tool.plm_file (tool d') = Tool.plm_file (tool d).
Proof.
  intros d d'.
  apply (import_leaves_catalog_alone 0 d d'
           {| Bom.summary := "Created BOM Creator ROOT. Items: 3, Skipped: 0, Errors: 0.";
              Bom.log := "Created BOM Creator ROOT. Items: 3, Skipped: 0, Errors: 0.";
              Bom.bom_creator_name := "ROOT" |}).
  reflexivity.
Defined.

(** " PCS " is a piece. *)
Lemma unit_mapping_is_stable_witness :
  map_qty_uom " PCS " = "Nos" ∧ map_qty_uom (map_qty_uom " PCS ") = "Nos".
Proof.
  destruct (unit_mapping_is_stable " PCS ") as (_ & Hiff & Hagain & _).
  assert (map_qty_uom " PCS " = "Nos") as Hnos.
  { apply Hiff. vm_compute. do 4 right. left. }
  split; [exact Hnos|]. etrans; [exact Hagain|exact Hnos].
Defined.

(** "ITEM-100" and "ITEM-100-REV1" taken: the resolver gives "ITEM-100-REV2"
    after at most three checks; a free "ITEM-200" comes back as it is. *)
Lemma unique_name_first_free_witness :
  let d := example_store "/files/bom.csv" [] [] ["ITEM-100"; "ITEM-100-REV1"] in
  (∃ name,
     get_unique_bom_creator_name 2 d (CStr "ITEM-100") = Some name
     ∧ (name ∉ bom_creator_names d)
     ∧ (name_checks 2 d (CStr "ITEM-100") ≤ size (bom_creator_names d) + 1)%nat
     ∧ ∃ k, (1 ≤ k)%nat ∧ name = rev_name "ITEM-100" k
            ∧ ∀ j, (1 ≤ j < k)%nat → rev_name "ITEM-100" j ∈ bom_creator_names d)
  ∧ get_unique_bom_creator_name 2 d (CStr "ITEM-200") = Some "ITEM-200".
Proof.
  intros d.
  destruct (unique_name_first_free 2 d) as [Hname _]; [vm_compute; repeat constructor|].
  split.
  - destruct (Hname "ITEM-100") as (name & Hget & Hfree & Hchecks & _ & Hrev);
      [reflexivity|].
    exists name. split; [exact Hget|]. split; [exact Hfree|]. split; [exact Hchecks|].
    apply Hrev. apply bom_creator_exists_names. reflexivity.
  - destruct (Hname "ITEM-200") as (name & Hget & _ & _ & Hbase & _); [reflexivity|].
    etrans; [exact Hget|]. f_equal. apply Hbase.
    rewrite <-bom_creator_exists_names. vm_compute. discriminate.
Defined.

